(** * Schedule dependency engine of DCMA2: relationship parsing, slack-chain
      tracing and delay-propagation simulation

    Shallow embedding of [src/data_processing/folga_critica.py].

    Modelling conventions.
    - A pandas DataFrame is a record of its column labels and its rows in
      order, each row keyed by its index label (an integer).  Index labels
      may repeat, as in pandas.
    - DataFrames are mutable objects: the simulator runs over a store of
      DataFrames addressed by references, [df.copy()] allocates a fresh
      reference, and every [df_sim.loc[...] = ...] writes at the
      reference of the copy.
    - Numeric cells ([Folga], [Duração BL]) and offsets are whole days ([Z]).
      Dates are day numbers; [None] is pandas' NaT.  The report tables
      keep dates as day numbers where the source renders them as text.
    - What pandas and the interpreter can represent depends on where the
      code runs; it is a parameter of the simulator ([Ambiente]): which
      [pd.Timedelta] and which Timestamps exist, which Timestamps
      [strftime] renders, and how deep [propagar_atraso] may recurse.
      Building a value that does not exist raises.  The dates a dataset
      holds are Timestamps that exist and that [strftime] renders; only
      what the simulator computes is checked against the environment.
    - The column coercions at the head of both functions ([to_datetime],
      [to_numeric]) are the identity on data of these types.
    - Text is a sequence of bytes; [\d], [str.isdigit] and [str.strip]
      are taken on ASCII.
    - Exceptions: a state-and-outcome result ([Desfecho]) records that
      something was raised; the [except Exception] clause of the public
      function turns it into the empty result.
    - The recursion of [propagar_atraso] is bounded by the recursion
      limit of the interpreter: the call that exceeds it raises
      [RecursionError].  The loop of [rastrear_cadeia] takes fuel, and
      the fuel granted is proved sufficient
      ([TracerProps.rastrear_cadeia_termina]). *)

From Stdlib Require Import ZArith String Ascii List Bool Lia.
From stdpp Require Import base strings gmap.

Import ListNotations.
Local Open Scope Z_scope.
Local Open Scope string_scope.

(** ** Strings and the regular expressions of the source *)

Module Texto.

Definition is_digit (c : ascii) : bool :=
  let n := N_of_ascii c in (N.leb 48 n && N.leb n 57)%bool.

(** [str.strip] whitespace: TAB..CR, FS..US and space. *)
Definition is_space (c : ascii) : bool :=
  let n := N_of_ascii c in
  ((N.leb 9 n && N.leb n 13) || (N.leb 28 n && N.leb n 32))%bool.

(** The separators of [re.split(';|,', _)]. *)
Definition is_sep (c : ascii) : bool :=
  (Ascii.eqb c ";" || Ascii.eqb c ",")%bool.

(** [re.split(';|,', s)]: always at least one piece. *)
Fixpoint re_split (s : string) : list string :=
  match s with
  | EmptyString => [EmptyString]
  | String c r =>
      if is_sep c then EmptyString :: re_split r
      else match re_split r with
           | [] => [String c EmptyString]
           | t :: ts => String c t :: ts
           end
  end.

Fixpoint lstrip (s : string) : string :=
  match s with
  | EmptyString => EmptyString
  | String c r => if is_space c then lstrip r else s
  end.

Fixpoint rstrip (s : string) : string :=
  match s with
  | EmptyString => EmptyString
  | String c r =>
      match rstrip r with
      | EmptyString => if is_space c then EmptyString else String c EmptyString
      | r' => String c r'
      end
  end.

Definition strip (s : string) : string := rstrip (lstrip s).

(** [re.sub(r'[^0-9]', '', s)]: the digits of [s], in order. *)
Fixpoint so_digitos (s : string) : string :=
  match s with
  | EmptyString => EmptyString
  | String c r => if is_digit c then String c (so_digitos r) else so_digitos r
  end.

(** [s.isdigit()] on ASCII text: non-empty and all digits. *)
Fixpoint todos_digitos (s : string) : bool :=
  match s with
  | EmptyString => true
  | String c r => (is_digit c && todos_digitos r)%bool
  end.

Definition isdigit (s : string) : bool :=
  match s with
  | EmptyString => false
  | _ => todos_digitos s
  end.

(** The greedy [\d*] at the head of [s]: the digits and the remainder. *)
Fixpoint span_digitos (s : string) : string * string :=
  match s with
  | EmptyString => (EmptyString, EmptyString)
  | String c r =>
      if is_digit c then
        let '(d, rest) := span_digitos r in (String c d, rest)
      else (EmptyString, s)
  end.

Definition valor_digito (c : ascii) : Z := Z.of_N (N_of_ascii c) - 48.

(** Decimal value of a digit string, most significant digit first. *)
Fixpoint int_acc (acc : Z) (s : string) : Z :=
  match s with
  | EmptyString => acc
  | String c r => int_acc (10 * acc + valor_digito c) r
  end.

(** Python's [int(s)] on the texts the source applies it to: a digit
    string, optionally preceded by one sign. *)
Definition py_int (s : string) : Z :=
  match s with
  | String "+" r => int_acc 0 r
  | String "-" r => - int_acc 0 r
  | _ => int_acc 0 s
  end.

End Texto.

(** ** Relationship parser *)

Inductive RelType := FS | SS | FF | SF.

#[global] Instance RelType_eq_dec : EqDecision RelType.
Proof. solve_decision. Defined.

(** One entry of [sucessoras_lista]: the dict [{'id', 'rel_type', 'lag'}];
    ['id'] stays the matched text, as in the source. *)
Record Sucessora := mkSucessora {
  suc_id : string;
  suc_rel_type : RelType;
  suc_lag : Z
}.

Module Parser.
Import Texto.

(** Group 2 of the pattern, [(FS|SS|FF|SF)?]. *)
Definition grupo_rel (s : string) : option RelType * string :=
  match s with
  | String "F" (String "S" r) => (Some FS, r)
  | String "S" (String "S" r) => (Some SS, r)
  | String "F" (String "F" r) => (Some FF, r)
  | String "S" (String "F" r) => (Some SF, r)
  | _ => (None, s)
  end.

(** Group 3 of the pattern, [([+-]\d+)]: the sign and at least one digit. *)
Definition grupo_lag (s : string) : option string :=
  match s with
  | String c r =>
      if (Ascii.eqb c "+" || Ascii.eqb c "-")%bool then
        match fst (span_digitos r) with
        | EmptyString => None
        | d => Some (String c d)
        end
      else None
  | EmptyString => None
  end.

(** [re.match(r'(\d+)(FS|SS|FF|SF)?(?:([+-]\d+)(?:\s*dias)?)?', item)]
    followed by the construction of the dict.  Everything after the
    leading digits is optional, so the match fails only when the item does
    not start with a digit. *)
Definition casar_item (item : string) : option Sucessora :=
  let '(task_id, r1) := span_digitos item in
  match task_id with
  | EmptyString => None
  | _ =>
      let '(rel, r2) := grupo_rel r1 in
      let rel_type := match rel with Some t => t | None => FS end in
      let lag := match grupo_lag r2 with Some g => py_int g | None => 0 end in
      Some (mkSucessora task_id rel_type lag)
  end.

Fixpoint casar_itens (ids : list string) : list Sucessora :=
  match ids with
  | [] => []
  | item :: rest =>
      match casar_item (strip item) with
      | Some s => s :: casar_itens rest
      | None => casar_itens rest
      end
  end.

(** [extrair_ids_sucessoras] of the simulator (source lines 142-156).
    [None] is a cell for which [pd.isna] holds. *)
Definition extrair_ids_sucessoras (sucessoras : option string) : list Sucessora :=
  match sucessoras with
  | None => []
  | Some EmptyString => []
  | Some s => casar_itens (re_split s)
  end.

(** [extrair_ids_sucessoras] of the tracer (source lines 42-47): every
    non-digit character of a piece is deleted, and the pieces left
    non-empty are kept. *)
Definition extrair_ids_sucessoras_tracer (sucessoras : option string) : list string :=
  match sucessoras with
  | None => []
  | Some EmptyString => []
  | Some s =>
      List.map so_digitos (List.filter (fun id => isdigit (so_digitos id)) (re_split s))
  end.

End Parser.

(** ** The schedule dataset *)

(** One row of the schedule table, restricted to the columns the engine
    reads: ['Nome da tarefa'], ['Início BL'], ['Término BL'],
    ['Duração BL'], ['Folga'], ['Sucessoras'], ['Crítica']. *)
Record Tarefa := mkTarefa {
  nome : string;
  inicio_bl : option Z;
  termino_bl : option Z;
  duracao_bl : Z;
  folga : Z;
  sucessoras : option string;
  critica : string
}.

Record DataFrame := mkDataFrame {
  columns : list string;
  linhas : list (Z * Tarefa)
}.

Module Frame.

Definition vazio : DataFrame := mkDataFrame [] [].

(** [idx in df.index] *)
Definition in_index (df : DataFrame) (idx : Z) : bool :=
  existsb (fun r => Z.eqb (fst r) idx) (linhas df).

(** [df[df.index == idx]]: the rows labelled [idx], in order. *)
Definition selecionar (df : DataFrame) (idx : Z) : list Tarefa :=
  List.map snd (List.filter (fun r => Z.eqb (fst r) idx) (linhas df)).

(** [df[df.index == idx].iloc[0]], when the selection is not empty. *)
Definition primeira (df : DataFrame) (idx : Z) : option Tarefa :=
  match selecionar df idx with
  | t :: _ => Some t
  | [] => None
  end.

(** [df.loc[idx, col]] used as a number: a [KeyError] when the label is
    absent; with a repeated label the selection is a Series, on which the
    [max(0, _)] that follows raises.  [None] stands for both. *)
Definition loc_escalar (df : DataFrame) (idx : Z) : option Tarefa :=
  match selecionar df idx with
  | [t] => Some t
  | _ => None
  end.

(** [df.loc[df.index == idx, cols] = ...]: every row labelled [idx] is
    rewritten by [f]. *)
Definition atualizar (df : DataFrame) (idx : Z) (f : Tarefa -> Tarefa) : DataFrame :=
  mkDataFrame (columns df)
    (List.map (fun r => if Z.eqb (fst r) idx then (fst r, f (snd r)) else r) (linhas df)).

(** [all(col in df.columns for col in colunas)] *)
Definition tem_colunas (df : DataFrame) (colunas : list string) : bool :=
  forallb (fun c => existsb (String.eqb c) (columns df)) colunas.

Definition max_data (a b : option Z) : option Z :=
  match a, b with
  | Some x, Some y => Some (Z.max x y)
  | Some x, None => Some x
  | None, b => b
  end.

(** [df['Término BL'].max()], which skips NaT; [None] when nothing is left. *)
Definition max_termino (df : DataFrame) : option Z :=
  fold_right (fun r acc => max_data (termino_bl (snd r)) acc) None (linhas df).

End Frame.

(** ** Slack-chain tracer *)

(** The values [current_idx] takes in [rastrear_cadeia]: the index label
    handed in by [iterrows] (an integer), then the texts produced by the
    tracer's [extrair_ids_sucessoras] (strings).  Python compares them as
    distinct objects: [5 == '5'] is false. *)
Inductive Indice := IInt (z : Z) | IStr (s : string).

#[global] Instance Indice_eq_dec : EqDecision Indice.
Proof. solve_decision. Defined.

#[global] Instance Indice_countable : Countable Indice.
Proof.
  apply (inj_countable'
           (fun i => match i with IInt z => inl z | IStr s => inr s end)
           (fun x => match x with inl z => IInt z | inr s => IStr s end)).
  by intros [].
Defined.

Module Tracer.

(** Truth value of [current_idx] in the loop test. *)
Definition truthy (i : Indice) : bool :=
  match i with
  | IInt z => negb (Z.eqb z 0)
  | IStr s => negb (String.eqb s "")
  end.

(** [int(current_idx)] *)
Definition int_de (i : Indice) : Z :=
  match i with
  | IInt z => z
  | IStr s => Texto.py_int s
  end.

(** The [for suc_idx in sucessoras] loop (source lines 71-77):
    [min_folga = None] is [float('inf')]. *)
Fixpoint escolher_proxima (df : DataFrame) (sucs : list string)
    (min_folga : option Z) (proxima_tarefa : option Indice) : option Indice :=
  match sucs with
  | [] => proxima_tarefa
  | suc_idx :: rest =>
      match Frame.primeira df (Texto.py_int suc_idx) with
      | Some suc =>
          if match min_folga with
             | None => true
             | Some m => Z.ltb (folga suc) m
             end
          then escolher_proxima df rest (Some (folga suc)) (Some (IStr suc_idx))
          else escolher_proxima df rest min_folga proxima_tarefa
      | None => escolher_proxima df rest min_folga proxima_tarefa
      end
  end.

(** The [while] loop of [rastrear_cadeia] (source lines 56-79), one
    iteration per unit of fuel; [None] when the fuel runs out before the
    loop ends. *)
Fixpoint rastrear_laco (fuel : nat) (df : DataFrame) (current_idx : option Indice)
    (visited : gset Indice) (cadeia : list string) (folga_total : Z)
    : option (list string * Z) :=
  match fuel with
  | O => None
  | S n =>
      match current_idx with
      | None => Some (cadeia, folga_total)
      | Some c =>
          if (negb (truthy c) || bool_decide (c ∈ visited))%bool
          then Some (cadeia, folga_total)
          else
            match Frame.primeira df (int_de c) with
            | None => Some (cadeia, folga_total)
            | Some tarefa_row =>
                let cadeia' := (cadeia ++ [nome tarefa_row])%list in
                let folga_total' := folga_total + folga tarefa_row in
                if String.eqb (critica tarefa_row) "Sim"
                then Some (cadeia', folga_total')
                else
                  let visited' := {[c]} ∪ visited in
                  let sucs := Parser.extrair_ids_sucessoras_tracer (sucessoras tarefa_row) in
                  rastrear_laco n df (escolher_proxima df sucs None None)
                    visited' cadeia' folga_total'
            end
      end
  end.

(** Every text the loop can take as [current_idx] after the first
    iteration: the ids extracted from some row's successors. *)
Definition ids_referidos (df : DataFrame) : list string :=
  flat_map (fun r => Parser.extrair_ids_sucessoras_tracer (sucessoras (snd r))) (linhas df).

(** Iterations granted to the loop: one for the start task, one per
    referenced id, one for the closing test. *)
Definition combustivel (df : DataFrame) : nat := S (S (length (ids_referidos df))).

(** [rastrear_cadeia(tarefa_idx, df)] *)
Definition rastrear_cadeia (tarefa_idx : Z) (df : DataFrame) : option (list string * Z) :=
  rastrear_laco (combustivel df) df (Some (IInt tarefa_idx)) ∅ [] 0.

End Tracer.

(** ** Delay propagation simulator *)

(** One dict appended to [tarefas_impactadas]. *)
Record LinhaImpacto := mkLinhaImpacto {
  li_tarefa : string;
  li_indice : Z;
  li_inicio_original : Z;
  li_termino_original : Z;
  li_inicio_novo : Z;
  li_termino_novo : Z;
  li_folga_original : Z;
  li_nova_folga : Z;
  li_atraso_inicio : Z;
  li_atraso_termino : Z
}.

(** One row of [tabela_novo_critico]. *)
Record LinhaCritico := mkLinhaCritico {
  lc_nome : string;
  lc_inicio : option Z;
  lc_termino : option Z;
  lc_duracao : Z;
  lc_folga : Z
}.

(** The three values [simular_atraso_caminho_critico] returns. *)
Record Resultado := mkResultado {
  tabela_impacto : list LinhaImpacto;
  tabela_novo_critico : list LinhaCritico;
  nova_data_termino : option Z
}.

(** DataFrames are mutable objects: the store maps references to them. *)
Abbreviation loc := nat.

(** What the closure [propagar_atraso] reads and writes: the store (in which
    [df_sim] lives), [visited] and [tarefas_impactadas]. *)
Record Estado := mkEstado {
  heap : gmap loc DataFrame;
  visited : gset Z;
  tarefas_impactadas : list LinhaImpacto
}.

(** How a call of the closure ends: it returns, or it raises. *)
Inductive Desfecho :=
  | Concluido (st : Estado)
  | Levantou (st : Estado).

(** Where the simulator runs.  [limite_recursao] is the number of nested
    calls of [propagar_atraso] the interpreter still allows when
    [simular_atraso_caminho_critico] is called (its recursion limit less
    the frames in use); [timedelta_ok n] says that [pd.Timedelta(days=n)]
    exists, [timestamp_ok d] that the Timestamp of day [d] exists, and
    [strftime_ok d] that [strftime] renders it. *)
Record Ambiente := mkAmbiente {
  limite_recursao : nat;
  timedelta_ok : Z -> bool;
  timestamp_ok : Z -> bool;
  strftime_ok : Z -> bool
}.

Module Simulador.

Definition colunas_desejadas : list string :=
  ["Nome da tarefa"; "Início BL"; "Término BL"; "Duração BL"; "Folga"; "Sucessoras"; "Crítica"].

(** The DataFrame a reference denotes. *)
Definition quadro (h : gmap loc DataFrame) (r : loc) : DataFrame :=
  default Frame.vazio (h !! r).

Definition atraso_absorvido (folga_original atraso_inicio atraso_termino : Z) : Z :=
  Z.min folga_original (Z.max atraso_inicio atraso_termino).

Definition atraso_propagado (folga_original atraso_inicio atraso_termino : Z) : Z :=
  Z.max atraso_inicio atraso_termino
  - atraso_absorvido folga_original atraso_inicio atraso_termino.

Definition nova_folga (folga_original atraso_inicio atraso_termino : Z) : Z :=
  folga_original - atraso_absorvido folga_original atraso_inicio atraso_termino.

Definition novo_inicio (inicio atraso_inicio : Z) : Z := inicio + atraso_inicio.

(** The shifted finish, rebuilt from the start when the span differs from
    the task's duration (source lines 176-182). *)
Definition novo_termino (inicio termino duracao atraso_inicio atraso_termino : Z) : Z :=
  let ni := novo_inicio inicio atraso_inicio in
  let nt := termino + atraso_termino in
  if Z.eqb (nt - ni) duracao then nt else ni + duracao.

(** Source lines 175-191 on valid dates [i] and [t]: whether every
    [pd.Timedelta] built, every Timestamp computed and the renderings of
    the two new dates exist.  Line 175 builds the offset of the start and
    the new start, line 176 those of the finish, line 180 the span as a
    Timedelta, line 182 (when the span is not the duration) the duration
    as a Timedelta and the rebuilt finish, lines 190-191 the two
    renderings.  The renderings of lines 188-189 are of dates the
    dataset holds. *)
Definition datas_calculaveis (amb : Ambiente)
    (inicio termino duracao atraso_inicio atraso_termino : Z) : bool :=
  let ni := novo_inicio inicio atraso_inicio in
  let nt := termino + atraso_termino in
  (timedelta_ok amb atraso_inicio && timestamp_ok amb ni
   && timedelta_ok amb atraso_termino && timestamp_ok amb nt
   && timedelta_ok amb (nt - ni)
   && (Z.eqb (nt - ni) duracao
       || (timedelta_ok amb duracao && timestamp_ok amb (ni + duracao)))
   && strftime_ok amb ni
   && strftime_ok amb (novo_termino inicio termino duracao atraso_inicio atraso_termino))%bool.

Definition sim_nao (nf : Z) : string := if Z.eqb nf 0 then "Sim" else "Não".

(** [visited.add(current_idx)] *)
Definition marcar (current_idx : Z) (st : Estado) : Estado :=
  mkEstado (heap st) ({[current_idx]} ∪ visited st) (tarefas_impactadas st).

(** The row the four [df_sim.loc[...] = ...] assignments leave behind. *)
Definition reescrever (ni nt nf : Z) (t : Tarefa) : Tarefa :=
  mkTarefa (nome t) (Some ni) (Some nt) (duracao_bl t) nf (sucessoras t) (sim_nao nf).

(** Source lines 168-202 for a task with valid dates [i] and [t]: the
    impact row is appended and the working copy rewritten. *)
Definition registrar (df_sim : loc) (current_idx : Z) (tarefa : Tarefa) (i t : Z)
    (atraso_inicio atraso_termino : Z) (st : Estado) : Estado :=
  let folga_original := folga tarefa in
  let nf := nova_folga folga_original atraso_inicio atraso_termino in
  let ni := novo_inicio i atraso_inicio in
  let nt := novo_termino i t (duracao_bl tarefa) atraso_inicio atraso_termino in
  let linha := mkLinhaImpacto (nome tarefa) current_idx i t ni nt folga_original nf
                 atraso_inicio atraso_termino in
  mkEstado
    (<[df_sim := Frame.atualizar (quadro (heap st) df_sim) current_idx (reescrever ni nt nf)]>
       (heap st))
    (visited st)
    (tarefas_impactadas st ++ [linha])%list.

(** The offsets a relationship hands to its successor, before flooring
    (source lines 212-223); [None] when reading the successor's duration
    raises. *)
Definition atraso_sucessora (df : DataFrame) (atraso_inicio atraso_termino propagado : Z)
    (suc : Sucessora) : option (Z * Z) :=
  let suc_idx := Texto.py_int (suc_id suc) in
  let lag := suc_lag suc in
  match suc_rel_type suc with
  | FS => Some (propagado + lag, propagado + lag)
  | SS => Some (atraso_inicio + lag, atraso_inicio + lag)
  | FF =>
      match Frame.loc_escalar df suc_idx with
      | Some s => Some (atraso_termino + lag - duracao_bl s, atraso_termino + lag)
      | None => None
      end
  | SF =>
      match Frame.loc_escalar df suc_idx with
      | Some s => Some (atraso_termino + lag, atraso_termino + lag + duracao_bl s)
      | None => None
      end
  end.

(** The [for suc in sucessoras] loop, with the recursive call abstracted
    as [rec]. *)
Fixpoint laco_sucessoras (rec : Z -> Z -> Z -> Estado -> Desfecho) (df_sim : loc)
    (atraso_inicio atraso_termino propagado : Z) (sucs : list Sucessora)
    (st : Estado) : Desfecho :=
  match sucs with
  | [] => Concluido st
  | suc :: rest =>
      match atraso_sucessora (quadro (heap st) df_sim)
              atraso_inicio atraso_termino propagado suc with
      | None => Levantou st
      | Some (novo_atraso_inicio, novo_atraso_termino) =>
          match rec (Texto.py_int (suc_id suc))
                  (Z.max 0 novo_atraso_inicio) (Z.max 0 novo_atraso_termino) st with
          | Concluido st' =>
              laco_sucessoras rec df_sim atraso_inicio atraso_termino propagado rest st'
          | outro => outro
          end
      end
  end.

(** [propagar_atraso] (source lines 163-227).  [limite] is the number of
    nested calls the interpreter still allows: with none left the call
    raises [RecursionError] before its body runs.  A NaT date makes
    [strftime] raise, and a date or offset that the environment cannot
    represent makes lines 175-191 raise, after the task was marked
    visited and before anything was recorded. *)
Fixpoint propagar_atraso (amb : Ambiente) (limite : nat) (df_sim : loc)
    (current_idx atraso_inicio atraso_termino : Z) (st : Estado) : Desfecho :=
  match limite with
  | O => Levantou st
  | S n =>
      if (bool_decide (current_idx ∈ visited st)
          || negb (Frame.in_index (quadro (heap st) df_sim) current_idx))%bool
      then Concluido st
      else
        let st1 := marcar current_idx st in
        match Frame.primeira (quadro (heap st1) df_sim) current_idx with
        | None => Levantou st1
        | Some tarefa =>
            match inicio_bl tarefa, termino_bl tarefa with
            | Some i, Some t =>
                if datas_calculaveis amb i t (duracao_bl tarefa)
                     atraso_inicio atraso_termino
                then
                  let st2 := registrar df_sim current_idx tarefa i t
                               atraso_inicio atraso_termino st1 in
                  laco_sucessoras (propagar_atraso amb n df_sim) df_sim
                    atraso_inicio atraso_termino
                    (atraso_propagado (folga tarefa) atraso_inicio atraso_termino)
                    (Parser.extrair_ids_sucessoras (sucessoras tarefa)) st2
                else Levantou st1
            | _, _ => Levantou st1
            end
        end
  end.

(** [df_sim[df_sim['Folga'] == 0][[...]]] *)
Definition novo_critico (df : DataFrame) : list LinhaCritico :=
  List.map
    (fun r => let t := snd r in
              mkLinhaCritico (nome t) (inicio_bl t) (termino_bl t) (duracao_bl t) (folga t))
    (List.filter (fun r => Z.eqb (folga (snd r)) 0) (linhas df)).

(** [pd.DataFrame(), pd.DataFrame(), None] *)
Definition resultado_vazio : Resultado := mkResultado [] [] None.

(** [simular_atraso_caminho_critico(df, tarefa_idx, dias_atraso)], run in
    the environment [amb].  [df] is a reference into the store [h]; the
    store after the call is returned with the result.  Whatever is
    raised inside is caught by the [except Exception] clause, which
    returns the empty result; a reference that denotes no DataFrame
    stands for an argument without [columns], on which the first test
    raises.  [None] would be a call that returns nothing. *)
Definition simular_atraso_caminho_critico (amb : Ambiente) (h : gmap loc DataFrame)
    (df : loc) (tarefa_idx dias_atraso : Z) : gmap loc DataFrame * option Resultado :=
  match h !! df with
  | None => (h, Some resultado_vazio)
  | Some d =>
      if negb (Frame.tem_colunas d colunas_desejadas) then (h, Some resultado_vazio)
      else
        let df_sim := fresh (dom h) in
        let h1 := <[df_sim := d]> h in
        if negb (Frame.in_index (quadro h1 df_sim) tarefa_idx)
        then (h1, Some resultado_vazio)
        else
          match propagar_atraso amb (limite_recursao amb) df_sim tarefa_idx
                  dias_atraso dias_atraso (mkEstado h1 ∅ []) with
          | Levantou st => (heap st, Some resultado_vazio)
          | Concluido st =>
              (heap st,
               Some (mkResultado (tarefas_impactadas st)
                       (novo_critico (quadro (heap st) df_sim))
                       (Frame.max_termino (quadro (heap st) df_sim))))
          end
  end.

End Simulador.

(** ** Vocabulary of the statements *)

Module Vocabulario.
Import Texto.

(** The text of a relationship code. *)
Definition codigo (r : RelType) : string :=
  match r with FS => "FS" | SS => "SS" | FF => "FF" | SF => "SF" end.

(** The optional code of a token as written. *)
Definition texto_rel (rel : option RelType) : string :=
  match rel with Some r => codigo r | None => "" end.

(** The sign that opens a lag. *)
Definition e_sinal (c : ascii) : Prop := c = "+"%char \/ c = "-"%char.

(** No separator and no whitespace in [s]. *)
Fixpoint limpo (s : string) : bool :=
  match s with
  | EmptyString => true
  | String c r => (negb (is_sep c) && negb (is_space c) && limpo r)%bool
  end.

(** The ids of a reference string in the words of the specification
    (section 4.1): split on [;] or [,]; the id of a token is its leading
    digits (white space around the token apart); a token that yields no
    digits is discarded. *)
Definition ids_da_especificacao (sucessoras : option string) : list string :=
  match sucessoras with
  | None => []
  | Some EmptyString => []
  | Some s =>
      List.filter (fun id => negb (String.eqb id ""))
        (List.map (fun item => fst (span_digitos (strip item))) (re_split s))
  end.

(** A property of the state a call leaves behind, whether it returned
    or raised. *)
Definition em_desfecho (P : Estado -> Prop) (d : Desfecho) : Prop :=
  match d with
  | Concluido st | Levantou st => P st
  end.

(** A property of the state a call leaves behind when it returns. *)
Definition ao_concluir (P : Estado -> Prop) (d : Desfecho) : Prop :=
  match d with
  | Concluido st => P st
  | Levantou _ => True
  end.

(** A recursion depth that is enough for any propagation over [d]: one
    level per row, and one for the call that finds its task visited or
    absent. *)
Definition profundidade (d : DataFrame) : nat := S (length (linhas d)).

(** Two rows that differ at most in the four cells the simulator writes. *)
Definition mesma_linha (r r' : Z * Tarefa) : Prop :=
  fst r = fst r' /\ nome (snd r) = nome (snd r') /\
  duracao_bl (snd r) = duracao_bl (snd r') /\
  sucessoras (snd r) = sucessoras (snd r').

(** Two tables with the same columns and, row by row, the same labels,
    names, durations and successors. *)
Definition mesma_forma (d d' : DataFrame) : Prop :=
  columns d = columns d' /\ Forall2 mesma_linha (linhas d) (linhas d').

(** What every state of one propagation keeps of the state it started
    from: the tasks [V] stay visited, the working copy [df_sim] keeps the
    shape of [d0], and no other DataFrame of the store [h0] is touched. *)
Definition estrutura (df_sim : loc) (h0 : gmap loc DataFrame) (d0 : DataFrame)
    (V : gset Z) (st : Estado) : Prop :=
  V ⊆ visited st /\
  mesma_forma d0 (Simulador.quadro (heap st) df_sim) /\
  forall r, r <> df_sim -> heap st !! r = h0 !! r.

(** The boolean the ['Crítica'] cell stands for. *)
Definition is_critical (t : Tarefa) : bool := String.eqb (critica t) "Sim".

(** What a row written by the simulator must satisfy: a slack that is not
    negative, and the critical flag set exactly when the slack is 0. *)
Definition escrita_valida (t : Tarefa) : Prop :=
  0 <= folga t /\ (is_critical t = true <-> folga t = 0).

(** Every row of the working copy is a row of [d0] or a valid write, and
    every impact row records a slack that is not negative. *)
Definition escritas_validas (df_sim : loc) (d0 : DataFrame) (st : Estado) : Prop :=
  (forall r, In r (linhas (Simulador.quadro (heap st) df_sim)) ->
     In r (linhas d0) \/ escrita_valida (snd r)) /\
  (forall l, In l (tarefas_impactadas st) -> 0 <= li_nova_folga l).

(** Task [b] was processed: it is visited, its row in the working copy
    is [B'], and the impact row [l] was recorded. *)
Definition processada (df_sim : loc) (b : Z) (B' : Tarefa) (l : LinhaImpacto)
    (st : Estado) : Prop :=
  b ∈ visited st /\
  Frame.primeira (Simulador.quadro (heap st) df_sim) b = Some B' /\
  In l (tarefas_impactadas st).

(** The reference scenario: the dataset [d] holds task A (label [a],
    duration 5, slack 0, dates [iA], [tA]) whose only successor is task B
    (label [b], duration 3, slack 0, dates [s], [f] spanning the
    duration), through an FS relationship with lag +2. *)
Definition cenario_fs (d : DataFrame) (a b : Z) (A B : Tarefa) (iA tA s f : Z) : Prop :=
  Frame.primeira d a = Some A /\ duracao_bl A = 5 /\ folga A = 0 /\
  inicio_bl A = Some iA /\ termino_bl A = Some tA /\
  (exists idB, Parser.extrair_ids_sucessoras (sucessoras A) = [mkSucessora idB FS 2] /\
               Texto.py_int idB = b) /\
  a <> b /\
  Frame.primeira d b = Some B /\ duracao_bl B = 3 /\ folga B = 0 /\
  inicio_bl B = Some s /\ termino_bl B = Some f /\ f - s = 3.

(** An impact row that moves nothing earlier: offsets floored at 0, the
    start not before the original start and, for a task of [d0] whose
    original span is its duration, the finish not before the original
    finish. *)
Definition nao_antecipada (d0 : DataFrame) (l : LinhaImpacto) : Prop :=
  0 <= li_atraso_inicio l /\ 0 <= li_atraso_termino l /\
  li_inicio_original l <= li_inicio_novo l /\
  (forall T0, Frame.primeira d0 (li_indice l) = Some T0 ->
     li_termino_original l - li_inicio_original l = duracao_bl T0 ->
     li_termino_original l <= li_termino_novo l).

(** The offsets of a call: any for the seed, floored at 0 for the rest. *)
Definition piso_chamada (seed idx ai af : Z) : Prop :=
  idx = seed \/ (0 <= ai /\ 0 <= af).

(** Every impact row but the seed's moves nothing earlier. *)
Definition piso (df_sim : loc) (h0 : gmap loc DataFrame) (d0 : DataFrame) (seed : Z)
    (st : Estado) : Prop :=
  estrutura df_sim h0 d0 ∅ st /\
  forall l, In l (tarefas_impactadas st) -> li_indice l <> seed -> nao_antecipada d0 l.

(** Two tasks with the same cells, the critical flag apart. *)
Definition mesmos_campos (t t' : Tarefa) : Prop :=
  nome t = nome t' /\ inicio_bl t = inicio_bl t' /\ termino_bl t = termino_bl t' /\
  duracao_bl t = duracao_bl t' /\ folga t = folga t' /\ sucessoras t = sucessoras t'.

(** Two tables with, row by row, the same label, start, finish, duration,
    slack and successors. *)
Definition mesmo_cronograma (d d' : DataFrame) : Prop :=
  columns d = columns d' /\
  Forall2 (fun r r' => fst r = fst r' /\ mesmos_campos (snd r) (snd r'))
    (linhas d) (linhas d').

(** A relationship that hands its successor no offset of its own when the
    incoming delay is 0: the floored offsets of source lines 212-227 are
    (0, 0), and reading the successor's duration does not raise. *)
Definition aresta_neutra (d : DataFrame) (suc : Sucessora) : bool :=
  let lag := suc_lag suc in
  match suc_rel_type suc with
  | FS | SS => Z.leb lag 0
  | FF =>
      match Frame.loc_escalar d (Texto.py_int (suc_id suc)) with
      | Some s => (Z.leb lag 0 && Z.leb (lag - duracao_bl s) 0)%bool
      | None => false
      end
  | SF =>
      match Frame.loc_escalar d (Texto.py_int (suc_id suc)) with
      | Some s => (Z.leb lag 0 && Z.leb (lag + duracao_bl s) 0)%bool
      | None => false
      end
  end.

(** The data-model invariants of one task: slack not negative, valid
    dates, finish - start = duration. *)
Definition tarefa_regular (t : Tarefa) : Prop :=
  0 <= folga t /\
  exists i f, inicio_bl t = Some i /\ termino_bl t = Some f /\ f - i = duracao_bl t.

(** A dataset with unique labels, regular tasks and neutral
    relationships only. *)
Definition cronograma_neutro (d : DataFrame) : Prop :=
  NoDup (fst <$> linhas d) /\
  forall r, In r (linhas d) ->
    tarefa_regular (snd r) /\
    forall suc, In suc (Parser.extrair_ids_sucessoras (sucessoras (snd r))) ->
                aresta_neutra d suc = true.

(** The environment represents the dates of [d] as they stand: a
    Timedelta of 0 days exists, and for every task with valid dates the
    two Timestamps exist, [strftime] renders them, and the span between
    them exists as a Timedelta. *)
Definition datas_representadas (amb : Ambiente) (d : DataFrame) : Prop :=
  timedelta_ok amb 0 = true /\
  forall r i t, In r (linhas d) ->
    inicio_bl (snd r) = Some i -> termino_bl (snd r) = Some t ->
    timestamp_ok amb i = true /\ timestamp_ok amb t = true /\
    timedelta_ok amb (t - i) = true /\
    strftime_ok amb i = true /\ strftime_ok amb t = true.

(** The index labels of a table, as a set. *)
Definition rotulos (d : DataFrame) : gset Z := list_to_set (fst <$> linhas d).

(** Everything [current_idx] can be during one call of the tracer. *)
Definition candidatos (df : DataFrame) (inicial : Indice) : gset Indice :=
  {[inicial]} ∪ list_to_set (IStr <$> Tracer.ids_referidos df).

End Vocabulario.

(** ** Example datasets *)

Module Exemplos.
Import Simulador.

(** pandas at its nanosecond resolution, with day 0 at 1970-01-01:
    Timestamps exist from 1677-09-22 to 2262-04-11, Timedeltas up to
    106751 days either way, and [strftime] renders every such Timestamp;
    900 nested calls are left of the 1000 the interpreter allows. *)
Definition dias_ns (n : Z) : bool := (Z.leb (-106751) n && Z.leb n 106751)%bool.
Definition pandas_ns : Ambiente := mkAmbiente 900 dias_ns dias_ns dias_ns.

(** Task A (duration 5, slack 0) linked to task B (duration 3, slack 0) by
    an FS relationship with lag +2. *)
Definition tarefa_A : Tarefa := mkTarefa "A" (Some 0) (Some 5) 5 0 (Some "2FS+2") "Sim".
Definition tarefa_B : Tarefa := mkTarefa "B" (Some 10) (Some 13) 3 0 (Some "") "Sim".
Definition df_AB : DataFrame := mkDataFrame colunas_desejadas [(1, tarefa_A); (2, tarefa_B)].
Definition store_AB : gmap loc DataFrame := {[ 0%nat := df_AB ]}.

(** The same two tasks linked by a plain reference, with no lag. *)
Definition df_neutro : DataFrame :=
  mkDataFrame colunas_desejadas
    [(1, mkTarefa "A" (Some 0) (Some 5) 5 0 (Some "2") "Sim"); (2, tarefa_B)].
Definition store_neutro : gmap loc DataFrame := {[ 0%nat := df_neutro ]}.

(** Three tasks under the labels 0, 1, 2 whose successors form the cycle
    1 -> 2 -> 0 -> 1. *)
Definition df_ciclo : DataFrame :=
  mkDataFrame colunas_desejadas
    [(0, mkTarefa "A" (Some 8) (Some 10) 2 1 (Some "1") "Não");
     (1, mkTarefa "B" (Some 0) (Some 5) 5 2 (Some "2") "Não");
     (2, mkTarefa "C" (Some 5) (Some 8) 3 3 (Some "0") "Não")].

(** A critical task under the index label 0, the first label pandas gives. *)
Definition tarefa_zero : Tarefa := mkTarefa "A" (Some 0) (Some 5) 5 3 (Some "") "Sim".
Definition df_zero : DataFrame := mkDataFrame colunas_desejadas [(0, tarefa_zero)].

(** Task B with a finish 10 days after its start and a duration of 3,
    after task A linked to it by a plain reference. *)
Definition tarefa_B_longa : Tarefa := mkTarefa "B" (Some 10) (Some 20) 3 0 (Some "") "Sim".
Definition df_AB_longa : DataFrame :=
  mkDataFrame colunas_desejadas
    [(1, mkTarefa "A" (Some 0) (Some 5) 5 0 (Some "2") "Sim"); (2, tarefa_B_longa)].
Definition store_AB_longa : gmap loc DataFrame := {[ 0%nat := df_AB_longa ]}.

(** Tasks A and B of the reference scenario with B five days before the
    last Timestamp of [pandas_ns]. *)
Definition tarefa_B_tardia : Tarefa :=
  mkTarefa "B" (Some 106746) (Some 106749) 3 0 (Some "") "Sim".
Definition df_AB_tardio : DataFrame :=
  mkDataFrame colunas_desejadas [(1, tarefa_A); (2, tarefa_B_tardia)].
Definition store_AB_tardio : gmap loc DataFrame := {[ 0%nat := df_AB_tardio ]}.

(** One task without successors. *)
Definition tarefa_solo : Tarefa := mkTarefa "T" (Some 10) (Some 15) 5 2 (Some "") "Não".
Definition df_solo : DataFrame := mkDataFrame colunas_desejadas [(7, tarefa_solo)].
Definition store_solo : gmap loc DataFrame := {[ 0%nat := df_solo ]}.

(** A table from which the ['Folga'] column is missing. *)
Definition df_sem_folga : DataFrame :=
  mkDataFrame ["Nome da tarefa"; "Início BL"; "Término BL"; "Duração BL"; "Sucessoras"; "Crítica"]
    [(7, tarefa_solo)].
Definition store_sem_folga : gmap loc DataFrame := {[ 0%nat := df_sem_folga ]}.

End Exemplos.

(** ** Statements that the code does not meet as they are worded *)

(** "Offsets passed onward are floored at 0 (a relationship never pulls a
    successor earlier than its current schedule)": in every impact row
    but the seed's, offsets, start and finish are not before the
    original ones. *)
Definition sucessora_nunca_antecipada : Prop :=
  forall amb (h : gmap loc DataFrame) df d idx dias res l,
    h !! df = Some d ->
    snd (Simulador.simular_atraso_caminho_critico amb h df idx dias) = Some res ->
    In l (tabela_impacto res) -> li_indice l <> idx ->
    0 <= li_atraso_inicio l /\ 0 <= li_atraso_termino l /\
    li_inicio_original l <= li_inicio_novo l /\
    li_termino_original l <= li_termino_novo l.

(** "[simulate(ds, T, 0)] leaves every task's start/finish/slack unchanged
    and returns the same project finish date as the unmodified dataset's
    maximum finish", for every dataset and every task in it. *)
Definition atraso_zero_sem_efeito : Prop :=
  forall amb (h : gmap loc DataFrame) df d idx,
    h !! df = Some d ->
    Frame.tem_colunas d Simulador.colunas_desejadas = true ->
    Frame.in_index d idx = true ->
    exists res,
      snd (Simulador.simular_atraso_caminho_critico amb h df idx 0) = Some res /\
      Vocabulario.mesmo_cronograma d
        (Simulador.quadro (fst (Simulador.simular_atraso_caminho_critico amb h df idx 0))
           (fresh (dom h))) /\
      nova_data_termino res = Frame.max_termino d.

(** "For a seed task with an empty successors string and non-negative
    slack, [simulate(ds, T, d)] with d < 0 records exactly one impact
    row", with the start moved by d, for every d < 0. *)
Definition atraso_negativo_aceito : Prop :=
  forall amb (h : gmap loc DataFrame) df d idx dias T i t,
    h !! df = Some d ->
    Frame.tem_colunas d Simulador.colunas_desejadas = true ->
    Frame.primeira d idx = Some T ->
    inicio_bl T = Some i -> termino_bl T = Some t ->
    sucessoras T = None \/ sucessoras T = Some "" ->
    0 <= folga T -> dias < 0 ->
    exists l res,
      snd (Simulador.simular_atraso_caminho_critico amb h df idx dias) = Some res /\
      tabela_impacto res = [l] /\
      li_inicio_novo l = i + dias.

(** ** Written references *)

Module Referencias.
Import Texto Vocabulario.

(** A reference as it is written in a successors cell: the id, the
    optional code, the optional lag as a sign and its digits. *)
Record Referencia := mkReferencia {
  ref_id : string;
  ref_rel : option RelType;
  ref_lag : option (ascii * string)
}.

Definition texto_lag (l : option (ascii * string)) : string :=
  match l with
  | Some (sinal, ds) => String sinal ds
  | None => ""
  end.

Definition texto_referencia (r : Referencia) : string :=
  ref_id r ++ texto_rel (ref_rel r) ++ texto_lag (ref_lag r).

Definition referencia_bem_formada (r : Referencia) : Prop :=
  isdigit (ref_id r) = true /\
  match ref_lag r with
  | Some (sinal, ds) => e_sinal sinal /\ isdigit ds = true
  | None => True
  end.

(** The entry a written reference stands for. *)
Definition entrada (r : Referencia) : Sucessora :=
  mkSucessora (ref_id r)
    (match ref_rel r with Some t => t | None => FS end)
    (match ref_lag r with
     | Some (sinal, ds) => py_int (String sinal ds)
     | None => 0
     end).

(** The texts joined by the separator [sep]. *)
Fixpoint juntar (sep : ascii) (itens : list string) : string :=
  match itens with
  | [] => ""
  | [item] => item
  | item :: resto => item ++ String sep (juntar sep resto)
  end.

(** No digit in [s]. *)
Definition sem_digitos (s : string) : Prop := so_digitos s = "".

(** Only digits and separators in [s]. *)
Fixpoint so_ids (s : string) : bool :=
  match s with
  | EmptyString => true
  | String c r => ((is_digit c || is_sep c) && so_ids r)%bool
  end.

End Referencias.

(** ** Vocabulary for the state of a propagation *)

Module Registro.
Import Simulador Vocabulario.

(** The row [T'] of the working copy holds what the impact row [l]
    records as new. *)
Definition espelho (l : LinhaImpacto) (T' : Tarefa) : Prop :=
  nome T' = li_tarefa l /\
  inicio_bl T' = Some (li_inicio_novo l) /\
  termino_bl T' = Some (li_termino_novo l) /\
  folga T' = li_nova_folga l /\
  critica T' = sim_nao (li_nova_folga l).

(** No label occurs twice in the impact rows; every label in them is
    visited, is a label of [d0], and its row in the working copy mirrors
    the impact row. *)
Definition registro_coerente (df_sim : loc) (d0 : DataFrame) (st : Estado) : Prop :=
  NoDup (li_indice <$> tarefas_impactadas st) /\
  forall l, In l (tarefas_impactadas st) ->
    li_indice l ∈ visited st /\ li_indice l ∈ rotulos d0 /\
    exists T', Frame.primeira (quadro (heap st) df_sim) (li_indice l) = Some T' /\
               espelho l T'.

(** The rows under a label without impact row are those of [d0]. *)
Definition intocadas (df_sim : loc) (d0 : DataFrame) (st : Estado) : Prop :=
  forall k, k ∉ (li_indice <$> tarefas_impactadas st) ->
    Frame.selecionar (quadro (heap st) df_sim) k = Frame.selecionar d0 k.

(** A task whose dates are valid and span its duration. *)
Definition abrange_duracao (t : Tarefa) : Prop :=
  exists i f, inicio_bl t = Some i /\ termino_bl t = Some f /\ f - i = duracao_bl t.

(** The first row under every label is the one of [d0] or spans its
    duration. *)
Definition duracao_mantida (df_sim : loc) (d0 : DataFrame) (st : Estado) : Prop :=
  forall k T', Frame.primeira (quadro (heap st) df_sim) k = Some T' ->
    Frame.primeira d0 k = Some T' \/ abrange_duracao T'.

(** What one impact row says of the arithmetic of its task: the start
    moves by the start offset, and the new slack is what is left of the
    original slack after the larger offset, never less than 0. *)
Definition aritmetica_da_linha (l : LinhaImpacto) : Prop :=
  li_inicio_novo l = li_inicio_original l + li_atraso_inicio l /\
  li_nova_folga l =
    Z.max 0 (li_folga_original l - Z.max (li_atraso_inicio l) (li_atraso_termino l)).

(** The impact rows start with [l0]. *)
Definition comeca_por (l0 : LinhaImpacto) (st : Estado) : Prop :=
  exists resto, tarefas_impactadas st = l0 :: resto.

End Registro.

(** ** More example datasets *)

Module Exemplos2.
Import Simulador.

(** A task without finish date. *)
Definition tarefa_nat : Tarefa := mkTarefa "T" (Some 0) None 4 0 None "Sim".
Definition df_nat : DataFrame := mkDataFrame colunas_desejadas [(3, tarefa_nat)].
Definition store_nat : gmap loc DataFrame := {[ 0%nat := df_nat ]}.

(** A task whose successor, id 9, is not in the table: by FF, and by FS. *)
Definition tarefa_ff : Tarefa := mkTarefa "T" (Some 0) (Some 4) 4 0 (Some "9FF+1") "Sim".
Definition df_ff : DataFrame := mkDataFrame colunas_desejadas [(3, tarefa_ff)].
Definition store_ff : gmap loc DataFrame := {[ 0%nat := df_ff ]}.
Definition tarefa_fs : Tarefa := mkTarefa "T" (Some 0) (Some 4) 4 0 (Some "9FS+1") "Sim".
Definition df_fs : DataFrame := mkDataFrame colunas_desejadas [(3, tarefa_fs)].
Definition store_fs : gmap loc DataFrame := {[ 0%nat := df_fs ]}.

(** The result of delaying task A of [df_AB] by 4 days. *)
Definition resultado_AB : Resultado :=
  mkResultado
    [mkLinhaImpacto "A" 1 0 5 4 9 0 0 4 4; mkLinhaImpacto "B" 2 10 13 16 19 0 0 6 6]
    [mkLinhaCritico "A" (Some 4) (Some 9) 5 0; mkLinhaCritico "B" (Some 16) (Some 19) 3 0]
    (Some 19).

End Exemplos2.

(** ** The offsets of a relationship, as a table *)

Module Tabela.

(** The offsets a relationship of type [rel] and lag [lag] hands to its
    successor before flooring, as the table of the specification gives
    them (section 4.3): [dias] is the offset of the predecessor,
    [propagado] what its slack did not absorb, [duracao_suc] the
    successor's duration. *)
Definition tabela_de_atrasos (rel : RelType) (lag dias propagado duracao_suc : Z) : Z * Z :=
  match rel with
  | FS => (propagado + lag, propagado + lag)
  | SS => (dias + lag, dias + lag)
  | FF => (dias + lag - duracao_suc, dias + lag)
  | SF => (dias + lag, dias + lag + duracao_suc)
  end.

(** The finish of [r'] is not before the finish of [r]. *)
Definition termino_nao_antes (r r' : Z * Tarefa) : Prop :=
  forall f, termino_bl (snd r) = Some f ->
    exists f', termino_bl (snd r') = Some f' /\ f <= f'.

(** Row by row, same labels, no finish earlier than in [d0], and the
    rows under labels not yet visited as in [d0]. *)
Definition terminos_nao_antes (df_sim : loc) (d0 : DataFrame) (st : Estado) : Prop :=
  Forall2 (fun r0 r => In r0 (linhas d0) /\ fst r0 = fst r /\ termino_nao_antes r0 r /\
                       (fst r ∉ visited st -> r = r0))
    (linhas d0) (linhas (Simulador.quadro (heap st) df_sim)).

(** Unique labels, and every task with valid dates spans its duration. *)
Definition cronograma_regular (d : DataFrame) : Prop :=
  NoDup (fst <$> linhas d) /\
  forall r i f, In r (linhas d) ->
    inicio_bl (snd r) = Some i -> termino_bl (snd r) = Some f ->
    f - i = duracao_bl (snd r).

End Tabela.

(** ** The short-slack chain analysis *)

(** [analisar_cadeias_folga_curta] up to its list [resultados] (source
    lines 17-92).  The function returns these rows as a table ordered by
    [sort_values] on the total of the chain, which fixes no order among
    rows of equal total; the order is left out, the rows are as the loop
    builds them. *)
Module Cadeias.

(** One dict appended to [resultados]. *)
Record LinhaCadeia := mkLinhaCadeia {
  lc_tarefa : string;
  lc_folga : Z;
  lc_cadeia : string;
  lc_folga_total : Z
}.

Definition colunas_desejadas : list string :=
  ["Nome da tarefa"; "Folga"; "Sucessoras"; "Crítica"].

(** [sep.join(itens)] *)
Fixpoint join (sep : string) (itens : list string) : string :=
  match itens with
  | [] => ""
  | [item] => item
  | item :: resto => item ++ sep ++ join sep resto
  end.

(** [(df['Folga'] > 0) & (df['Folga'] <= limite_folga)] at one row. *)
Definition folga_curta (limite_folga : Z) (r : Z * Tarefa) : bool :=
  (Z.ltb 0 (folga (snd r)) && Z.leb (folga (snd r)) limite_folga)%bool.

Definition tarefas_folga_curta (df : DataFrame) (limite_folga : Z) : list (Z * Tarefa) :=
  List.filter (folga_curta limite_folga) (linhas df).

(** The [for idx, row in tarefas_folga_curta.iterrows()] loop. *)
Fixpoint laco_resultados (df : DataFrame) (rows : list (Z * Tarefa))
    : option (list LinhaCadeia) :=
  match rows with
  | [] => Some []
  | (idx, row) :: rest =>
      match Tracer.rastrear_cadeia idx df with
      | None => None
      | Some (cadeia, folga_total) =>
          match laco_resultados df rest with
          | None => None
          | Some resultados =>
              Some (mkLinhaCadeia (nome row) (folga row) (join " → " cadeia) folga_total
                      :: resultados)
          end
      end
  end.

(** The rows of the table returned: none when a column is missing or no
    task has short slack. *)
Definition resultados (df : DataFrame) (limite_folga : Z) : option (list LinhaCadeia) :=
  if negb (Frame.tem_colunas df colunas_desejadas) then Some []
  else
    match tarefas_folga_curta df limite_folga with
    | [] => Some []
    | rows => laco_resultados df rows
    end.

(** What the row of the table built for the dataset row [r] holds. *)
Definition linha_da_tarefa (df : DataFrame) (limite_folga : Z)
    (r : Z * Tarefa) (l : LinhaCadeia) : Prop :=
  In r (linhas df) /\
  lc_tarefa l = nome (snd r) /\ lc_folga l = folga (snd r) /\
  0 < lc_folga l <= limite_folga /\
  (fst r = 0 -> lc_cadeia l = "" /\ lc_folga_total l = 0) /\
  (fst r <> 0 ->
     exists t resto,
       Frame.primeira df (fst r) = Some t /\
       lc_cadeia l = join " → " (nome t :: resto) /\
       ((forall r', In r' (linhas df) -> 0 <= folga (snd r')) ->
        folga t <= lc_folga_total l)).

End Cadeias.

(** * Properties *)

(** ** Finite sets *)

Lemma size_difference_le `{Countable A} (X Y : gset A) :
  (size (X ∖ Y) <= size X)%nat.
Proof.
  apply subseteq_size. intros x Hx. by apply elem_of_difference in Hx as [? _].
Qed.

Lemma size_list_to_set_le `{Countable A} (l : list A) :
  (size (list_to_set l : gset A) <= length l)%nat.
Proof.
  induction l as [|x l IH].
  - rewrite list_to_set_nil, size_empty. done.
  - rewrite list_to_set_cons, size_union_alt, size_singleton. cbn [length].
    pose proof (size_difference_le (list_to_set l : gset A) {[x]}). lia.
Qed.

(** ** Relationship parser *)

Module ParserProps.
Import Texto Parser Vocabulario.

Lemma digit_limpo c : is_digit c = true -> is_sep c = false /\ is_space c = false.
Proof.
  destruct c as [[] [] [] [] [] [] [] []]; vm_compute; intros; try discriminate; auto.
Qed.

Lemma todos_digitos_limpo s : todos_digitos s = true -> limpo s = true.
Proof.
  induction s as [|c r IH]; simpl; [done|].
  intros [Hc Hr]%andb_prop. destruct (digit_limpo c Hc) as [-> ->]. simpl. auto.
Qed.

Lemma limpo_app s1 s2 : limpo s1 = true -> limpo s2 = true -> limpo (s1 ++ s2) = true.
Proof.
  induction s1 as [|c r IH]; simpl; [done|].
  intros [Hc Hr]%andb_prop H2. rewrite Hc. simpl. auto.
Qed.

Lemma re_split_limpo s : limpo s = true -> re_split s = [s].
Proof.
  induction s as [|c r IH]; simpl; [done|].
  intros [[Hc _]%andb_prop Hr]%andb_prop.
  apply negb_true_iff in Hc. rewrite Hc, (IH Hr). done.
Qed.

Lemma rstrip_limpo s : limpo s = true -> rstrip s = s.
Proof.
  induction s as [|c r IH]; simpl; [done|].
  intros [[_ Hc]%andb_prop Hr]%andb_prop.
  apply negb_true_iff in Hc. rewrite (IH Hr), Hc. by destruct r.
Qed.

Lemma strip_limpo s : limpo s = true -> strip s = s.
Proof.
  intros H. unfold strip.
  assert (lstrip s = s) as ->; [|by apply rstrip_limpo].
  destruct s as [|c r]; simpl in *; [done|].
  apply andb_prop in H as [[_ Hc]%andb_prop _].
  apply negb_true_iff in Hc. by rewrite Hc.
Qed.

(** The greedy digit group takes exactly [d] when what follows does not
    start with a digit. *)
Lemma span_digitos_app d r :
  todos_digitos d = true ->
  match r with EmptyString => True | String c _ => is_digit c = false end ->
  span_digitos (d ++ r) = (d, r).
Proof.
  intros Hd Hr. induction d as [|c d IH]; simpl in *.
  - destruct r as [|c r]; simpl; [done|]. by rewrite Hr.
  - apply andb_prop in Hd as [Hc Hd]. rewrite Hc, (IH Hd). done.
Qed.

Lemma app_vazio s : s ++ "" = s.
Proof.
  induction s as [|c s IH]; [reflexivity|].
  change (String c (s ++ "") = String c s). by rewrite IH.
Qed.

Lemma isdigit_todos d : isdigit d = true -> todos_digitos d = true /\ d <> EmptyString.
Proof. destruct d; simpl; [discriminate|]. intros ->. done. Qed.

Lemma app_cons c s t : String c s ++ t = String c (s ++ t).
Proof. reflexivity. Qed.

Lemma grupo_rel_texto rel s :
  match s with EmptyString => True | String c _ => e_sinal c end ->
  grupo_rel (texto_rel rel ++ s) = (rel, s).
Proof.
  intros Hs. destruct rel as [[]|]; try reflexivity.
  simpl. destruct s as [|c s]; [done|]. by destruct Hs as [-> | ->].
Qed.

Lemma grupo_lag_sinal sinal l :
  e_sinal sinal -> isdigit l = true -> grupo_lag (String sinal l) = Some (String sinal l).
Proof.
  intros Hs [Hl Hne]%isdigit_todos. unfold grupo_lag.
  assert ((Ascii.eqb sinal "+" || Ascii.eqb sinal "-")%bool = true) as ->
    by (destruct Hs as [-> | ->]; reflexivity).
  pose proof (span_digitos_app l "" Hl I) as Hsp. rewrite app_vazio in Hsp.
  rewrite Hsp. simpl. by destruct l.
Qed.

Lemma primeiro_nao_digito rel s :
  match s with EmptyString => True | String c _ => e_sinal c end ->
  match texto_rel rel ++ s with
  | EmptyString => True
  | String c _ => is_digit c = false
  end.
Proof.
  intros Hs. destruct rel as [[]|]; try reflexivity.
  simpl. destruct s as [|c s]; [done|]. by destruct Hs as [-> | ->].
Qed.

(** A token made of an id alone or an id and a code: the lag is 0, and
    the type is FS when no code is written. *)
Lemma casar_item_sem_lag d rel :
  isdigit d = true ->
  casar_item (d ++ texto_rel rel) =
  Some (mkSucessora d (match rel with Some r => r | None => FS end) 0).
Proof.
  intros [Hd Hne]%isdigit_todos. unfold casar_item.
  pose proof (primeiro_nao_digito rel "" I) as Hp. rewrite app_vazio in Hp.
  rewrite (span_digitos_app _ _ Hd Hp).
  pose proof (grupo_rel_texto rel "" I) as Hg. rewrite app_vazio in Hg.
  rewrite Hg. by destruct d.
Qed.

(** A token with a signed lag: the lag is the value of the signed text. *)
Lemma casar_item_com_lag d rel sinal l :
  isdigit d = true -> e_sinal sinal -> isdigit l = true ->
  casar_item (d ++ texto_rel rel ++ String sinal l) =
  Some (mkSucessora d (match rel with Some r => r | None => FS end)
          (py_int (String sinal l))).
Proof.
  intros [Hd Hne]%isdigit_todos Hs Hl. unfold casar_item.
  rewrite (span_digitos_app _ _ Hd (primeiro_nao_digito rel (String sinal l) Hs)).
  rewrite (grupo_rel_texto rel (String sinal l) Hs).
  rewrite (grupo_lag_sinal _ _ Hs Hl). by destruct d.
Qed.

Lemma limpo_texto_rel rel : limpo (texto_rel rel) = true.
Proof. by destruct rel as [[]|]. Qed.

Lemma extrair_um_item s suc :
  s <> EmptyString -> limpo s = true -> casar_item s = Some suc ->
  extrair_ids_sucessoras (Some s) = [suc].
Proof.
  intros Hne Hl Hc. unfold extrair_ids_sucessoras.
  destruct s as [|c r]; [done|].
  rewrite (re_split_limpo _ Hl). simpl casar_itens.
  rewrite (strip_limpo _ Hl), Hc. done.
Qed.

Lemma app_nao_vazio d s : d <> EmptyString -> d ++ s <> EmptyString.
Proof. by destruct d. Qed.

Lemma casar_item_id item :
  casar_item item =
  match fst (span_digitos item) with
  | EmptyString => None
  | id =>
      Some (mkSucessora id
              (match fst (grupo_rel (snd (span_digitos item))) with
               | Some t => t | None => FS end)
              (match grupo_lag (snd (grupo_rel (snd (span_digitos item)))) with
               | Some g => py_int g | None => 0 end))
  end.
Proof.
  unfold casar_item. destruct (span_digitos item) as [id r1]. cbn [fst snd].
  destruct id; [done|]. by destruct (grupo_rel r1).
Qed.

(** The simulator's parser reads the ids the specification describes. *)
Lemma extrair_ids_da_especificacao sucessoras :
  List.map suc_id (extrair_ids_sucessoras sucessoras) = ids_da_especificacao sucessoras.
Proof.
  unfold extrair_ids_sucessoras, ids_da_especificacao.
  destruct sucessoras as [[|c s]|]; [done| |done].
  induction (re_split (String c s)) as [|item rest IH]; [done|].
  cbn [casar_itens List.map List.filter]. rewrite casar_item_id.
  destruct (fst (span_digitos (strip item))) as [|c0 id0]; cbn; [done|].
  by rewrite IH.
Qed.

End ParserProps.

(** ** Tables *)

Module FrameProps.
Import Frame Vocabulario.

Lemma selecionar_atualizar_eq df i f :
  selecionar (atualizar df i f) i = List.map f (selecionar df i).
Proof.
  unfold selecionar, atualizar. simpl.
  induction (linhas df) as [|r rows IH]; simpl; [done|].
  destruct (Z.eqb_spec (fst r) i) as [He|Hne]; simpl.
  - rewrite He, Z.eqb_refl. simpl. by rewrite IH.
  - destruct (Z.eqb_spec (fst r) i); [done|]. apply IH.
Qed.

Lemma selecionar_atualizar_ne df i j f :
  i <> j -> selecionar (atualizar df i f) j = selecionar df j.
Proof.
  intros Hij. unfold selecionar, atualizar. simpl.
  induction (linhas df) as [|r rows IH]; simpl; [done|].
  destruct (Z.eqb_spec (fst r) i) as [He|Hne]; simpl.
  - destruct (Z.eqb_spec (fst r) j) as [Hj|Hj]; [congruence|]. apply IH.
  - destruct (Z.eqb_spec (fst r) j); simpl; by rewrite IH.
Qed.

Lemma primeira_atualizar_eq df i f :
  primeira (atualizar df i f) i = f <$> primeira df i.
Proof.
  unfold primeira. rewrite selecionar_atualizar_eq. by destruct (selecionar df i).
Qed.

Lemma primeira_atualizar_ne df i j f :
  i <> j -> primeira (atualizar df i f) j = primeira df j.
Proof. intros H. unfold primeira. by rewrite selecionar_atualizar_ne. Qed.

Lemma in_index_atualizar df i j f : in_index (atualizar df i f) j = in_index df j.
Proof.
  unfold in_index, atualizar. simpl.
  induction (linhas df) as [|r rows IH]; simpl; [done|].
  rewrite IH. by destruct (Z.eqb (fst r) i).
Qed.

Lemma in_index_primeira df i : in_index df i = true <-> is_Some (primeira df i).
Proof.
  unfold in_index, primeira, selecionar.
  induction (linhas df) as [|r rows IH]; simpl.
  - split; [done|]. by intros [? ?].
  - destruct (Z.eqb (fst r) i); simpl; [|done]. split; eauto.
Qed.

Lemma in_index_elem df i : in_index df i = true <-> i ∈ (fst <$> linhas df).
Proof.
  unfold in_index. rewrite existsb_exists, list_elem_of_fmap.
  split.
  - intros (r & Hin & He). exists r. apply Z.eqb_eq in He.
    split; [done|]. by apply list_elem_of_In.
  - intros (r & -> & Hin). exists r. rewrite Z.eqb_refl.
    split; [|done]. by apply list_elem_of_In.
Qed.

Lemma primeira_em_linhas df idx t :
  primeira df idx = Some t -> exists r, In r (linhas df) /\ snd r = t /\ fst r = idx.
Proof.
  unfold primeira, selecionar. destruct df as [cols rows]. simpl.
  induction rows as [|r rows IH]; simpl; [done|].
  destruct (Z.eqb_spec (fst r) idx) as [He|Hne]; simpl.
  - intros [= <-]. eauto.
  - intros H. destruct (IH H) as (r' & ? & ? & ?). eauto.
Qed.

Lemma mesma_forma_refl d : mesma_forma d d.
Proof.
  split; [done|]. induction (linhas d); constructor; [|done]. by repeat split.
Qed.

Lemma mesma_forma_atualizar d d' i f :
  (forall t, nome (f t) = nome t /\ duracao_bl (f t) = duracao_bl t /\
             sucessoras (f t) = sucessoras t) ->
  mesma_forma d d' -> mesma_forma d (atualizar d' i f).
Proof.
  intros Hf [Hc Hr]. split; [done|]. unfold atualizar. simpl.
  induction Hr as [|r r' l l' Hrr Hll IH]; simpl; constructor; [|done].
  destruct (Z.eqb (fst r') i); [|done].
  destruct Hrr as (? & ? & ? & ?). destruct (Hf (snd r')) as (? & ? & ?).
  repeat split; simpl; congruence.
Qed.

Lemma mesma_forma_in_index d d' i : mesma_forma d d' -> in_index d' i = in_index d i.
Proof.
  intros [_ Hr]. unfold in_index.
  induction Hr as [|r r' l l' Hrr Hll IH]; simpl; [done|].
  destruct Hrr as (-> & _). by rewrite IH.
Qed.

Lemma mesma_forma_length d d' : mesma_forma d d' -> length (linhas d') = length (linhas d).
Proof. intros [_ Hr]. symmetry. by eapply Forall2_length. Qed.

Lemma mesma_forma_selecionar d d' i :
  mesma_forma d d' ->
  Forall2 (fun t t' => nome t = nome t' /\ duracao_bl t = duracao_bl t' /\
                       sucessoras t = sucessoras t')
    (selecionar d i) (selecionar d' i).
Proof.
  intros [_ Hr]. unfold selecionar.
  induction Hr as [|r r' l l' Hrr Hll IH]; simpl; [constructor|].
  destruct Hrr as (He & ? & ? & ?). rewrite <- He.
  destruct (Z.eqb (fst r) i); simpl; [constructor|]; done.
Qed.

Lemma mesma_forma_primeira d d' i T0 T :
  mesma_forma d d' -> primeira d i = Some T0 -> primeira d' i = Some T ->
  nome T0 = nome T /\ duracao_bl T0 = duracao_bl T /\ sucessoras T0 = sucessoras T.
Proof.
  intros Hf. pose proof (mesma_forma_selecionar d d' i Hf) as Hs.
  unfold primeira. destruct Hs as [|t t' l l' Ht _]; [done|].
  by intros [= <-] [= <-].
Qed.

Lemma mesmo_cronograma_refl d : mesmo_cronograma d d.
Proof.
  split; [done|]. induction (linhas d); constructor; [|done]. by repeat split.
Qed.

Lemma mesmo_cronograma_forma d d' : mesmo_cronograma d d' -> mesma_forma d d'.
Proof.
  intros [Hc Hr]. split; [done|].
  induction Hr as [|r r' l l' (He & Hn & _ & _ & Hd & _ & Hs) _ IH]; constructor; [|done].
  by repeat split.
Qed.

Lemma mesmo_cronograma_rotulos d d' :
  mesmo_cronograma d d' -> fst <$> linhas d' = fst <$> linhas d.
Proof.
  intros [_ Hr]. induction Hr as [|r r' l l' [He _] _ IH]; [done|].
  cbn. by rewrite IH, He.
Qed.

Lemma mesmo_cronograma_em d d' r' :
  mesmo_cronograma d d' -> In r' (linhas d') ->
  exists r, In r (linhas d) /\ fst r = fst r' /\ mesmos_campos (snd r) (snd r').
Proof.
  intros [_ Hr]. induction Hr as [|r0 r0' l l' [He Hm] _ IH]; [done|].
  intros [<- | Hin].
  - exists r0. split; [by left|done].
  - destruct (IH Hin) as (r & ? & ?). exists r. split; [by right|done].
Qed.

Lemma mesmo_cronograma_max_termino d d' :
  mesmo_cronograma d d' -> max_termino d' = max_termino d.
Proof.
  intros [_ Hr]. unfold max_termino.
  induction Hr as [|r r' l l' (_ & _ & _ & Ht & _) _ IH]; [done|].
  cbn. by rewrite IH, Ht.
Qed.

(** With unique labels, a row is the first one under its label. *)
Lemma primeira_unica d r :
  NoDup (fst <$> linhas d) -> In r (linhas d) -> primeira d (fst r) = Some (snd r).
Proof.
  unfold primeira, selecionar.
  induction (linhas d) as [|r0 rows IH]; [done|].
  rewrite fmap_cons, NoDup_cons. intros [Hnotin Hnd] [-> | Hin]; cbn.
  - by rewrite Z.eqb_refl.
  - destruct (Z.eqb_spec (fst r0) (fst r)) as [He|Hne]; [|by apply IH].
    exfalso. apply Hnotin. rewrite He. apply list_elem_of_fmap.
    exists r. split; [done|]. by apply list_elem_of_In.
Qed.

(** Rewriting the rows under a label by a function that keeps the
    schedule cells keeps the schedule. *)
Lemma mesmo_cronograma_atualizar d d' idx g :
  mesmo_cronograma d d' ->
  (forall r', In r' (linhas d') -> fst r' = idx -> mesmos_campos (snd r') (g (snd r'))) ->
  mesmo_cronograma d (atualizar d' idx g).
Proof.
  intros [Hc Hr] Hg. split; [done|]. unfold atualizar. cbn [linhas].
  induction Hr as [|r r' l l' [He Hm] Hll IH]; [constructor|].
  cbn [List.map]. constructor.
  - destruct (Z.eqb_spec (fst r') idx) as [Hi|Hi]; [|done].
    split; [done|]. cbn [snd].
    destruct Hm as (? & ? & ? & ? & ? & ?).
    destruct (Hg r' (or_introl eq_refl) Hi) as (? & ? & ? & ? & ? & ?).
    repeat split; congruence.
  - apply IH. intros r0 Hin. apply Hg. by right.
Qed.

Lemma mesma_forma_loc_escalar d d' i s' :
  mesma_forma d d' -> loc_escalar d' i = Some s' ->
  exists s, loc_escalar d i = Some s /\ duracao_bl s = duracao_bl s'.
Proof.
  intros Hf. pose proof (mesma_forma_selecionar d d' i Hf) as Hs.
  unfold loc_escalar.
  destruct Hs as [|t t' l l' (_ & Hd & _) Hl]; [done|].
  destruct Hl; [|done]. intros [= <-]. eauto.
Qed.

Lemma mesma_forma_loc_escalar_some d d' i s :
  mesma_forma d d' -> loc_escalar d i = Some s -> is_Some (loc_escalar d' i).
Proof.
  intros Hf. pose proof (mesma_forma_selecionar d d' i Hf) as Hs.
  unfold loc_escalar.
  destruct Hs as [|t t' l l' _ Hl]; [done|].
  destruct Hl; [|done]. eauto.
Qed.

End FrameProps.

(** ** Slack-chain tracer *)

Module TracerProps.
Import Tracer Vocabulario.

(** The next hop is always one of the ids read from the current row. *)
Lemma escolher_proxima_origem df sucs m p i :
  escolher_proxima df sucs m p = Some i ->
  p = Some i \/ exists s, i = IStr s /\ In s sucs.
Proof.
  revert m p. induction sucs as [|s sucs IH]; simpl; intros m p H; [by left|].
  destruct (Frame.primeira df (Texto.py_int s)) as [suc|].
  - destruct (match m with None => true | Some m0 => Z.ltb (folga suc) m0 end).
    + destruct (IH _ _ H) as [[= <-] | (s' & -> & Hin)]; right; eauto.
    + destruct (IH _ _ H) as [? | (s' & -> & Hin)]; [by left|right; eauto].
  - destruct (IH _ _ H) as [? | (s' & -> & Hin)]; [by left|right; eauto].
Qed.

Section Termina.
Variable df : DataFrame.
Variable inicial : Indice.

Lemma proxima_candidata c t i :
  Frame.primeira df (int_de c) = Some t ->
  escolher_proxima df (Parser.extrair_ids_sucessoras_tracer (sucessoras t)) None None
    = Some i ->
  i ∈ candidatos df inicial.
Proof.
  intros Ht Hi. apply escolher_proxima_origem in Hi as [? | (s & -> & Hin)]; [done|].
  apply FrameProps.primeira_em_linhas in Ht as (r & Hr & <- & _).
  unfold candidatos. apply elem_of_union_r, elem_of_list_to_set.
  apply list_elem_of_fmap. exists s. split; [done|].
  apply list_elem_of_In, in_flat_map. eauto.
Qed.

Lemma rastrear_laco_termina fuel : forall cur visitados cadeia total,
  (forall c, cur = Some c -> c ∈ candidatos df inicial) ->
  (size (candidatos df inicial ∖ visitados) < fuel)%nat ->
  is_Some (rastrear_laco fuel df cur visitados cadeia total).
Proof.
  induction fuel as [|n IH]; intros cur vis cadeia total Hc Hsz; [lia|].
  simpl. destruct cur as [c|]; [|eauto].
  destruct (negb (truthy c)); simpl; [eauto|].
  destruct (bool_decide_reflect (c ∈ vis)) as [Hin|Hnin]; [eauto|].
  destruct (Frame.primeira df (int_de c)) as [t|] eqn:Ht; [|eauto].
  destruct (String.eqb (critica t) "Sim"); [eauto|].
  apply IH.
  - intros i Hi. eapply proxima_candidata; eauto.
  - assert (candidatos df inicial ∖ ({[c]} ∪ vis) ⊂ candidatos df inicial ∖ vis) as Hsub.
    { specialize (Hc c eq_refl). split.
      - intros x. rewrite !elem_of_difference, elem_of_union. tauto.
      - intros Hsub. specialize (Hsub c).
        rewrite !elem_of_difference, elem_of_union, elem_of_singleton in Hsub.
        tauto. }
    apply subset_size in Hsub. lia.
Qed.

Lemma size_candidatos : (size (candidatos df inicial) <= S (length (ids_referidos df)))%nat.
Proof.
  unfold candidatos. rewrite size_union_alt, size_singleton.
  pose proof (size_list_to_set_le (IStr <$> ids_referidos df)) as Hl.
  rewrite length_fmap in Hl.
  pose proof (size_difference_le
                (list_to_set (IStr <$> ids_referidos df) : gset Indice) {[inicial]}).
  lia.
Qed.

Lemma candidatos_inicial : inicial ∈ candidatos df inicial.
Proof. unfold candidatos. apply elem_of_union_l, elem_of_singleton. done. Qed.
End Termina.

(** The trace of any task of any dataset ends within the fuel granted:
    the loop always returns a chain. *)
Lemma rastrear_cadeia_termina df tarefa_idx : is_Some (rastrear_cadeia tarefa_idx df).
Proof.
  unfold rastrear_cadeia. eapply (rastrear_laco_termina df (IInt tarefa_idx)).
  - intros c [= <-]. apply candidatos_inicial.
  - pose proof (size_candidatos df (IInt tarefa_idx)) as Hs.
    pose proof (size_difference_le (candidatos df (IInt tarefa_idx)) ∅) as Hd.
    unfold combustivel. lia.
Qed.

(** A critical task whose index label is not 0 is its own chain, with
    its slack as the total. *)
Lemma rastrear_cadeia_critica df tarefa_idx t :
  tarefa_idx <> 0 ->
  Frame.primeira df tarefa_idx = Some t ->
  is_critical t = true ->
  rastrear_cadeia tarefa_idx df = Some ([nome t], folga t).
Proof.
  intros Hz Ht Hc. unfold rastrear_cadeia, combustivel. simpl.
  destruct (Z.eqb_spec tarefa_idx 0); [done|]. simpl.
  unfold is_critical in Hc. rewrite Ht, Hc. simpl. done.
Qed.

(** The loop test [while current_idx and ...] fails at once for the index
    label 0, whatever the dataset. *)
Lemma rastrear_cadeia_zero df : rastrear_cadeia 0 df = Some ([], 0).
Proof. reflexivity. Qed.

End TracerProps.


(** ** Delay propagation: the invariant rule *)

Module SimuladorProps.
Import Frame Simulador Vocabulario FrameProps.

Lemma quadro_insert_eq h r d : quadro (<[r := d]> h) r = d.
Proof. unfold quadro. by rewrite lookup_insert_eq. Qed.

Lemma quadro_insert_ne h r r' d : r <> r' -> quadro (<[r := d]> h) r' = quadro h r'.
Proof. intros H. unfold quadro. by rewrite lookup_insert_ne. Qed.

Lemma quadro_registrar df_sim idx tarefa i t ai af st :
  quadro (heap (registrar df_sim idx tarefa i t ai af st)) df_sim =
  atualizar (quadro (heap st) df_sim) idx
    (reescrever (novo_inicio i ai) (novo_termino i t (duracao_bl tarefa) ai af)
       (nova_folga (folga tarefa) ai af)).
Proof. unfold registrar. simpl. apply quadro_insert_eq. Qed.

Section NoAmbiente.
Variable amb : Ambiente.

(** A state property [P] that survives the processing of one task holds
    after the whole propagation, returned or raised, provided the offsets
    of every call the propagation makes satisfy [Q]. *)
Section Invariante.
Variable df_sim : loc.
Variable P : Estado -> Prop.
Variable Q : Z -> Z -> Z -> Prop.

Hypothesis P_marcar : forall st idx,
  P st -> idx ∉ visited st -> P (marcar idx st).

Hypothesis P_registrar : forall st idx tarefa i t ai af,
  P st -> Q idx ai af -> idx ∉ visited st ->
  primeira (quadro (heap st) df_sim) idx = Some tarefa ->
  inicio_bl tarefa = Some i -> termino_bl tarefa = Some t ->
  P (registrar df_sim idx tarefa i t ai af (marcar idx st)).

Hypothesis Q_aresta : forall st0 st idx tarefa ai af suc ni nt,
  P st0 -> P st -> Q idx ai af ->
  primeira (quadro (heap st0) df_sim) idx = Some tarefa ->
  In suc (Parser.extrair_ids_sucessoras (sucessoras tarefa)) ->
  atraso_sucessora (quadro (heap st) df_sim) ai af
    (atraso_propagado (folga tarefa) ai af) suc = Some (ni, nt) ->
  Q (Texto.py_int (suc_id suc)) (Z.max 0 ni) (Z.max 0 nt).

Lemma laco_sucessoras_inv rec ai af prop sucs :
  (forall idx ai' af' st, P st -> Q idx ai' af' -> em_desfecho P (rec idx ai' af' st)) ->
  (forall st suc ni nt, P st -> In suc sucs ->
     atraso_sucessora (quadro (heap st) df_sim) ai af prop suc = Some (ni, nt) ->
     Q (Texto.py_int (suc_id suc)) (Z.max 0 ni) (Z.max 0 nt)) ->
  forall st, P st -> em_desfecho P (laco_sucessoras rec df_sim ai af prop sucs st).
Proof.
  intros Hrec. induction sucs as [|suc rest IH]; intros Hq st HP; simpl; [done|].
  destruct (atraso_sucessora _ ai af prop suc) as [[ni nt]|] eqn:Ha; [|done].
  pose proof (Hrec (Texto.py_int (suc_id suc)) (Z.max 0 ni) (Z.max 0 nt) st HP
                (Hq st suc ni nt HP (or_introl eq_refl) Ha)) as Hr.
  destruct (rec _ _ _ st) as [st'|st']; simpl in *; [|exact Hr].
  apply IH; [|exact Hr]. intros st1 suc1 ni1 nt1 HP1 Hin1 Ha1.
  apply (Hq st1 suc1 ni1 nt1 HP1 (or_intror Hin1) Ha1).
Qed.

Lemma propagar_atraso_inv fuel : forall idx ai af st,
  P st -> Q idx ai af -> em_desfecho P (propagar_atraso amb fuel df_sim idx ai af st).
Proof.
  induction fuel as [|n IH]; intros idx ai af st HP HQ; simpl; [done|].
  destruct (bool_decide_reflect (idx ∈ visited st)) as [Hin|Hnin]; simpl; [done|].
  destruct (in_index (quadro (heap st) df_sim) idx); simpl; [|done].
  destruct (primeira (quadro (heap st) df_sim) idx) as [tarefa|] eqn:Ht; simpl;
    [|by apply P_marcar].
  destruct (inicio_bl tarefa) as [i|] eqn:Hi; simpl; [|by apply P_marcar].
  destruct (termino_bl tarefa) as [t|] eqn:Hf; simpl; [|by apply P_marcar].
  destruct (datas_calculaveis amb i t (duracao_bl tarefa) ai af); [|by apply P_marcar].
  apply laco_sucessoras_inv; [exact IH| |by eapply P_registrar].
  intros st' suc ni nt HP' Hin Ha.
  exact (Q_aresta st st' idx tarefa ai af suc ni nt HP HP' HQ Ht Hin Ha).
Qed.

End Invariante.


(** *** Shape of the working copy, growth of [visited], rest of the store *)

Section Estrutura.
Variable df_sim : loc.
Variable h0 : gmap loc DataFrame.
Variable d0 : DataFrame.

Lemma estrutura_mono V V' st :
  V' ⊆ V -> estrutura df_sim h0 d0 V st -> estrutura df_sim h0 d0 V' st.
Proof.
  intros Hs (Hv & Hf & Hh). split; [|done].
  intros x Hx. apply Hv, Hs, Hx.
Qed.

Lemma estrutura_marcar V st idx :
  estrutura df_sim h0 d0 V st -> estrutura df_sim h0 d0 ({[idx]} ∪ V) (marcar idx st).
Proof.
  intros (Hv & Hf & Hh). split; [|done]. cbn [marcar visited].
  intros x [Hx | Hx]%elem_of_union; [by apply elem_of_union_l|].
  by apply elem_of_union_r, Hv.
Qed.

Lemma reescrever_forma ni nt nf t :
  nome (reescrever ni nt nf t) = nome t /\
  duracao_bl (reescrever ni nt nf t) = duracao_bl t /\
  sucessoras (reescrever ni nt nf t) = sucessoras t.
Proof. done. Qed.

Lemma estrutura_registrar V st idx tarefa i t ai af :
  estrutura df_sim h0 d0 V st ->
  estrutura df_sim h0 d0 V (registrar df_sim idx tarefa i t ai af st).
Proof.
  intros (Hv & Hf & Hh). split; [done|]. split.
  - rewrite quadro_registrar. apply mesma_forma_atualizar; [|done].
    intros. apply reescrever_forma.
  - intros r Hr. unfold registrar. simpl. rewrite lookup_insert_ne; auto.
Qed.

Lemma propagar_atraso_estrutura V fuel idx ai af st :
  estrutura df_sim h0 d0 V st ->
  em_desfecho (estrutura df_sim h0 d0 V) (propagar_atraso amb fuel df_sim idx ai af st).
Proof.
  intros H.
  apply (propagar_atraso_inv df_sim (estrutura df_sim h0 d0 V) (fun _ _ _ => True));
    try done.
  - intros st' idx' HP _. eapply estrutura_mono; [|by apply estrutura_marcar].
    apply union_subseteq_r.
  - intros st' idx' tarefa i t ai' af' HP _ _ _ _ _.
    apply estrutura_registrar. eapply estrutura_mono; [|by apply estrutura_marcar].
    apply union_subseteq_r.
Qed.

Lemma estrutura_in_index V st i :
  estrutura df_sim h0 d0 V st ->
  in_index (quadro (heap st) df_sim) i = true -> i ∈ rotulos d0.
Proof.
  intros (_ & Hf & _) Hi. rewrite (mesma_forma_in_index _ _ _ Hf) in Hi.
  unfold rotulos. apply elem_of_list_to_set. by apply in_index_elem.
Qed.

End Estrutura.


(** *** When nothing is raised *)

(** With a recursion depth above the number of labels not yet visited,
    with dates that are valid and that the environment can compute, and
    with relationships that can be evaluated, the propagation returns. *)
Section Conclui.
Variable df_sim : loc.
Variable h0 : gmap loc DataFrame.
Variable d0 : DataFrame.
Variable P : Estado -> Prop.
Variable Q : Z -> Z -> Z -> Prop.

Hypothesis P_marcar : forall st idx,
  P st -> idx ∉ visited st -> P (marcar idx st).

Hypothesis P_registrar : forall st idx tarefa i t ai af,
  P st -> Q idx ai af -> idx ∉ visited st ->
  primeira (quadro (heap st) df_sim) idx = Some tarefa ->
  inicio_bl tarefa = Some i -> termino_bl tarefa = Some t ->
  P (registrar df_sim idx tarefa i t ai af (marcar idx st)).

Hypothesis Q_aresta : forall st0 st idx tarefa ai af suc ni nt,
  P st0 -> P st -> Q idx ai af ->
  primeira (quadro (heap st0) df_sim) idx = Some tarefa ->
  In suc (Parser.extrair_ids_sucessoras (sucessoras tarefa)) ->
  atraso_sucessora (quadro (heap st) df_sim) ai af
    (atraso_propagado (folga tarefa) ai af) suc = Some (ni, nt) ->
  Q (Texto.py_int (suc_id suc)) (Z.max 0 ni) (Z.max 0 nt).

Hypothesis P_datas : forall st idx tarefa ai af,
  P st -> Q idx ai af -> primeira (quadro (heap st) df_sim) idx = Some tarefa ->
  exists i t,
    inicio_bl tarefa = Some i /\ termino_bl tarefa = Some t /\
    datas_calculaveis amb i t (duracao_bl tarefa) ai af = true.

Hypothesis P_aresta : forall st0 st idx tarefa ai af suc,
  P st0 -> P st -> Q idx ai af ->
  primeira (quadro (heap st0) df_sim) idx = Some tarefa ->
  In suc (Parser.extrair_ids_sucessoras (sucessoras tarefa)) ->
  is_Some (atraso_sucessora (quadro (heap st) df_sim) ai af
             (atraso_propagado (folga tarefa) ai af) suc).

Lemma laco_sucessoras_conclui V rec ai af prop sucs :
  (forall idx ai' af' st, P st -> estrutura df_sim h0 d0 V st -> Q idx ai' af' ->
     exists st', rec idx ai' af' st = Concluido st' /\
                 P st' /\ estrutura df_sim h0 d0 V st') ->
  (forall st suc, P st -> In suc sucs ->
     exists ni nt,
       atraso_sucessora (quadro (heap st) df_sim) ai af prop suc = Some (ni, nt) /\
       Q (Texto.py_int (suc_id suc)) (Z.max 0 ni) (Z.max 0 nt)) ->
  forall st, P st -> estrutura df_sim h0 d0 V st ->
  exists st', laco_sucessoras rec df_sim ai af prop sucs st = Concluido st' /\
              P st' /\ estrutura df_sim h0 d0 V st'.
Proof.
  intros Hrec. induction sucs as [|suc rest IH]; intros Hq st HP HE; cbn [laco_sucessoras].
  - by exists st.
  - destruct (Hq st suc HP (or_introl eq_refl)) as (ni & nt & -> & HQ).
    destruct (Hrec _ _ _ st HP HE HQ) as (st1 & -> & HP1 & HE1).
    apply IH; [|done|done]. intros st2 suc2 HP2 Hin2.
    apply (Hq st2 suc2 HP2 (or_intror Hin2)).
Qed.

Lemma propagar_atraso_conclui fuel : forall V idx ai af st,
  P st -> estrutura df_sim h0 d0 V st -> Q idx ai af ->
  (size (rotulos d0 ∖ visited st) < fuel)%nat ->
  exists st', propagar_atraso amb fuel df_sim idx ai af st = Concluido st' /\
              P st' /\ estrutura df_sim h0 d0 V st'.
Proof.
  induction fuel as [|n IH]; intros V idx ai af st HP HE HQ Hsz; [lia|].
  cbn [propagar_atraso].
  destruct (bool_decide_reflect (idx ∈ visited st)) as [Hin|Hnin]; cbn [orb]; [by exists st|].
  destruct (in_index (quadro (heap st) df_sim) idx) eqn:Hidx; cbn [negb]; [|by exists st].
  pose proof (estrutura_in_index _ _ _ _ _ _ HE Hidx) as Hrot.
  apply in_index_primeira in Hidx as [tarefa Ht]. cbn [marcar heap]. rewrite Ht.
  destruct (P_datas st idx tarefa ai af HP HQ Ht) as (i & t & Hi & Hf & Hdc).
  rewrite Hi, Hf, Hdc.
  assert (estrutura df_sim h0 d0 ({[idx]} ∪ visited st) (marcar idx st)) as HE1.
  { apply estrutura_marcar. destruct HE as (_ & Hforma & Hh). by split. }
  destruct (laco_sucessoras_conclui ({[idx]} ∪ visited st) (propagar_atraso amb n df_sim)
              ai af (atraso_propagado (folga tarefa) ai af)
              (Parser.extrair_ids_sucessoras (sucessoras tarefa)))
    with (st := registrar df_sim idx tarefa i t ai af (marcar idx st))
    as (st' & -> & HP' & HE').
  - intros idx' ai' af' st1 HP1 HE1' HQ1. apply IH; try done.
    destruct HE1' as (Hv' & _).
    assert (rotulos d0 ∖ visited st1 ⊂ rotulos d0 ∖ visited st) as Hsub.
    { split.
      - intros x. rewrite !elem_of_difference. intros [? Hx]. split; [done|].
        intros Hc. apply Hx, Hv', elem_of_union_r, Hc.
      - intros Hsub. specialize (Hsub idx).
        rewrite !elem_of_difference in Hsub.
        destruct Hsub as [_ Hx]; [done|].
        apply Hx, Hv', elem_of_union_l, elem_of_singleton. done. }
    apply subset_size in Hsub. lia.
  - intros st1 suc HP1 Hin.
    destruct (P_aresta st st1 idx tarefa ai af suc HP HP1 HQ Ht Hin) as [[ni nt] Ha].
    exists ni, nt. split; [done|].
    exact (Q_aresta st st1 idx tarefa ai af suc ni nt HP HP1 HQ Ht Hin Ha).
  - by eapply P_registrar.
  - by apply estrutura_registrar.
  - exists st'. split; [done|]. split; [done|].
    eapply estrutura_mono; [|exact HE']. destruct HE as (Hv & _).
    intros x Hx. apply elem_of_union_r, Hv, Hx.
Qed.
End Conclui.


(** *** The whole call *)

Lemma tem_colunas_falta d c :
  In c colunas_desejadas -> ~ In c (columns d) -> tem_colunas d colunas_desejadas = false.
Proof.
  intros Hc Hn. unfold tem_colunas.
  destruct (forallb _ colunas_desejadas) eqn:Hf; [|done].
  rewrite forallb_forall in Hf. specialize (Hf c Hc).
  apply existsb_exists in Hf as (c' & Hin & He%String.eqb_eq). by subst.
Qed.

Lemma estrutura_inicial (h : gmap loc DataFrame) d :
  estrutura (fresh (dom h)) h d ∅
    (mkEstado (<[fresh (dom h) := d]> h) ∅ []).
Proof.
  split; [done|]. split; simpl.
  - rewrite quadro_insert_eq. apply mesma_forma_refl.
  - intros r Hr. by rewrite lookup_insert_ne.
Qed.

Lemma profundidade_basta d (V : gset Z) :
  (size (rotulos d ∖ V) < profundidade d)%nat.
Proof.
  unfold profundidade, rotulos.
  pose proof (size_list_to_set_le (fst <$> linhas d)) as Hl.
  rewrite length_fmap in Hl.
  pose proof (size_difference_le (list_to_set (fst <$> linhas d) : gset Z) V).
  lia.
Qed.

(** The propagation started by the call ends, by returning or by raising,
    in a state that kept the structure. *)
Lemma propagar_inicial (h : gmap loc DataFrame) d idx dias :
  exists st,
    (propagar_atraso amb (limite_recursao amb) (fresh (dom h)) idx dias dias
       (mkEstado (<[fresh (dom h) := d]> h) ∅ []) = Concluido st \/
     propagar_atraso amb (limite_recursao amb) (fresh (dom h)) idx dias dias
       (mkEstado (<[fresh (dom h) := d]> h) ∅ []) = Levantou st) /\
    estrutura (fresh (dom h)) h d ∅ st.
Proof.
  pose proof (propagar_atraso_estrutura (fresh (dom h)) h d ∅ (limite_recursao amb)
                idx dias dias _ (estrutura_inicial h d)) as Hinv.
  destruct (propagar_atraso _ _ _ _ _ _ _) as [st|st]; eauto.
Qed.

(** The three ways the call ends. *)
Lemma simular_casos h df idx dias :
  let r := simular_atraso_caminho_critico amb h df idx dias in
  (r = (h, Some resultado_vazio) /\
   (h !! df = None \/
    exists d, h !! df = Some d /\ tem_colunas d colunas_desejadas = false))
  \/
  (exists d, h !! df = Some d /\ tem_colunas d colunas_desejadas = true /\
     in_index d idx = false /\
     r = (<[fresh (dom h) := d]> h, Some resultado_vazio))
  \/
  (exists d st, h !! df = Some d /\ tem_colunas d colunas_desejadas = true /\
     in_index d idx = true /\
     estrutura (fresh (dom h)) h d ∅ st /\
     ((propagar_atraso amb (limite_recursao amb) (fresh (dom h)) idx dias dias
         (mkEstado (<[fresh (dom h) := d]> h) ∅ []) = Levantou st /\
       r = (heap st, Some resultado_vazio))
      \/
      (propagar_atraso amb (limite_recursao amb) (fresh (dom h)) idx dias dias
         (mkEstado (<[fresh (dom h) := d]> h) ∅ []) = Concluido st /\
       r = (heap st,
            Some (mkResultado (tarefas_impactadas st)
                    (novo_critico (quadro (heap st) (fresh (dom h))))
                    (max_termino (quadro (heap st) (fresh (dom h))))))))).
Proof.
  intros r. subst r. unfold simular_atraso_caminho_critico.
  destruct (h !! df) as [d|] eqn:Hd; [|left; eauto].
  destruct (tem_colunas d colunas_desejadas) eqn:Hc; cbn [negb]; [|left; eauto].
  right. rewrite quadro_insert_eq.
  destruct (in_index d idx) eqn:Hi; cbn [negb]; [|left; eauto 10].
  right. destruct (propagar_inicial h d idx dias) as (st & [He|He] & Hst);
    rewrite He; exists d, st; eauto 10.
Qed.

(** The call always returns a result. *)
Lemma simular_total h df idx dias :
  is_Some (snd (simular_atraso_caminho_critico amb h df idx dias)).
Proof.
  destruct (simular_casos h df idx dias) as
    [[-> _] | [(d & _ & _ & _ & ->) | (d & st & _ & _ & _ & _ & [[_ ->] | [_ ->]])]];
    simpl; eauto.
Qed.

(** Every DataFrame that was in the store before the call is the same
    after it. *)
Lemma simular_preserva_store h df idx dias r :
  r ∈ dom h -> fst (simular_atraso_caminho_critico amb h df idx dias) !! r = h !! r.
Proof.
  intros Hr.
  assert (r <> fresh (dom h)) as Hne.
  { intros ->. by apply (is_fresh (dom h)). }
  destruct (simular_casos h df idx dias) as
    [[-> _] | [(d & _ & _ & _ & ->) | (d & st & _ & _ & _ & Hst & [[_ ->] | [_ ->]])]];
    simpl; [done|by rewrite lookup_insert_ne|..];
    destruct Hst as (_ & _ & Hh); by apply Hh.
Qed.


(** *** One task *)

Lemma nova_folga_nao_negativa f ai af : 0 <= nova_folga f ai af.
Proof. unfold nova_folga, atraso_absorvido. lia. Qed.

Lemma sim_nao_critica nf : String.eqb (sim_nao nf) "Sim" = true <-> nf = 0.
Proof.
  unfold sim_nao. destruct (Z.eqb_spec nf 0) as [->|Hne]; [done|].
  split; [|done]. vm_compute. discriminate.
Qed.

Lemma reescrever_valida ni nt f ai af t :
  escrita_valida (reescrever ni nt (nova_folga f ai af) t).
Proof.
  split; simpl; [apply nova_folga_nao_negativa|].
  unfold is_critical. simpl. apply sim_nao_critica.
Qed.

Lemma novo_termino_duracao i t dur ai af :
  novo_termino i t dur ai af = novo_inicio i ai + dur.
Proof.
  unfold novo_termino, novo_inicio.
  destruct (Z.eqb_spec (t + af - (i + ai)) dur); lia.
Qed.

Lemma novo_termino_regular i t dur ai af :
  t - i = dur -> novo_termino i t dur ai af = t + ai.
Proof. intros H. rewrite novo_termino_duracao. unfold novo_inicio. lia. Qed.

Lemma em_atualizar d idx f r :
  In r (linhas (atualizar d idx f)) ->
  (In r (linhas d) /\ fst r <> idx) \/
  (exists r0, In r0 (linhas d) /\ fst r0 = idx /\ r = (idx, f (snd r0))).
Proof.
  unfold atualizar. simpl. rewrite in_map_iff. intros (r0 & Hr & Hin).
  destruct (Z.eqb_spec (fst r0) idx) as [He|Hne]; subst r.
  - right. exists r0. by rewrite He.
  - left. done.
Qed.

(** One level of [propagar_atraso] on a task that is in the table, not
    yet visited and has valid dates. *)
Lemma propagar_atraso_passo n df_sim idx ai af st tarefa i t :
  idx ∉ visited st ->
  primeira (quadro (heap st) df_sim) idx = Some tarefa ->
  inicio_bl tarefa = Some i -> termino_bl tarefa = Some t ->
  datas_calculaveis amb i t (duracao_bl tarefa) ai af = true ->
  propagar_atraso amb (S n) df_sim idx ai af st =
  laco_sucessoras (propagar_atraso amb n df_sim) df_sim ai af
    (atraso_propagado (folga tarefa) ai af)
    (Parser.extrair_ids_sucessoras (sucessoras tarefa))
    (registrar df_sim idx tarefa i t ai af (marcar idx st)).
Proof.
  intros Hv Ht Hi Hf Hdatas. cbn [propagar_atraso].
  destruct (bool_decide_reflect (idx ∈ visited st)); [done|].
  assert (in_index (quadro (heap st) df_sim) idx = true) as ->
    by (apply in_index_primeira; eauto).
  cbn [negb orb marcar heap]. by rewrite Ht, Hi, Hf, Hdatas.
Qed.

(** *** Every write is valid *)

Section Escritas.
Variable df_sim : loc.
Variable d0 : DataFrame.

Lemma propagar_atraso_escritas fuel idx ai af st :
  escritas_validas df_sim d0 st ->
  em_desfecho (escritas_validas df_sim d0) (propagar_atraso amb fuel df_sim idx ai af st).
Proof.
  intros H.
  apply (propagar_atraso_inv df_sim (escritas_validas df_sim d0) (fun _ _ _ => True));
    try done.
  intros st' idx' tarefa i t ai' af' [Hrows Himp] _ _ _ _ _. split.
  - intros r. rewrite quadro_registrar.
    intros [[Hin _] | (r0 & _ & _ & ->)]%em_atualizar.
    + by apply Hrows.
    + right. apply reescrever_valida.
  - intros l. unfold registrar. simpl. rewrite in_app_iff.
    intros [Hin | [<- | []]]; [by apply Himp|]. simpl.
    apply nova_folga_nao_negativa.
Qed.
End Escritas.


(** *** A seed without successors *)

Lemma simular_sem_sucessoras h df d idx dias T i t :
  h !! df = Some d -> tem_colunas d colunas_desejadas = true ->
  primeira d idx = Some T -> inicio_bl T = Some i -> termino_bl T = Some t ->
  Parser.extrair_ids_sucessoras (sucessoras T) = [] ->
  (1 <= limite_recursao amb)%nat ->
  datas_calculaveis amb i t (duracao_bl T) dias dias = true ->
  let escrita := reescrever (novo_inicio i dias)
                   (novo_termino i t (duracao_bl T) dias dias)
                   (nova_folga (folga T) dias dias) in
  let copia := atualizar d idx escrita in
  simular_atraso_caminho_critico amb h df idx dias =
  (<[fresh (dom h) := copia]> (<[fresh (dom h) := d]> h),
   Some (mkResultado
           [mkLinhaImpacto (nome T) idx i t (novo_inicio i dias)
              (novo_termino i t (duracao_bl T) dias dias)
              (folga T) (nova_folga (folga T) dias dias) dias dias]
           (novo_critico copia) (max_termino copia))).
Proof.
  intros Hd Hc HT Hi Hf Hs Hlim Hdatas escrita copia.
  unfold simular_atraso_caminho_critico. rewrite Hd, Hc. cbn [negb].
  rewrite quadro_insert_eq.
  assert (in_index d idx = true) as -> by (apply in_index_primeira; eauto).
  cbn [negb]. destruct (limite_recursao amb) as [|n]; [lia|].
  rewrite (propagar_atraso_passo _ _ _ _ _ _ T i t); try done.
  2: { cbn [heap]. by rewrite quadro_insert_eq. }
  rewrite Hs. cbn [laco_sucessoras].
  unfold registrar, marcar. cbn [heap visited tarefas_impactadas app].
  rewrite !quadro_insert_eq. reflexivity.
Qed.


(** *** A processed task stays as it was written *)

Section Processada.
Variable df_sim : loc.
Variable b : Z.
Variable B' : Tarefa.
Variable l : LinhaImpacto.

Lemma processada_marcar st idx :
  processada df_sim b B' l st -> processada df_sim b B' l (marcar idx st).
Proof.
  intros (Hv & Hr & Hl). split; [|done]. simpl. by apply elem_of_union_r.
Qed.

Lemma processada_registrar st idx tarefa i t ai af :
  idx <> b ->
  processada df_sim b B' l st ->
  processada df_sim b B' l (registrar df_sim idx tarefa i t ai af st).
Proof.
  intros Hne (Hv & Hr & Hl). split; [done|]. split.
  - rewrite quadro_registrar. by rewrite primeira_atualizar_ne.
  - unfold registrar. simpl. apply in_app_iff. by left.
Qed.

Lemma propagar_atraso_processada fuel idx ai af st :
  processada df_sim b B' l st ->
  em_desfecho (processada df_sim b B' l) (propagar_atraso amb fuel df_sim idx ai af st).
Proof.
  intros H.
  apply (propagar_atraso_inv df_sim (processada df_sim b B' l) (fun _ _ _ => True));
    try done.
  - intros st' idx' HP _. by apply processada_marcar.
  - intros st' idx' tarefa i t ai' af' HP _ Hnv _ _ _.
    apply processada_registrar; [|by apply processada_marcar].
    intros ->. by destruct HP as (Hv & _).
Qed.

Lemma laco_sucessoras_processada fuel ai af prop sucs st :
  processada df_sim b B' l st ->
  em_desfecho (processada df_sim b B' l)
    (laco_sucessoras (propagar_atraso amb fuel df_sim) df_sim ai af prop sucs st).
Proof.
  intros H.
  apply (laco_sucessoras_inv df_sim (processada df_sim b B' l) (fun _ _ _ => True));
    try done.
  intros idx ai' af' st' HP _. by apply propagar_atraso_processada.
Qed.
End Processada.

(** *** The FS edge of the reference scenario *)

Lemma propagar_atraso_fs (h : gmap loc DataFrame) d a b A B iA tA idB s f :
  let df_sim := fresh (dom h) in
  primeira d a = Some A -> folga A = 0 ->
  inicio_bl A = Some iA -> termino_bl A = Some tA ->
  Parser.extrair_ids_sucessoras (sucessoras A) = [mkSucessora idB FS 2] ->
  Texto.py_int idB = b -> a <> b ->
  primeira d b = Some B -> folga B = 0 -> duracao_bl B = 3 ->
  inicio_bl B = Some s -> termino_bl B = Some f -> f - s = 3 ->
  (2 <= limite_recursao amb)%nat ->
  datas_calculaveis amb iA tA (duracao_bl A) 4 4 = true ->
  datas_calculaveis amb s f 3 6 6 = true ->
  em_desfecho
    (processada df_sim b (reescrever (s + 6) (f + 6) 0 B)
       (mkLinhaImpacto (nome B) b s f (s + 6) (f + 6) 0 0 6 6))
    (propagar_atraso amb (limite_recursao amb) df_sim a 4 4
       (mkEstado (<[df_sim := d]> h) ∅ [])).
Proof.
  intros df_sim HA HfA HiA HtA Hsuc Hid Hab HB HfB HdB HiB HtB Hspan Hlim HcA HcB.
  destruct (limite_recursao amb) as [|[|n]]; [lia|lia|].
  rewrite (propagar_atraso_passo _ _ _ _ _ _ A iA tA); try done.
  2: { cbn [heap]. by rewrite quadro_insert_eq. }
  rewrite Hsuc, HfA. cbn [laco_sucessoras atraso_sucessora suc_rel_type suc_lag suc_id].
  rewrite Hid.
  change (atraso_propagado 0 4 4 + 2) with 6. change (Z.max 0 6) with 6.
  rewrite (propagar_atraso_passo _ _ _ _ _ _ B s f); try done.
  - rewrite HfB.
    assert (novo_termino s f 3 6 6 = f + 6) as Hnt.
    { rewrite novo_termino_regular by done. done. }
    pose proof (laco_sucessoras_processada df_sim b (reescrever (s + 6) (f + 6) 0 B)
      (mkLinhaImpacto (nome B) b s f (s + 6) (f + 6) 0 0 6 6) n 6 6
      (atraso_propagado 0 6 6) (Parser.extrair_ids_sucessoras (sucessoras B))
      (registrar df_sim b B s f 6 6
         (marcar b (registrar df_sim a A iA tA 4 4
            (marcar a (mkEstado (<[df_sim := d]> h) ∅ [])))))) as Hl.
    match type of Hl with ?X -> _ => assert X as HX end.
    { split; [|split].
      - unfold registrar, marcar. simpl. apply elem_of_union_l, elem_of_singleton. done.
      - rewrite quadro_registrar. cbn [marcar heap]. rewrite quadro_registrar.
        cbn [marcar heap]. rewrite quadro_insert_eq.
        rewrite primeira_atualizar_eq, primeira_atualizar_ne by done.
        rewrite HB. cbn [fmap option_fmap option_map]. rewrite HfB, HdB, Hnt. done.
      - unfold registrar at 1. cbn [tarefas_impactadas]. apply in_app_iff. right.
        left. rewrite HfB, HdB, Hnt. done. }
    specialize (Hl HX).
    destruct (laco_sucessoras _ _ _ _ _ _ _) as [st'|st']; done.
  - unfold registrar, marcar. cbn [visited].
    rewrite elem_of_union, elem_of_singleton. intros [? | []%elem_of_empty]. congruence.
  - rewrite quadro_registrar. cbn [marcar heap]. rewrite quadro_insert_eq.
    by rewrite primeira_atualizar_ne.
  - by rewrite HdB.
Qed.


(** When B has no successors the call returns, with exactly the rows of
    A and B in the impact table. *)
Lemma simular_fs_exato (h : gmap loc DataFrame) df d a b A B iA tA idB s f :
  h !! df = Some d -> tem_colunas d colunas_desejadas = true ->
  primeira d a = Some A -> duracao_bl A = 5 -> folga A = 0 ->
  inicio_bl A = Some iA -> termino_bl A = Some tA ->
  Parser.extrair_ids_sucessoras (sucessoras A) = [mkSucessora idB FS 2] ->
  Texto.py_int idB = b -> a <> b ->
  primeira d b = Some B -> folga B = 0 -> duracao_bl B = 3 ->
  inicio_bl B = Some s -> termino_bl B = Some f -> f - s = 3 ->
  (2 <= limite_recursao amb)%nat ->
  datas_calculaveis amb iA tA 5 4 4 = true ->
  datas_calculaveis amb s f 3 6 6 = true ->
  Parser.extrair_ids_sucessoras (sucessoras B) = [] ->
  tabela_impacto <$> snd (simular_atraso_caminho_critico amb h df a 4) =
  Some [mkLinhaImpacto (nome A) a iA tA (iA + 4) (iA + 4 + 5) 0 0 4 4;
        mkLinhaImpacto (nome B) b s f (s + 6) (f + 6) 0 0 6 6].
Proof.
  intros Hd Hc HA HdA HfA HiA HtA Hsuc Hid Hab HB HfB HdB HiB HtB Hspan Hlim HcA HcB HsB.
  unfold simular_atraso_caminho_critico. rewrite Hd, Hc. cbn [negb].
  rewrite quadro_insert_eq.
  assert (in_index d a = true) as Hin by (apply in_index_primeira; eauto).
  rewrite Hin. cbn [negb].
  destruct (limite_recursao amb) as [|[|n]]; [lia|lia|].
  rewrite (propagar_atraso_passo _ _ _ _ _ _ A iA tA); try done.
  2: { cbn [heap]. by rewrite quadro_insert_eq. }
  2: { by rewrite HdA. }
  rewrite Hsuc, HfA. cbn [laco_sucessoras atraso_sucessora suc_rel_type suc_lag suc_id].
  rewrite Hid.
  change (atraso_propagado 0 4 4 + 2) with 6. change (Z.max 0 6) with 6.
  rewrite (propagar_atraso_passo _ _ _ _ _ _ B s f); try done.
  - rewrite HsB. cbn [laco_sucessoras fmap option_fmap option_map snd].
    unfold registrar, marcar. cbn [tarefas_impactadas app].
    rewrite HfA, HdA, HfB, HdB.
    rewrite (novo_termino_duracao iA tA), (novo_termino_regular s f) by done.
    unfold novo_inicio. reflexivity.
  - unfold registrar, marcar. cbn [visited].
    rewrite elem_of_union, elem_of_singleton. intros [? | []%elem_of_empty]. congruence.
  - rewrite quadro_registrar. cbn [marcar heap]. rewrite quadro_insert_eq.
    by rewrite primeira_atualizar_ne.  - by rewrite HdB.
Qed.

(** *** Offsets handed to successors are floored at 0 *)

Section Piso.
Variable df_sim : loc.
Variable h0 : gmap loc DataFrame.
Variable d0 : DataFrame.
Variable seed : Z.

Lemma novo_termino_nao_antecipa i t dur ai af :
  0 <= ai -> 0 <= af -> t - i = dur -> t <= novo_termino i t dur ai af.
Proof.
  intros Hai Haf Hd. unfold novo_termino, novo_inicio.
  destruct (Z.eqb_spec (t + af - (i + ai)) dur); lia.
Qed.

Lemma propagar_atraso_piso fuel idx ai af st :
  piso df_sim h0 d0 seed st -> piso_chamada seed idx ai af ->
  em_desfecho (piso df_sim h0 d0 seed) (propagar_atraso amb fuel df_sim idx ai af st).
Proof.
  apply (propagar_atraso_inv df_sim (piso df_sim h0 d0 seed) (piso_chamada seed)).
  - intros st' idx' [He Hl] _. split; [|done].
    eapply estrutura_mono; [|by apply estrutura_marcar]. apply union_subseteq_r.
  - intros st' idx' tarefa i t ai' af' [He Hl] HQ _ Ht _ _. split.
    + apply estrutura_registrar.
      eapply estrutura_mono; [|by apply estrutura_marcar]. apply union_subseteq_r.
    + intros l. unfold registrar. cbn [tarefas_impactadas marcar].
      rewrite in_app_iff. intros [Hin | [<- | []]]; [by apply Hl|].
      cbn [li_indice]. intros Hseed.
      destruct HQ as [? | [Hai Haf]]; [done|].
      repeat split; cbn; [done|done|unfold novo_inicio; lia|].
      intros T0 HT0 Hspan. destruct He as (_ & Hf & _).
      destruct (mesma_forma_primeira _ _ _ _ _ Hf HT0 Ht) as (_ & Hd & _).
      apply novo_termino_nao_antecipa; congruence.
  - intros st0 st' idx' tarefa ai' af' suc ni nt _ _ _ _ _ _. right. lia.
Qed.
End Piso.

Lemma simular_piso h df d idx dias res l :
  h !! df = Some d ->
  snd (simular_atraso_caminho_critico amb h df idx dias) = Some res ->
  In l (tabela_impacto res) -> li_indice l <> idx -> nao_antecipada d l.
Proof.
  intros Hd Hres Hl Hseed.
  destruct (simular_casos h df idx dias) as
    [[Hr _] | [(d' & _ & _ & _ & Hr) | (d' & st & Hd' & _ & _ & Hst & [[_ Hr] | [He Hr]])]];
    rewrite Hr in Hres; simpl in Hres; injection Hres as <-; try done.
  assert (d' = d) as -> by congruence.
  pose proof (propagar_atraso_piso (fresh (dom h)) h d idx (limite_recursao amb) idx dias dias
    (mkEstado (<[fresh (dom h) := d]> h) ∅ [])) as Hp.
  rewrite He in Hp. simpl in Hp. destruct Hp as [_ Hp].
  - split; [apply estrutura_inicial|]. intros ? [].
  - by left.
  - by apply Hp.
Qed.


(** *** Zero delay over neutral relationships *)

Section AtrasoZero.
Variable df_sim : loc.
Variable h0 : gmap loc DataFrame.
Variable d0 : DataFrame.
Hypothesis neutro : cronograma_neutro d0.
Hypothesis representadas : datas_representadas amb d0.

Lemma tarefa_do_cronograma q idx tarefa :
  mesmo_cronograma d0 q -> primeira q idx = Some tarefa ->
  exists r0, In r0 (linhas d0) /\ fst r0 = idx /\ mesmos_campos (snd r0) tarefa.
Proof.
  intros Hq Ht. apply primeira_em_linhas in Ht as (r & Hin & <- & <-).
  destruct (mesmo_cronograma_em _ _ _ Hq Hin) as (r0 & ? & ? & ?). eauto.
Qed.

Lemma tarefa_regular_copia q idx tarefa :
  mesmo_cronograma d0 q -> primeira q idx = Some tarefa -> tarefa_regular tarefa.
Proof.
  intros Hq Ht. destruct (tarefa_do_cronograma _ _ _ Hq Ht) as (r0 & Hin & _ & Hm).
  destruct neutro as [_ Hreg]. destruct (Hreg r0 Hin) as [[Hf (i & f & Hi & Ht' & Hd)] _].
  destruct Hm as (_ & Hmi & Hmt & Hmd & Hmf & _).
  split; [congruence|]. exists i, f. repeat split; congruence.
Qed.

Lemma reescrever_zero tarefa i t :
  tarefa_regular tarefa -> inicio_bl tarefa = Some i -> termino_bl tarefa = Some t ->
  mesmos_campos tarefa
    (reescrever (novo_inicio i 0) (novo_termino i t (duracao_bl tarefa) 0 0)
       (nova_folga (folga tarefa) 0 0) tarefa).
Proof.
  intros [Hf (i' & t' & Hi' & Ht' & Hd)] Hi Ht.
  assert (i' = i) as -> by congruence. assert (t' = t) as -> by congruence.
  unfold mesmos_campos, reescrever. cbn.
  rewrite novo_termino_regular by done.
  unfold novo_inicio, nova_folga, atraso_absorvido.
  repeat split; try done.
  - rewrite Hi. f_equal. lia.
  - rewrite Ht. f_equal. lia.
  - lia.
Qed.

Lemma aresta_neutra_zero q tarefa suc ni nt :
  mesma_forma d0 q -> 0 <= folga tarefa ->
  aresta_neutra d0 suc = true ->
  atraso_sucessora q 0 0 (atraso_propagado (folga tarefa) 0 0) suc = Some (ni, nt) ->
  Z.max 0 ni = 0 /\ Z.max 0 nt = 0.
Proof.
  intros Hq Hf. unfold aresta_neutra, atraso_sucessora, atraso_propagado, atraso_absorvido.
  destruct (suc_rel_type suc).
  - intros Hl%Z.leb_le [= <- <-]. lia.
  - intros Hl%Z.leb_le [= <- <-]. lia.
  - destruct (loc_escalar q _) as [s'|] eqn:Hs'; [|done].
    destruct (mesma_forma_loc_escalar _ _ _ _ Hq Hs') as (s & -> & Hd).
    intros [Hl1%Z.leb_le Hl2%Z.leb_le]%andb_prop [= <- <-]. lia.
  - destruct (loc_escalar q _) as [s'|] eqn:Hs'; [|done].
    destruct (mesma_forma_loc_escalar _ _ _ _ Hq Hs') as (s & -> & Hd).
    intros [Hl1%Z.leb_le Hl2%Z.leb_le]%andb_prop [= <- <-]. lia.
Qed.

Lemma aresta_neutra_avalia q ai af prop suc :
  mesma_forma d0 q -> aresta_neutra d0 suc = true ->
  is_Some (atraso_sucessora q ai af prop suc).
Proof.
  intros Hq. unfold aresta_neutra, atraso_sucessora.
  destruct (suc_rel_type suc); eauto.
  - destruct (loc_escalar d0 _) as [s|] eqn:Hs; [|done].
    destruct (mesma_forma_loc_escalar_some _ _ _ _ Hq Hs) as [s' ->]. eauto.
  - destruct (loc_escalar d0 _) as [s|] eqn:Hs; [|done].
    destruct (mesma_forma_loc_escalar_some _ _ _ _ Hq Hs) as [s' ->]. eauto.
Qed.

Lemma sucessora_neutra q idx tarefa suc :
  mesmo_cronograma d0 q -> primeira q idx = Some tarefa ->
  In suc (Parser.extrair_ids_sucessoras (sucessoras tarefa)) ->
  aresta_neutra d0 suc = true.
Proof.
  intros Hq Ht Hin. destruct (tarefa_do_cronograma _ _ _ Hq Ht) as (r0 & Hr0 & _ & Hm).
  destruct neutro as [_ Hreg]. destruct (Hreg r0 Hr0) as [_ Hn]. apply Hn.
  destruct Hm as (_ & _ & _ & _ & _ & ->). done.
Qed.

Lemma cronograma_registrar_zero st idx tarefa i t :
  mesmo_cronograma d0 (quadro (heap st) df_sim) ->
  primeira (quadro (heap st) df_sim) idx = Some tarefa ->
  inicio_bl tarefa = Some i -> termino_bl tarefa = Some t ->
  mesmo_cronograma d0
    (quadro (heap (registrar df_sim idx tarefa i t 0 0 (marcar idx st))) df_sim).
Proof.
  intros Hq Ht Hi Hf. rewrite quadro_registrar. cbn [marcar heap].
  apply mesmo_cronograma_atualizar; [done|].
  intros r' Hin Hidx.
  assert (primeira (quadro (heap st) df_sim) (fst r') = Some (snd r')) as Hp.
  { apply primeira_unica; [|done].
    rewrite (mesmo_cronograma_rotulos _ _ Hq). by destruct neutro. }
  rewrite Hidx, Ht in Hp. injection Hp as <-.
  apply reescrever_zero; [|done|done]. by eapply tarefa_regular_copia.
Qed.

(** Moving a regular task of the dataset by 0 days raises nothing. *)
Lemma datas_calculaveis_zero q idx tarefa i t :
  mesmo_cronograma d0 q -> primeira q idx = Some tarefa ->
  inicio_bl tarefa = Some i -> termino_bl tarefa = Some t ->
  datas_calculaveis amb i t (duracao_bl tarefa) 0 0 = true.
Proof.
  intros Hq Ht Hi Hf.
  destruct (tarefa_do_cronograma _ _ _ Hq Ht) as (r0 & Hin & _ & Hm).
  destruct (tarefa_regular_copia _ _ _ Hq Ht) as [_ (i' & t' & Hi' & Hf' & Hspan)].
  assert (i' = i) as -> by congruence. assert (t' = t) as -> by congruence.
  destruct Hm as (_ & Hmi & Hmt & _).
  destruct representadas as [Hz Hrep].
  destruct (Hrep r0 i t Hin) as (Hti & Htt & Hspan_ok & Hsi & Hst); [congruence|congruence|].
  unfold datas_calculaveis. rewrite novo_termino_regular by done.
  unfold novo_inicio. rewrite !Z.add_0_r.
  rewrite Hz, Hti, Htt, Hspan_ok, Hsi, Hst.
  cbn [andb]. by rewrite Hspan, Z.eqb_refl.
Qed.

Lemma propagar_atraso_zero fuel idx st :
  mesmo_cronograma d0 (quadro (heap st) df_sim) ->
  estrutura df_sim h0 d0 ∅ st ->
  (size (rotulos d0 ∖ visited st) < fuel)%nat ->
  exists st',
    propagar_atraso amb fuel df_sim idx 0 0 st = Concluido st' /\
    mesmo_cronograma d0 (quadro (heap st') df_sim).
Proof.
  intros H HE Hsz.
  destruct (propagar_atraso_conclui df_sim h0 d0
              (fun st' => mesmo_cronograma d0 (quadro (heap st') df_sim))
              (fun _ ai af => ai = 0 /\ af = 0)) with (fuel := fuel) (V := (∅ : gset Z))
              (idx := idx) (ai := 0) (af := 0) (st := st)
    as (st' & He & HP' & _); try done.
  - intros st1 idx1 tarefa i t ai af HP [-> ->] _ Ht Hi Hf.
    by apply cronograma_registrar_zero.
  - intros st0 st1 idx1 tarefa ai af suc ni nt HP0 HP1 [-> ->] Ht Hin Ha.
    apply (aresta_neutra_zero (quadro (heap st1) df_sim) tarefa suc ni nt).
    + by apply mesmo_cronograma_forma.
    + by destruct (tarefa_regular_copia _ _ _ HP0 Ht).
    + exact (sucessora_neutra _ _ _ _ HP0 Ht Hin).
    + exact Ha.
  - intros st1 idx1 tarefa ai af HP [-> ->] Ht.
    destruct (tarefa_regular_copia _ _ _ HP Ht) as [_ (i & f & Hi & Hf & _)].
    exists i, f. split; [done|]. split; [done|].
    by eapply datas_calculaveis_zero.
  - intros st0 st1 idx1 tarefa ai af suc HP0 HP1 _ Ht Hin.
    apply aresta_neutra_avalia; [by apply mesmo_cronograma_forma|].
    exact (sucessora_neutra _ _ _ _ HP0 Ht Hin).
  - by exists st'.
Qed.
End AtrasoZero.

(** A zero-day delay over a dataset whose relationships are all neutral
    changes no start, finish or slack, and reports the finish date of the
    dataset as it was. *)
Lemma simular_atraso_zero h df d idx :
  h !! df = Some d -> tem_colunas d colunas_desejadas = true ->
  in_index d idx = true -> cronograma_neutro d ->
  datas_representadas amb d ->
  (profundidade d <= limite_recursao amb)%nat ->
  exists res,
    snd (simular_atraso_caminho_critico amb h df idx 0) = Some res /\
    mesmo_cronograma d
      (quadro (fst (simular_atraso_caminho_critico amb h df idx 0)) (fresh (dom h))) /\
    nova_data_termino res = max_termino d.
Proof.
  intros Hd Hc Hi Hn Hrep Hlim.
  destruct (propagar_atraso_zero (fresh (dom h)) h d Hn Hrep (limite_recursao amb) idx
              (mkEstado (<[fresh (dom h) := d]> h) ∅ [])) as (st & He & Hinv).
  { cbn [heap]. rewrite quadro_insert_eq. apply mesmo_cronograma_refl. }
  { apply estrutura_inicial. }
  { pose proof (profundidade_basta d (visited (mkEstado (<[fresh (dom h) := d]> h) ∅ []))).
    lia. }
  unfold simular_atraso_caminho_critico. rewrite Hd, Hc. cbn [negb].
  rewrite quadro_insert_eq, Hi. cbn [negb]. rewrite He. cbn [fst snd].
  eexists. split; [done|]. split; [done|]. cbn.
  by apply mesmo_cronograma_max_termino.
Qed.

End NoAmbiente.

End SimuladorProps.

(** * The specification's statements *)

Import Texto Parser Frame Simulador Vocabulario Exemplos.

(** C1 as stated fails in its general part: a successor can be moved
    earlier.  With A (0..5, duration 5, slack 0) followed by B, whose
    finish is 10 days after its start while its duration is 3, a delay
    of 4 days of A hands B the offsets (4, 4); the finish of B is rebuilt
    from its new start and its duration (source lines 179-182) and goes
    from day 20 to day 17, and so does the finish date returned.  The
    scenario itself needs B's shifted dates to exist: with B five days
    before the last Timestamp the call raises and returns the empty
    result. *)
Lemma C1_counterexample :
  (tabela_impacto <$> snd (simular_atraso_caminho_critico pandas_ns store_AB_longa 0%nat 1 4))
    = Some [mkLinhaImpacto "A" 1 0 5 4 9 0 0 4 4;
            mkLinhaImpacto "B" 2 10 20 14 17 0 0 4 4] /\
  max_termino df_AB_longa = Some 20 /\
  (nova_data_termino <$> snd (simular_atraso_caminho_critico pandas_ns store_AB_longa 0%nat 1 4))
    = Some (Some 17) /\
  ~ sucessora_nunca_antecipada /\
  cenario_fs df_AB_tardio 1 2 tarefa_A tarefa_B_tardia 0 5 106746 106749 /\
  snd (simular_atraso_caminho_critico pandas_ns store_AB_tardio 0%nat 1 4)
    = Some resultado_vazio.
Proof.
  split; [reflexivity|]. split; [reflexivity|]. split; [reflexivity|].
  split; [|split; [|reflexivity]].
  2: { repeat split; try reflexivity; [by exists "2"|discriminate]. }
  intros Hclaim.
  destruct (Hclaim pandas_ns store_AB_longa 0%nat df_AB_longa 1 4
              (mkResultado
                 [mkLinhaImpacto "A" 1 0 5 4 9 0 0 4 4;
                  mkLinhaImpacto "B" 2 10 20 14 17 0 0 4 4]
                 [mkLinhaCritico "A" (Some 4) (Some 9) 5 0;
                  mkLinhaCritico "B" (Some 14) (Some 17) 3 0]
                 (Some 17))
              (mkLinhaImpacto "B" 2 10 20 14 17 0 0 4 4))
    as (_ & _ & _ & Hfim).
  - reflexivity.
  - reflexivity.
  - right. left. reflexivity.
  - discriminate.
  - cbn in Hfim. lia.
Qed.

(** C1, amended.  Relationship-type arithmetic.  In any dataset where
    task A (duration 5, slack 0) has the single successor B through an FS
    relationship with lag +2, and B (duration 3, slack 0) spans its
    duration, [simulate(ds, A, 4)] hands B the offsets (6, 6), provided
    two nested calls are available and the environment can compute the
    shifted dates of A and B: B's row of the working copy has its start
    and finish 6 days later and its duration still 3.  The impact table
    holds B's row with both offsets 6; it is exactly the rows of A and B
    when B has no successors, and for an arbitrary chain below B the row
    is there unless a task further down made the call raise and return
    the empty result.  In general, in every impact row other than the
    seed's both offsets are floored at 0 and the new start is not before
    the original one; the new finish is not before the original one when
    the task's original span is its duration. *)
Theorem C1_fs_offset_floored :
  (forall amb (h : gmap loc DataFrame) df d a b A B iA tA s f,
     h !! df = Some d -> tem_colunas d colunas_desejadas = true ->
     cenario_fs d a b A B iA tA s f ->
     (2 <= limite_recursao amb)%nat ->
     datas_calculaveis amb iA tA 5 4 4 = true ->
     datas_calculaveis amb s f 3 6 6 = true ->
     let linha_B := mkLinhaImpacto (nome B) b s f (s + 6) (f + 6) 0 0 6 6 in
     (exists B',
        primeira (quadro (fst (simular_atraso_caminho_critico amb h df a 4)) (fresh (dom h))) b
          = Some B' /\
        inicio_bl B' = Some (s + 6) /\ termino_bl B' = Some (f + 6) /\
        duracao_bl B' = 3) /\
     (exists res,
        snd (simular_atraso_caminho_critico amb h df a 4) = Some res /\
        (res = resultado_vazio \/ In linha_B (tabela_impacto res))) /\
     (extrair_ids_sucessoras (sucessoras B) = [] ->
      tabela_impacto <$> snd (simular_atraso_caminho_critico amb h df a 4) =
      Some [mkLinhaImpacto (nome A) a iA tA (iA + 4) (iA + 4 + 5) 0 0 4 4; linha_B]))
  /\
  (forall amb (h : gmap loc DataFrame) df d idx dias res l,
     h !! df = Some d ->
     snd (simular_atraso_caminho_critico amb h df idx dias) = Some res ->
     In l (tabela_impacto res) -> li_indice l <> idx ->
     nao_antecipada d l).
Proof.
  split; [|intros; by eapply SimuladorProps.simular_piso].
  intros amb h df d a b A B iA tA s f Hd Hc
    (HA & HdA & HfA & HiA & HtA & (idB & Hsuc & Hid) & Hab & HB & HdB & HfB & HiB & HtB & Hspan)
    Hlim HcA HcB linha_B.
  assert (datas_calculaveis amb iA tA (duracao_bl A) 4 4 = true) as HcA'
    by (by rewrite HdA).
  split; [|split];
    [| |by apply (SimuladorProps.simular_fs_exato amb h df d a b A B iA tA idB s f)].
  - pose proof (SimuladorProps.propagar_atraso_fs amb h d a b A B iA tA idB s f
                  HA HfA HiA HtA Hsuc Hid Hab HB HfB HdB HiB HtB Hspan Hlim HcA' HcB) as Hp.
    destruct (SimuladorProps.simular_casos amb h df a 4) as
      [[_ [Hr | (d' & Hd' & Hc')]] |
       [(d' & Hd' & _ & Hi' & _) |
        (d' & st & Hd' & _ & _ & _ & [[He Hr] | [He Hr]])]].
    + congruence.
    + congruence.
    + assert (d' = d) as -> by congruence.
      assert (in_index d a = true) by (apply FrameProps.in_index_primeira; eauto).
      congruence.
    + assert (d' = d) as -> by congruence.
      rewrite He in Hp. destruct Hp as (_ & Hrow & _). rewrite Hr. cbn [fst].
      eexists. split; [exact Hrow|]. by rewrite <- HdB.
    + assert (d' = d) as -> by congruence.
      rewrite He in Hp. destruct Hp as (_ & Hrow & _). rewrite Hr. cbn [fst].
      eexists. split; [exact Hrow|]. by rewrite <- HdB.
  - pose proof (SimuladorProps.propagar_atraso_fs amb h d a b A B iA tA idB s f
                  HA HfA HiA HtA Hsuc Hid Hab HB HfB HdB HiB HtB Hspan Hlim HcA' HcB) as Hp.
    destruct (SimuladorProps.simular_casos amb h df a 4) as
      [[Hr _] | [(d' & _ & _ & _ & Hr) |
        (d' & st & Hd' & _ & _ & _ & [[He Hr] | [He Hr]])]];
      rewrite Hr; cbn [snd]; eexists; (split; [reflexivity|]); try by left.
    assert (d' = d) as -> by congruence.
    rewrite He in Hp. destruct Hp as (_ & _ & Hl). right. exact Hl.
Qed.

(** C1, amended, at the dataset of tasks A and B. *)
Lemma C1_witness :
  let linha_B := mkLinhaImpacto "B" 2 10 13 (10 + 6) (13 + 6) 0 0 6 6 in
  (exists B',
     primeira (quadro (fst (simular_atraso_caminho_critico pandas_ns store_AB 0%nat 1 4))
                 (fresh (dom store_AB))) 2 = Some B' /\
     inicio_bl B' = Some (10 + 6) /\ termino_bl B' = Some (13 + 6) /\
     duracao_bl B' = 3) /\
  (exists res,
     snd (simular_atraso_caminho_critico pandas_ns store_AB 0%nat 1 4) = Some res /\
     (res = resultado_vazio \/ In linha_B (tabela_impacto res))) /\
  (extrair_ids_sucessoras (sucessoras tarefa_B) = [] ->
   tabela_impacto <$> snd (simular_atraso_caminho_critico pandas_ns store_AB 0%nat 1 4) =
   Some [mkLinhaImpacto "A" 1 0 5 (0 + 4) (0 + 4 + 5) 0 0 4 4; linha_B]).
Proof.
  apply (proj1 C1_fs_offset_floored pandas_ns store_AB 0%nat df_AB 1 2
           tarefa_A tarefa_B 0 5 10 13).
  - reflexivity.
  - reflexivity.
  - repeat split; try reflexivity.
    + exists "2". split; reflexivity.
    + discriminate.
  - cbn. lia.
  - reflexivity.
  - reflexivity.
Defined.

(** C2 as stated fails: with A linked to B by FS lag +2, a zero-day delay
    of A still hands B the lag as an offset.  B moves from 10..13 to
    12..15 and the finish date returned is day 15, while the dataset's
    maximum finish is day 13. *)
Lemma C2_counterexample :
  store_AB !! 0%nat = Some df_AB /\
  in_index df_AB 1 = true /\
  primeira df_AB 2 = Some (mkTarefa "B" (Some 10) (Some 13) 3 0 (Some "") "Sim") /\
  primeira (quadro (fst (simular_atraso_caminho_critico pandas_ns store_AB 0%nat 1 0))
              (fresh (dom store_AB))) 2
    = Some (mkTarefa "B" (Some 12) (Some 15) 3 0 (Some "") "Sim") /\
  (nova_data_termino <$> snd (simular_atraso_caminho_critico pandas_ns store_AB 0%nat 1 0))
    = Some (Some 15) /\
  max_termino df_AB = Some 13 /\
  ~ atraso_zero_sem_efeito.
Proof.
  repeat split; try reflexivity.
  intros Hclaim.
  destruct (Hclaim pandas_ns store_AB 0%nat df_AB 1 eq_refl eq_refl eq_refl)
    as (res & Hres & _ & Hfim).
  vm_compute in Hres. injection Hres as <-. vm_compute in Hfim. discriminate.
Qed.

(** C2, amended.  In a dataset with unique ids whose tasks all have a
    slack that is not negative and valid dates with finish - start =
    duration, and whose relationships all hand on no offset of their own
    (FS or SS with lag <= 0; FF to an existing task with lag <= 0 and
    lag <= its duration; SF to an existing task with lag <= 0 and
    lag + its duration <= 0), when the environment represents the dates
    of the dataset and allows one nested call more than the dataset has
    tasks, [simulate(ds, T, 0)] for a task T of the dataset leaves every
    task's start, finish and slack in the working copy as they were and
    returns the maximum finish date of the unmodified dataset. *)
Theorem C2_zero_delay_neutral :
  forall amb (h : gmap loc DataFrame) df d idx,
    h !! df = Some d ->
    tem_colunas d colunas_desejadas = true ->
    in_index d idx = true ->
    cronograma_neutro d ->
    datas_representadas amb d ->
    (profundidade d <= limite_recursao amb)%nat ->
    exists res,
      snd (simular_atraso_caminho_critico amb h df idx 0) = Some res /\
      mesmo_cronograma d
        (quadro (fst (simular_atraso_caminho_critico amb h df idx 0)) (fresh (dom h))) /\
      nova_data_termino res = max_termino d.
Proof. intros amb h df d idx. apply SimuladorProps.simular_atraso_zero. Qed.

(** C2, amended, at two tasks linked by a plain reference. *)
Lemma C2_witness :
  exists res,
    snd (simular_atraso_caminho_critico pandas_ns store_neutro 0%nat 1 0) = Some res /\
    mesmo_cronograma df_neutro
      (quadro (fst (simular_atraso_caminho_critico pandas_ns store_neutro 0%nat 1 0))
         (fresh (dom store_neutro))) /\
    nova_data_termino res = max_termino df_neutro.
Proof.
  apply (C2_zero_delay_neutral pandas_ns store_neutro 0%nat df_neutro 1);
    try reflexivity.
  - split.
    + cbn. repeat constructor; cbn; rewrite ?list_elem_of_In; cbn; intuition discriminate.
    + intros r [<- | [<- | []]]; (split; [split; [cbn; lia|cbn; eauto 6]|]).
      * intros suc [<- | []]. reflexivity.
      * intros suc [].
  - split; [reflexivity|].
    intros r i t [<- | [<- | []]] [= <-] [= <-]; repeat split; reflexivity.
  - apply Nat.leb_le. reflexivity.
Defined.

(** C3. Parser round-trip.  ["12FS+3;15SS-2,20"] parses to exactly the
    three entries (12, FS, 3), (15, SS, -2), (20, FS, 0), in that order;
    a token without a code gets FS, a token without a signed suffix gets
    lag 0; the null cell and the empty string give the empty list. *)
Theorem C3_parser_round_trip :
  extrair_ids_sucessoras (Some "12FS+3;15SS-2,20") =
    [mkSucessora "12" FS 3; mkSucessora "15" SS (-2); mkSucessora "20" FS 0] /\
  List.map (fun suc => py_int (suc_id suc))
    (extrair_ids_sucessoras (Some "12FS+3;15SS-2,20")) = [12; 15; 20] /\
  (forall d rel, isdigit d = true ->
     extrair_ids_sucessoras (Some (d ++ texto_rel rel)) =
     [mkSucessora d (match rel with Some r => r | None => FS end) 0]) /\
  (forall d sinal l, isdigit d = true -> e_sinal sinal -> isdigit l = true ->
     extrair_ids_sucessoras (Some (d ++ String sinal l)) =
     [mkSucessora d FS (py_int (String sinal l))]) /\
  extrair_ids_sucessoras None = [] /\
  extrair_ids_sucessoras (Some "") = [].
Proof.
  split; [reflexivity|]. split; [reflexivity|].
  split; [|split; [|split; reflexivity]].
  - intros d rel Hd. destruct (ParserProps.isdigit_todos d Hd) as [Ht Hne].
    apply ParserProps.extrair_um_item.
    + by apply ParserProps.app_nao_vazio.
    + apply ParserProps.limpo_app; [by apply ParserProps.todos_digitos_limpo|].
      apply ParserProps.limpo_texto_rel.
    + by apply ParserProps.casar_item_sem_lag.
  - intros d sinal l Hd Hs Hl.
    destruct (ParserProps.isdigit_todos d Hd) as [Ht Hne].
    destruct (ParserProps.isdigit_todos l Hl) as [Htl _].
    apply ParserProps.extrair_um_item.
    + by apply ParserProps.app_nao_vazio.
    + apply ParserProps.limpo_app; [by apply ParserProps.todos_digitos_limpo|].
      cbn [limpo]. rewrite (ParserProps.todos_digitos_limpo l Htl).
      by destruct Hs as [-> | ->].
    + exact (ParserProps.casar_item_com_lag d None sinal l Hd Hs Hl).
Qed.

(** C3 at tokens with a code only, an id only and a lag only. *)
Lemma C3_witness :
  extrair_ids_sucessoras (Some ("15" ++ texto_rel (Some SS))) = [mkSucessora "15" SS 0] /\
  extrair_ids_sucessoras (Some ("20" ++ texto_rel None)) = [mkSucessora "20" FS 0] /\
  extrair_ids_sucessoras (Some ("9" ++ String "-" "4")) = [mkSucessora "9" FS (-4)].
Proof.
  split; [|split].
  - apply (proj1 (proj2 (proj2 C3_parser_round_trip)) "15" (Some SS)). reflexivity.
  - apply (proj1 (proj2 (proj2 C3_parser_round_trip)) "20" None). reflexivity.
  - apply (proj1 (proj2 (proj2 (proj2 C3_parser_round_trip))) "9" "-"%char "4").
    + reflexivity.
    + right. reflexivity.
    + reflexivity.
Defined.

(** C4 fails on the code.  The tracer's extractor deletes every
    non-digit character of a token, so the digits of the lag are glued to
    the id: for ["12FS+3"] the tracer follows id 123 where the parser
    reads id 12, and for the reference string the two id lists differ in
    two of three places.  The parser's ids are, for every string, the
    leading digits of the tokens as the specification words them; the
    tracer's are not.  The two extractors agree on a string of plain
    ids. *)
Theorem C4_tracer_ids_diverge :
  extrair_ids_sucessoras_tracer (Some "12FS+3") = ["123"] /\
  List.map suc_id (extrair_ids_sucessoras (Some "12FS+3")) = ["12"] /\
  extrair_ids_sucessoras_tracer (Some "12FS+3;15SS-2,20") = ["123"; "152"; "20"] /\
  List.map suc_id (extrair_ids_sucessoras (Some "12FS+3;15SS-2,20")) = ["12"; "15"; "20"] /\
  (forall sucessoras,
     List.map suc_id (extrair_ids_sucessoras sucessoras) = ids_da_especificacao sucessoras) /\
  extrair_ids_sucessoras_tracer (Some "12FS+3") <> ids_da_especificacao (Some "12FS+3") /\
  extrair_ids_sucessoras_tracer (Some "12;15,20") =
    List.map suc_id (extrair_ids_sucessoras (Some "12;15,20")).
Proof.
  repeat split; try reflexivity.
  - apply ParserProps.extrair_ids_da_especificacao.
  - discriminate.
Qed.

(** C5 fails on the code.  [visited] holds the start label as an integer
    and every later hop as text, so the start task of a cycle is not
    recognised when the walk comes back to it: on three tasks whose
    successors form the cycle 1 -> 2 -> 0 -> 1 the trace from task 1
    takes four steps, one more than there are tasks, and task B is in the
    chain twice.  The walk itself always ends, for every dataset and
    start label. *)
Theorem C5_trace_revisits_start :
  length (linhas df_ciclo) = 3%nat /\
  Tracer.rastrear_cadeia 1 df_ciclo = Some (["B"; "C"; "A"; "B"], 8) /\
  (forall df tarefa_idx, is_Some (Tracer.rastrear_cadeia tarefa_idx df)).
Proof.
  split; [reflexivity|]. split; [reflexivity|].
  intros df tarefa_idx. apply TracerProps.rastrear_cadeia_termina.
Qed.

(** C6. Simulator write invariant.  The slack the simulator computes for
    a task is never negative; the row it writes carries that slack with
    the critical flag set exactly when the slack is 0, and the flag is
    "Não" when the slack is positive.  After any call, every row of the
    working copy is either a row of the original dataset, never written,
    or such a valid write, and every impact row records a new slack that
    is not negative. *)
Theorem C6_write_invariant :
  (forall folga_original ai af, 0 <= nova_folga folga_original ai af) /\
  (forall ni nt folga_original ai af t,
     let t' := reescrever ni nt (nova_folga folga_original ai af) t in
     folga t' = nova_folga folga_original ai af /\
     escrita_valida t' /\
     (0 < folga t' -> critica t' = "Não")) /\
  (forall amb (h : gmap loc DataFrame) df d idx dias r,
     h !! df = Some d ->
     In r (linhas (quadro (fst (simular_atraso_caminho_critico amb h df idx dias))
                     (fresh (dom h)))) ->
     In r (linhas d) \/ escrita_valida (snd r)) /\
  (forall amb (h : gmap loc DataFrame) df idx dias res l,
     snd (simular_atraso_caminho_critico amb h df idx dias) = Some res ->
     In l (tabela_impacto res) -> 0 <= li_nova_folga l).
Proof.
  split; [apply SimuladorProps.nova_folga_nao_negativa|].
  split.
  { intros ni nt f ai af t t'. split; [done|].
    split; [apply SimuladorProps.reescrever_valida|].
    subst t'. cbn. unfold sim_nao.
    destruct (Z.eqb_spec (nova_folga f ai af) 0); [lia|done]. }
  assert (forall amb (h : gmap loc DataFrame) d idx dias,
    em_desfecho (escritas_validas (fresh (dom h)) d)
      (propagar_atraso amb (limite_recursao amb) (fresh (dom h)) idx dias dias
         (mkEstado (<[fresh (dom h) := d]> h) ∅ []))) as Hrun.
  { intros amb h d idx dias. apply SimuladorProps.propagar_atraso_escritas.
    split; cbn [heap tarefas_impactadas]; [|by intros ? []].
    rewrite SimuladorProps.quadro_insert_eq. by left. }
  split.
  - intros amb h df d idx dias r Hd.
    specialize (Hrun amb h d idx dias).
    destruct (SimuladorProps.simular_casos amb h df idx dias) as
      [[Hr _] | [(d' & Hd' & _ & _ & Hr) | (d' & st & Hd' & _ & _ & _ & [[He Hr] | [He Hr]])]];
      rewrite Hr; cbn [fst].
    + unfold quadro. rewrite (not_elem_of_dom_1 h (fresh (dom h))); [by intros []|].
      apply is_fresh.
    + rewrite SimuladorProps.quadro_insert_eq. left. congruence.
    + assert (d' = d) as -> by congruence. rewrite He in Hrun. by apply Hrun.
    + assert (d' = d) as -> by congruence. rewrite He in Hrun. by apply Hrun.
  - intros amb h df idx dias res l.
    destruct (SimuladorProps.simular_casos amb h df idx dias) as
      [[Hr _] | [(d' & Hd' & _ & _ & Hr) | (d' & st & Hd' & _ & _ & _ & [[He Hr] | [He Hr]])]];
      rewrite Hr; cbn [snd]; intros [= <-]; cbn; try done.
    specialize (Hrun amb h d' idx dias). rewrite He in Hrun. by apply Hrun.
Qed.

(** C6 at the row a delay of -3 days writes for the single task. *)
Lemma C6_witness :
  In (7, mkTarefa "T" (Some 7) (Some 12) 5 5 (Some "") "Não") (linhas df_solo) \/
  escrita_valida (snd (7, mkTarefa "T" (Some 7) (Some 12) 5 5 (Some "") "Não")).
Proof.
  apply (proj1 (proj2 (proj2 C6_write_invariant)) pandas_ns store_solo 0%nat df_solo 7 (-3)).
  - reflexivity.
  - left. reflexivity.
Defined.

(** C7. Frame property.  Whatever the task and the delay, the DataFrame
    passed to [simulate] is after the call what it was before, in every
    cell of every row; so is every other DataFrame of the store.  All
    writes go to the copy made at the start of the call. *)
Theorem C7_original_unchanged :
  forall amb (h : gmap loc DataFrame) df d idx dias,
    h !! df = Some d ->
    fst (simular_atraso_caminho_critico amb h df idx dias) !! df = Some d /\
    (forall r, r ∈ dom h ->
       fst (simular_atraso_caminho_critico amb h df idx dias) !! r = h !! r).
Proof.
  intros amb h df d idx dias Hd. split.
  - rewrite SimuladorProps.simular_preserva_store; [done|].
    apply elem_of_dom. eauto.
  - intros r. apply SimuladorProps.simular_preserva_store.
Qed.

(** C7 at the dataset of tasks A and B. *)
Lemma C7_witness :
  fst (simular_atraso_caminho_critico pandas_ns store_AB 0%nat 1 4) !! 0%nat = Some df_AB /\
  (forall r, r ∈ dom store_AB ->
     fst (simular_atraso_caminho_critico pandas_ns store_AB 0%nat 1 4) !! r = store_AB !! r).
Proof. apply (C7_original_unchanged pandas_ns store_AB 0%nat df_AB 1 4). reflexivity. Defined.

(** C8. Failure policy.  When a required column is missing from the
    dataset, or the seed task id is not among its index labels, the call
    returns the empty impact table, the empty critical-path table and no
    finish date.  The call returns a result for every input: whatever is
    raised inside is caught. *)
Theorem C8_failure_returns_empty :
  (forall amb (h : gmap loc DataFrame) df d idx dias,
     h !! df = Some d ->
     (exists c, In c colunas_desejadas /\ ~ In c (columns d)) \/ in_index d idx = false ->
     snd (simular_atraso_caminho_critico amb h df idx dias) = Some (mkResultado [] [] None)) /\
  (forall amb (h : gmap loc DataFrame) df idx dias,
     is_Some (snd (simular_atraso_caminho_critico amb h df idx dias))).
Proof.
  split; [|apply SimuladorProps.simular_total].
  intros amb h df d idx dias Hd Hfail.
  unfold simular_atraso_caminho_critico. rewrite Hd.
  destruct (tem_colunas d colunas_desejadas) eqn:Hc; cbn [negb]; [|done].
  destruct Hfail as [(c & Hin & Hn) | Hidx].
  - by rewrite (SimuladorProps.tem_colunas_falta d c Hin Hn) in Hc.
  - rewrite SimuladorProps.quadro_insert_eq, Hidx. done.
Qed.

(** C8 at a table without the ['Folga'] column and at an absent seed. *)
Lemma C8_witness :
  snd (simular_atraso_caminho_critico pandas_ns store_sem_folga 0%nat 7 4) = Some (mkResultado [] [] None) /\
  snd (simular_atraso_caminho_critico pandas_ns store_solo 0%nat 8 4) = Some (mkResultado [] [] None).
Proof.
  split.
  - apply (proj1 C8_failure_returns_empty pandas_ns store_sem_folga 0%nat df_sem_folga 7 4).
    + reflexivity.
    + left. exists "Folga". split.
      * cbn. tauto.
      * cbn. intuition discriminate.
  - apply (proj1 C8_failure_returns_empty pandas_ns store_solo 0%nat df_solo 8 4).
    + reflexivity.
    + right. reflexivity.
Defined.

(** C9 fails on the code.  The loop test [while current_idx and ...]
    reads the index label 0 as false: the trace of the task labelled 0
    is the empty chain with total 0, for every dataset, also when the
    task is critical, where the claim gives the chain of its name and
    its slack (here ["A"] and 3). *)
Theorem C9_critical_task_label_zero :
  primeira df_zero 0 = Some tarefa_zero /\
  is_critical tarefa_zero = true /\
  nome tarefa_zero = "A" /\ folga tarefa_zero = 3 /\
  Tracer.rastrear_cadeia 0 df_zero = Some ([], 0) /\
  (forall df, Tracer.rastrear_cadeia 0 df = Some ([], 0)).
Proof. repeat split; reflexivity. Qed.

(** C10 as stated fails for a delay the environment cannot represent:
    with pandas at nanosecond resolution a delay of -10 000 000 days is
    no Timedelta, line 175 raises, and the call returns the empty result
    instead of one impact row. *)
Lemma C10_counterexample :
  primeira df_solo 7 = Some tarefa_solo /\
  sucessoras tarefa_solo = Some "" /\ 0 <= folga tarefa_solo /\
  snd (simular_atraso_caminho_critico pandas_ns store_solo 0%nat 7 (-10000000))
    = Some resultado_vazio /\
  ~ atraso_negativo_aceito.
Proof.
  repeat split; try reflexivity; [cbn; lia|].
  intros Hclaim.
  destruct (Hclaim pandas_ns store_solo 0%nat df_solo 7 (-10000000) tarefa_solo 10 15)
    as (l & res & Hres & Htab & _); try reflexivity.
  - by right.
  - cbn. lia.
  - vm_compute in Hres. injection Hres as <-. discriminate.
Qed.

(** C10, amended.  A negative delay is accepted.  For a seed task T of
    the dataset with valid dates, no successors (a null or empty cell)
    and a slack that is not negative, [simulate(ds, T, d)] with d < 0
    such that the environment can compute the shifted dates, called with
    one nested call available, returns an impact table of exactly one
    row: the new start is the start plus d, the new finish is the new
    start plus the duration (which is the finish plus d when T spans its
    duration), and the new slack is the slack minus d.  The working copy
    stores these values, with the critical flag "Não". *)
Theorem C10_negative_delay :
  forall amb (h : gmap loc DataFrame) df d idx dias T i t,
    h !! df = Some d -> tem_colunas d colunas_desejadas = true ->
    primeira d idx = Some T ->
    inicio_bl T = Some i -> termino_bl T = Some t ->
    sucessoras T = None \/ sucessoras T = Some "" ->
    0 <= folga T -> dias < 0 ->
    (1 <= limite_recursao amb)%nat ->
    datas_calculaveis amb i t (duracao_bl T) dias dias = true ->
    exists l res T',
      snd (simular_atraso_caminho_critico amb h df idx dias) = Some res /\
      tabela_impacto res = [l] /\
      li_indice l = idx /\
      li_atraso_inicio l = dias /\ li_atraso_termino l = dias /\
      li_inicio_novo l = i + dias /\
      li_termino_novo l = i + dias + duracao_bl T /\
      (t - i = duracao_bl T -> li_termino_novo l = t + dias) /\
      li_nova_folga l = folga T - dias /\
      primeira (quadro (fst (simular_atraso_caminho_critico amb h df idx dias))
                  (fresh (dom h))) idx = Some T' /\
      inicio_bl T' = Some (i + dias) /\
      termino_bl T' = Some (i + dias + duracao_bl T) /\
      folga T' = folga T - dias /\
      critica T' = "Não".
Proof.
  intros amb h df d idx dias T i t Hd Hc HT Hi Hf Hs Hfolga Hdias Hlim Hdatas.
  assert (extrair_ids_sucessoras (sucessoras T) = []) as Hsuc
    by (destruct Hs as [-> | ->]; reflexivity).
  rewrite (SimuladorProps.simular_sem_sucessoras amb h df d idx dias T i t
             Hd Hc HT Hi Hf Hsuc Hlim Hdatas).
  cbn [fst snd].
  assert (nova_folga (folga T) dias dias = folga T - dias) as Hnf
    by (unfold nova_folga, atraso_absorvido; lia).
  assert (novo_termino i t (duracao_bl T) dias dias = i + dias + duracao_bl T) as Hnt
    by (rewrite SimuladorProps.novo_termino_duracao; done).
  eexists _, _, _. split; [reflexivity|]. cbn.
  rewrite SimuladorProps.quadro_insert_eq, FrameProps.primeira_atualizar_eq, HT.
  cbn. rewrite Hnf, Hnt. unfold novo_inicio.
  repeat split; try done; try lia.
  - cbn. lia.
  - cbn. unfold sim_nao. destruct (Z.eqb_spec (folga T - dias) 0); [lia|done].
Qed.

(** C10, amended, at the single task, delayed by -3 days. *)
Lemma C10_witness :
  exists l res T',
    snd (simular_atraso_caminho_critico pandas_ns store_solo 0%nat 7 (-3)) = Some res /\
    tabela_impacto res = [l] /\
    li_indice l = 7 /\
    li_atraso_inicio l = -3 /\ li_atraso_termino l = -3 /\
    li_inicio_novo l = 10 + -3 /\
    li_termino_novo l = 10 + -3 + duracao_bl tarefa_solo /\
    (15 - 10 = duracao_bl tarefa_solo -> li_termino_novo l = 15 + -3) /\
    li_nova_folga l = folga tarefa_solo - -3 /\
    primeira (quadro (fst (simular_atraso_caminho_critico pandas_ns store_solo 0%nat 7 (-3)))
                (fresh (dom store_solo))) 7 = Some T' /\
    inicio_bl T' = Some (10 + -3) /\
    termino_bl T' = Some (10 + -3 + duracao_bl tarefa_solo) /\
    folga T' = folga tarefa_solo - -3 /\
    critica T' = "Não".
Proof.
  apply (C10_negative_delay pandas_ns store_solo 0%nat df_solo 7 (-3) tarefa_solo 10 15);
    try reflexivity.
  - right. reflexivity.
  - cbn. lia.
  - cbn. lia.
Defined.

(** * Further properties of the engine *)

Import Referencias Exemplos2.

(** ** The two extractors *)

Module ExtratoresProps.
Import ParserProps.

Lemma re_split_nao_vazio s : re_split s <> [].
Proof.
  induction s as [|c r IH]; cbn; [done|].
  destruct (is_sep c); [done|]. by destruct (re_split r).
Qed.

Lemma re_split_sep s1 sep s2 :
  is_sep sep = true -> re_split (s1 ++ String sep s2) = (re_split s1 ++ re_split s2)%list.
Proof.
  intros Hs. induction s1 as [|c r IH].
  - change ("" ++ String sep s2) with (String sep s2). cbn. by rewrite Hs.
  - rewrite app_cons. cbn [re_split]. rewrite IH.
    destruct (is_sep c); [done|].
    pose proof (re_split_nao_vazio r). by destruct (re_split r).
Qed.

Lemma casar_itens_app l1 l2 :
  casar_itens (l1 ++ l2) = (casar_itens l1 ++ casar_itens l2)%list.
Proof.
  induction l1 as [|item l1 IH]; [done|]. cbn.
  destruct (casar_item (strip item)); cbn; by rewrite IH.
Qed.

Lemma extrair_casar_itens s :
  extrair_ids_sucessoras (Some s) = casar_itens (re_split s).
Proof. by destruct s. Qed.

Lemma extrair_tracer_itens s :
  extrair_ids_sucessoras_tracer (Some s) =
  List.map so_digitos (List.filter (fun id => isdigit (so_digitos id)) (re_split s)).
Proof. by destruct s. Qed.

Lemma limpo_sinal sinal l :
  e_sinal sinal -> todos_digitos l = true -> limpo (String sinal l) = true.
Proof.
  intros Hs Hl. cbn [limpo]. rewrite (todos_digitos_limpo l Hl).
  by destruct Hs as [-> | ->].
Qed.

Lemma extrair_referencia r :
  referencia_bem_formada r ->
  extrair_ids_sucessoras (Some (texto_referencia r)) = [entrada r].
Proof.
  destruct r as [d rel lag]. unfold referencia_bem_formada, texto_referencia, entrada.
  cbn [ref_id ref_rel ref_lag]. intros [Hd Hlag].
  destruct (isdigit_todos d Hd) as [Ht Hne].
  apply extrair_um_item.
  - by apply app_nao_vazio.
  - apply limpo_app; [by apply todos_digitos_limpo|].
    apply limpo_app; [apply limpo_texto_rel|].
    destruct lag as [[sinal l]|]; [|done]. destruct Hlag as [Hs Hl].
    apply limpo_sinal; [done|]. by destruct (isdigit_todos l Hl).
  - destruct lag as [[sinal l]|].
    + destruct Hlag as [Hs Hl]. by apply casar_item_com_lag.
    + cbn [texto_lag]. rewrite app_vazio. by apply casar_item_sem_lag.
Qed.

Lemma todos_digitos_span s : todos_digitos (fst (span_digitos s)) = true.
Proof.
  induction s as [|c r IH]; [done|]. cbn.
  destruct (is_digit c) eqn:Hc; [|done].
  destruct (span_digitos r) as [d rest]. cbn in *. by rewrite Hc.
Qed.

Lemma casar_item_isdigit item suc :
  casar_item item = Some suc -> isdigit (suc_id suc) = true.
Proof.
  rewrite casar_item_id. pose proof (todos_digitos_span item) as Ht.
  destruct (fst (span_digitos item)) as [|c d]; [done|].
  intros [= <-]. exact Ht.
Qed.

Lemma extrair_tracer_isdigit sucessoras id :
  In id (extrair_ids_sucessoras_tracer sucessoras) -> isdigit id = true.
Proof.
  destruct sucessoras as [s|]; [|done]. rewrite extrair_tracer_itens.
  rewrite in_map_iff. intros (item & <- & Hin).
  by apply filter_In in Hin as [_ Hd].
Qed.

Lemma sem_digitos_partes s :
  sem_digitos s -> Forall sem_digitos (re_split s).
Proof.
  unfold sem_digitos. induction s as [|c r IH]; cbn.
  - intros _. by repeat constructor.
  - destruct (is_digit c) eqn:Hc; [done|]. intros Hr. specialize (IH Hr).
    destruct (is_sep c); [by constructor|].
    destruct IH as [|t ts Ht Hts]; constructor; try done;
      cbn; by rewrite Hc.
Qed.

Lemma sem_digitos_strip s : sem_digitos s -> sem_digitos (strip s).
Proof.
  unfold sem_digitos, strip. intros Hs.
  assert (so_digitos (lstrip s) = "") as Hl.
  { induction s as [|c r IH]; [done|]. cbn in *.
    destruct (is_digit c) eqn:Hc; [done|].
    destruct (is_space c); [by apply IH|]. cbn. by rewrite Hc. }
  clear Hs. induction (lstrip s) as [|c r IH]; [done|]. cbn in *.
  destruct (is_digit c) eqn:Hc; [done|]. specialize (IH Hl).
  destruct (rstrip r) as [|c' r'].
  - destruct (is_space c); [done|]. cbn. by rewrite Hc.
  - cbn [so_digitos]. rewrite Hc. exact IH.
Qed.

Lemma sem_digitos_casar item : sem_digitos item -> casar_item item = None.
Proof.
  unfold sem_digitos. rewrite casar_item_id.
  destruct item as [|c r]; [done|]. cbn.
  destruct (is_digit c); [done|]. done.
Qed.

Lemma so_digitos_todos s : todos_digitos s = true -> so_digitos s = s.
Proof.
  induction s as [|c r IH]; [done|]. cbn.
  intros [Hc Hr]%andb_prop. rewrite Hc. by rewrite IH.
Qed.

Lemma so_ids_partes s : so_ids s = true -> Forall (fun t => todos_digitos t = true) (re_split s).
Proof.
  induction s as [|c r IH]; cbn.
  - intros _. by repeat constructor.
  - intros [Hc Hr]%andb_prop. specialize (IH Hr).
    destruct (is_sep c) eqn:Hs; [by constructor|].
    rewrite orb_false_r in Hc.
    destruct IH as [|t ts Ht Hts]; constructor; try done;
      cbn; by rewrite Hc.
Qed.

Lemma extratores_em_digitos l :
  Forall (fun t => todos_digitos t = true) l ->
  List.map so_digitos (List.filter (fun id => isdigit (so_digitos id)) l) =
  List.map suc_id (casar_itens l).
Proof.
  induction 1 as [|t l Ht _ IH]; [done|]. cbn [List.filter casar_itens].
  rewrite (strip_limpo t (todos_digitos_limpo t Ht)), (so_digitos_todos t Ht).
  destruct t as [|c d]; [done|].
  assert (isdigit (String c d) = true) as Hd by done.
  pose proof (casar_item_sem_lag (String c d) None Hd) as Hc.
  cbn [texto_rel] in Hc. rewrite app_vazio in Hc.
  rewrite Hd, Hc. cbn [List.map suc_id].
  f_equal; [by apply so_digitos_todos|exact IH].
Qed.

End ExtratoresProps.

(** X1. Both extractors work piece by piece: the entries of two reference
    strings joined by [;] or by [,] are the entries of the first followed
    by the entries of the second. *)
Theorem X1_extractors_compose :
  (forall s1 s2,
     extrair_ids_sucessoras (Some (s1 ++ String ";" s2)) =
     (extrair_ids_sucessoras (Some s1) ++ extrair_ids_sucessoras (Some s2))%list) /\
  (forall s1 s2,
     extrair_ids_sucessoras (Some (s1 ++ String "," s2)) =
     (extrair_ids_sucessoras (Some s1) ++ extrair_ids_sucessoras (Some s2))%list) /\
  (forall s1 s2,
     extrair_ids_sucessoras_tracer (Some (s1 ++ String ";" s2)) =
     (extrair_ids_sucessoras_tracer (Some s1) ++ extrair_ids_sucessoras_tracer (Some s2))%list) /\
  (forall s1 s2,
     extrair_ids_sucessoras_tracer (Some (s1 ++ String "," s2)) =
     (extrair_ids_sucessoras_tracer (Some s1) ++ extrair_ids_sucessoras_tracer (Some s2))%list).
Proof.
  repeat split; intros s1 s2.
  - rewrite !ExtratoresProps.extrair_casar_itens, ExtratoresProps.re_split_sep by done.
    apply ExtratoresProps.casar_itens_app.
  - rewrite !ExtratoresProps.extrair_casar_itens, ExtratoresProps.re_split_sep by done.
    apply ExtratoresProps.casar_itens_app.
  - rewrite !ExtratoresProps.extrair_tracer_itens, ExtratoresProps.re_split_sep by done.
    by rewrite List.filter_app, List.map_app.
  - rewrite !ExtratoresProps.extrair_tracer_itens, ExtratoresProps.re_split_sep by done.
    by rewrite List.filter_app, List.map_app.
Qed.

(** X2. Round trip of the simulator's parser: a list of well-formed
    written references (digits, an optional code, an optional signed
    lag), joined by [;] or by [,], parses to exactly the entries they
    stand for, in order. *)
Theorem X2_parser_round_trip :
  forall sep refs,
    sep = ";"%char \/ sep = ","%char ->
    Forall referencia_bem_formada refs ->
    extrair_ids_sucessoras (Some (juntar sep (List.map texto_referencia refs))) =
    List.map entrada refs.
Proof.
  intros sep refs Hsep Hwf.
  assert (is_sep sep = true) as Hs by (destruct Hsep as [-> | ->]; reflexivity).
  induction Hwf as [|r refs Hr Hrefs IH]; [done|].
  destruct refs as [|r' refs].
  - cbn. by apply ExtratoresProps.extrair_referencia.
  - change (juntar sep (List.map texto_referencia (r :: r' :: refs)))
      with (texto_referencia r ++ String sep (juntar sep (List.map texto_referencia (r' :: refs)))).
    rewrite ExtratoresProps.extrair_casar_itens, ExtratoresProps.re_split_sep by done.
    rewrite ExtratoresProps.casar_itens_app, <- !ExtratoresProps.extrair_casar_itens.
    rewrite IH, (ExtratoresProps.extrair_referencia r Hr). done.
Qed.

(** X2 at the reference string of the specification. *)
Lemma X2_witness :
  extrair_ids_sucessoras
    (Some (juntar ";" (List.map texto_referencia
       [mkReferencia "12" (Some FS) (Some ("+"%char, "3"));
        mkReferencia "15" (Some SS) (Some ("-"%char, "2"));
        mkReferencia "20" None None]))) =
  List.map entrada
    [mkReferencia "12" (Some FS) (Some ("+"%char, "3"));
     mkReferencia "15" (Some SS) (Some ("-"%char, "2"));
     mkReferencia "20" None None].
Proof.
  apply X2_parser_round_trip.
  - left. reflexivity.
  - constructor; [|constructor; [|constructor; [|constructor]]].
    + split; [reflexivity|]. split; [left|]; reflexivity.
    + split; [reflexivity|]. split; [right|]; reflexivity.
    + split; [reflexivity|exact I].
Defined.

(** X3. What the extractors hand on is always usable as a task id: every
    id the simulator's parser or the tracer's extractor returns is a
    non-empty string of digits, whatever the cell holds; and a cell
    without any digit (free text, stray separators) gives the empty list
    in both. *)
Theorem X3_extracted_ids_are_digits :
  (forall sucessoras suc,
     In suc (extrair_ids_sucessoras sucessoras) -> isdigit (suc_id suc) = true) /\
  (forall sucessoras id,
     In id (extrair_ids_sucessoras_tracer sucessoras) -> isdigit id = true) /\
  (forall s, sem_digitos s ->
     extrair_ids_sucessoras (Some s) = [] /\ extrair_ids_sucessoras_tracer (Some s) = []).
Proof.
  split; [|split].
  - intros [s|] suc; [|done]. rewrite ExtratoresProps.extrair_casar_itens.
    induction (re_split s) as [|item rest IH]; [done|]. cbn.
    destruct (casar_item (strip item)) as [suc'|] eqn:Hc; [|exact IH].
    intros [<- | Hin]; [|by apply IH].
    by apply (ExtratoresProps.casar_item_isdigit (strip item)).
  - apply ExtratoresProps.extrair_tracer_isdigit.
  - intros s Hs. rewrite ExtratoresProps.extrair_casar_itens,
      ExtratoresProps.extrair_tracer_itens.
    pose proof (ExtratoresProps.sem_digitos_partes s Hs) as Hp.
    induction Hp as [|item rest Hi _ [IH1 IH2]]; [done|]. cbn.
    rewrite (ExtratoresProps.sem_digitos_casar _ (ExtratoresProps.sem_digitos_strip _ Hi)).
    unfold sem_digitos in Hi. rewrite Hi. cbn. done.
Qed.

(** X3 at the entries of a cell with free text around the references. *)
Lemma X3_witness :
  isdigit (suc_id (mkSucessora "12" FS 0)) = true /\
  (extrair_ids_sucessoras (Some "abc;;,") = [] /\
   extrair_ids_sucessoras_tracer (Some "abc;;,") = []).
Proof.
  split.
  - apply (proj1 X3_extracted_ids_are_digits (Some " 12 FS+3; abc") (mkSucessora "12" FS 0)).
    left. reflexivity.
  - apply (proj2 (proj2 X3_extracted_ids_are_digits) "abc;;,"). reflexivity.
Defined.

(** X4. On a cell that holds plain ids only (digits and the separators
    [;] and [,]), the tracer's extractor and the simulator's parser read
    the same ids, in the same order. *)
Theorem X4_extractors_agree_on_plain_ids :
  forall s, so_ids s = true ->
    extrair_ids_sucessoras_tracer (Some s) =
    List.map suc_id (extrair_ids_sucessoras (Some s)).
Proof.
  intros s Hs.
  rewrite ExtratoresProps.extrair_casar_itens, ExtratoresProps.extrair_tracer_itens.
  apply ExtratoresProps.extratores_em_digitos, ExtratoresProps.so_ids_partes, Hs.
Qed.

(** X4 at a list of three ids with an empty piece. *)
Lemma X4_witness :
  extrair_ids_sucessoras_tracer (Some "12;;15,20") =
  List.map suc_id (extrair_ids_sucessoras (Some "12;;15,20")).
Proof. apply X4_extractors_agree_on_plain_ids. reflexivity. Defined.

(** ** The tracer's walk *)

Module CadeiaProps.
Import Tracer TracerProps.

(** The choice loop, for any starting [min_folga] and [proxima_tarefa]:
    either nothing beats the starting minimum, or the result is the first
    strictly smallest existing successor. *)
Lemma escolher_proxima_geral df sucs : forall m p,
  (escolher_proxima df sucs m p = p /\
   forall s' t', In s' sucs -> Frame.primeira df (py_int s') = Some t' ->
     match m with None => False | Some mv => mv <= folga t' end)
  \/
  (exists pre s post t,
     sucs = (pre ++ s :: post)%list /\
     Frame.primeira df (py_int s) = Some t /\
     escolher_proxima df sucs m p = Some (IStr s) /\
     match m with None => True | Some mv => folga t < mv end /\
     (forall s' t', In s' pre -> Frame.primeira df (py_int s') = Some t' ->
        folga t < folga t') /\
     (forall s' t', In s' post -> Frame.primeira df (py_int s') = Some t' ->
        folga t <= folga t')).
Proof.
  induction sucs as [|s sucs IH]; intros m p; [left; by split|].
  cbn [escolher_proxima].
  destruct (Frame.primeira df (py_int s)) as [t|] eqn:Ht.
  - destruct (match m with None => true | Some m0 => Z.ltb (folga t) m0 end) eqn:Hcond.
    + assert (match m with None => True | Some mv => folga t < mv end) as Hm.
      { destruct m as [mv|]; [|done]. by apply Z.ltb_lt. }
      destruct (IH (Some (folga t)) (Some (IStr s)))
        as [[He Hall] | (pre & s2 & post & t2 & -> & Ht2 & He & Hlt & Hpre & Hpost)].
      * right. exists [], s, sucs, t. repeat split; try done.
      * right. exists (s :: pre), s2, post, t2. repeat split; try done.
        -- destruct m as [mv|]; [|done]. cbn in Hlt. lia.
        -- intros s' t' [<- | Hin] Hs'; [|by eapply Hpre].
           rewrite Ht in Hs'. injection Hs' as <-. exact Hlt.
    + destruct m as [mv|]; [|done]. apply Z.ltb_ge in Hcond.
      destruct (IH (Some mv) p)
        as [[He Hall] | (pre & s2 & post & t2 & -> & Ht2 & He & Hlt & Hpre & Hpost)].
      * left. split; [done|]. intros s' t' [<- | Hin] Hs'; [|by eapply Hall].
        rewrite Ht in Hs'. by injection Hs' as <-.
      * right. exists (s :: pre), s2, post, t2. repeat split; try done.
        intros s' t' [<- | Hin] Hs'; [|by eapply Hpre].
        rewrite Ht in Hs'. injection Hs' as <-. cbn in Hlt. lia.
  - destruct (IH m p)
      as [[He Hall] | (pre & s2 & post & t2 & -> & Ht2 & He & Hlt & Hpre & Hpost)].
    + left. split; [done|]. intros s' t' [<- | Hin] Hs'; [congruence|by eapply Hall].
    + right. exists (s :: pre), s2, post, t2. repeat split; try done.
      intros s' t' [<- | Hin] Hs'; [congruence|by eapply Hpre].
Qed.

(** The chain only grows, by names of tasks of the table; with slacks
    that are not negative the total only grows; and the chain gains at
    most one name per candidate key not yet visited. *)
Lemma rastrear_laco_cresce df inicial fuel : forall cur vis cadeia total cadeia' total',
  (forall c, cur = Some c -> c ∈ candidatos df inicial) ->
  rastrear_laco fuel df cur vis cadeia total = Some (cadeia', total') ->
  (exists resto,
     cadeia' = (cadeia ++ resto)%list /\
     (length resto <= size (candidatos df inicial ∖ vis))%nat /\
     (forall n, In n resto -> exists r, In r (linhas df) /\ nome (snd r) = n)) /\
  ((forall r, In r (linhas df) -> 0 <= folga (snd r)) -> total <= total').
Proof.
  induction fuel as [|n IH]; intros cur vis cadeia total cadeia' total' Hc; [done|].
  cbn [rastrear_laco].
  assert (forall (l : list string) t, Some (cadeia, total) = Some (l, t) ->
    (exists resto, l = (cadeia ++ resto)%list /\
       (length resto <= size (candidatos df inicial ∖ vis))%nat /\
       (forall n, In n resto -> exists r, In r (linhas df) /\ nome (snd r) = n)) /\
    ((forall r, In r (linhas df) -> 0 <= folga (snd r)) -> total <= t)) as Hpara.
  { intros l t [= <- <-]. split; [|lia]. exists []. rewrite app_nil_r.
    split; [done|]. split; [cbn; lia|]. intros ? []. }
  destruct cur as [c|]; [|apply Hpara].
  destruct (negb (truthy c)); cbn [orb]; [apply Hpara|].
  destruct (bool_decide_reflect (c ∈ vis)) as [Hin|Hnin]; [apply Hpara|].
  destruct (Frame.primeira df (int_de c)) as [t|] eqn:Ht; [|apply Hpara].
  destruct (FrameProps.primeira_em_linhas _ _ _ Ht) as (r & Hr & Hrt & _).
  assert (size ({[c]} ∪ (candidatos df inicial ∖ ({[c]} ∪ vis)))
          <= size (candidatos df inicial ∖ vis))%nat as Hsz.
  { apply subseteq_size. intros x [->%elem_of_singleton | Hx]%elem_of_union.
    - apply elem_of_difference. split; [by apply Hc|done].
    - apply elem_of_difference in Hx as [Hx1 Hx2]. apply elem_of_difference.
      split; [done|]. intros Hv. apply Hx2. by apply elem_of_union_r. }
  rewrite size_union, size_singleton in Hsz.
  2: { intros x ->%elem_of_singleton [_ Hx]%elem_of_difference.
       apply Hx. by apply elem_of_union_l, elem_of_singleton. }
  destruct (String.eqb (critica t) "Sim").
  - intros [= <- <-]. split.
    + exists [nome t]. split; [done|]. split; [cbn; lia|].
      intros n' [<- | []]. exists r. by rewrite Hrt.
    + intros Hf. specialize (Hf r Hr). rewrite Hrt in Hf. lia.
  - intros Hrec. apply IH in Hrec as [(resto & -> & Hlen & Hnomes) Htot].
    2: { intros i Hi. by eapply proxima_candidata. }
    split.
    + exists (nome t :: resto). rewrite <- app_assoc. split; [done|].
      split; [cbn; lia|].
      intros n' [<- | Hn]; [exists r; by rewrite Hrt|by apply Hnomes].
    + intros Hf. specialize (Htot Hf). specialize (Hf r Hr). rewrite Hrt in Hf. lia.
Qed.

(** One iteration of the loop on a key that passes the loop test and
    names a task of the table. *)
Lemma rastrear_laco_passo n df c vis cadeia total t :
  truthy c = true -> c ∉ vis -> Frame.primeira df (int_de c) = Some t ->
  rastrear_laco (S n) df (Some c) vis cadeia total =
  if String.eqb (critica t) "Sim"
  then Some ((cadeia ++ [nome t])%list, total + folga t)
  else rastrear_laco n df
         (escolher_proxima df (extrair_ids_sucessoras_tracer (sucessoras t)) None None)
         ({[c]} ∪ vis) (cadeia ++ [nome t])%list (total + folga t).
Proof.
  intros Htr Hv Ht. cbn [rastrear_laco]. rewrite Htr. cbn [negb orb].
  destruct (bool_decide_reflect (c ∈ vis)); [done|]. by rewrite Ht.
Qed.

Lemma escolher_proxima_nenhuma df sucs :
  (forall s, In s sucs -> Frame.primeira df (py_int s) = None) ->
  escolher_proxima df sucs None None = None.
Proof.
  intros Hn.
  destruct (escolher_proxima_geral df sucs None None)
    as [[-> _] | (pre & s & post & t & -> & Ht & _)]; [done|].
  rewrite Hn in Ht; [done|]. apply in_app_iff. right. by left.
Qed.

Lemma truthy_int idx : idx <> 0 -> truthy (IInt idx) = true.
Proof. intros H. cbn. by destruct (Z.eqb_spec idx 0). Qed.

(** The first iteration of a trace from a task under a non-zero label. *)
Lemma rastrear_cadeia_comeca df idx t :
  idx <> 0 -> Frame.primeira df idx = Some t ->
  exists resto total,
    rastrear_cadeia idx df = Some (nome t :: resto, total) /\
    ((forall r, In r (linhas df) -> 0 <= folga (snd r)) -> folga t <= total).
Proof.
  intros Hz Ht.
  destruct (rastrear_cadeia_termina df idx) as [[cadeia total] Hr].
  rewrite Hr. unfold rastrear_cadeia, combustivel in Hr.
  rewrite (rastrear_laco_passo _ _ _ _ _ _ t) in Hr;
    [|by apply truthy_int|apply not_elem_of_empty|done].
  destruct (String.eqb (critica t) "Sim").
  - injection Hr as <- <-. exists [], (0 + folga t). split; [done|]. lia.
  - apply (rastrear_laco_cresce df (IInt idx)) in Hr
      as [(resto & -> & _ & _) Htot].
    2: { intros i Hi. by eapply (proxima_candidata df (IInt idx) (IInt idx)). }
    exists resto, total. split; [done|]. intros Hf. specialize (Htot Hf). lia.
Qed.

End CadeiaProps.

(** X5. The next hop of the tracer is the successor of least slack among
    the referenced ids that exist in the table, the first one in the
    order of the cell when several share the least slack; there is no
    next hop exactly when no referenced id exists in the table. *)
Theorem X5_next_hop_is_least_slack :
  forall df sucs,
    match Tracer.escolher_proxima df sucs None None with
    | None =>
        forall s, In s sucs -> primeira df (py_int s) = None
    | Some i =>
        exists pre s post t,
          i = IStr s /\ sucs = (pre ++ s :: post)%list /\
          primeira df (py_int s) = Some t /\
          (forall s' t', In s' pre -> primeira df (py_int s') = Some t' ->
             folga t < folga t') /\
          (forall s' t', In s' post -> primeira df (py_int s') = Some t' ->
             folga t <= folga t')
    end.
Proof.
  intros df sucs.
  destruct (CadeiaProps.escolher_proxima_geral df sucs None None)
    as [[-> Hall] | (pre & s & post & t & Hs & Ht & -> & _ & Hpre & Hpost)].
  - intros s Hin. destruct (primeira df (py_int s)) as [t|] eqn:Ht; [|done].
    destruct (Hall s t Hin Ht).
  - exists pre, s, post, t. by repeat split.
Qed.

(** X5 at the cycle example and a cell naming an absent id and its three
    tasks: the hop is task 0, of slack 1. *)
Lemma X5_witness :
  exists pre s post t,
    IStr "0" = IStr s /\ ["7"; "1"; "2"; "0"] = (pre ++ s :: post)%list /\
    primeira df_ciclo (py_int s) = Some t /\
    (forall s' t', In s' pre -> primeira df_ciclo (py_int s') = Some t' ->
       folga t < folga t') /\
    (forall s' t', In s' post -> primeira df_ciclo (py_int s') = Some t' ->
       folga t <= folga t').
Proof. exact (X5_next_hop_is_least_slack df_ciclo ["7"; "1"; "2"; "0"]). Defined.

(** X6. A trace always ends, and its chain is bounded by the references
    of the table, not by its tasks: the chain has at most one name more
    than there are ids referenced in the successors cells of the whole
    table; every name in it is the name of a task of the table; and the
    total is not negative when no slack is. *)
Theorem X6_chain_bounded_by_references :
  forall df tarefa_idx,
    exists cadeia total,
      Tracer.rastrear_cadeia tarefa_idx df = Some (cadeia, total) /\
      (length cadeia <= S (length (Tracer.ids_referidos df)))%nat /\
      (forall n, In n cadeia -> exists r, In r (linhas df) /\ nome (snd r) = n) /\
      ((forall r, In r (linhas df) -> 0 <= folga (snd r)) -> 0 <= total).
Proof.
  intros df idx.
  destruct (TracerProps.rastrear_cadeia_termina df idx) as [[cadeia total] Hr].
  exists cadeia, total. split; [done|].
  unfold Tracer.rastrear_cadeia in Hr.
  apply (CadeiaProps.rastrear_laco_cresce df (IInt idx)) in Hr
    as [(resto & -> & Hlen & Hnomes) Htot].
  2: { intros c [= <-]. apply TracerProps.candidatos_inicial. }
  split; [|by split].
  pose proof (TracerProps.size_candidatos df (IInt idx)).
  pose proof (size_difference_le (candidatos df (IInt idx)) ∅).
  cbn [app]. lia.
Qed.

(** X6 at a table with slacks that are not negative. *)
Lemma X6_witness :
  exists cadeia total,
    Tracer.rastrear_cadeia 1 df_ciclo = Some (cadeia, total) /\ 0 <= total.
Proof.
  destruct (X6_chain_bounded_by_references df_ciclo 1)
    as (cadeia & total & Hr & _ & _ & Htot).
  exists cadeia, total. split; [exact Hr|]. apply Htot.
  intros r [<- | [<- | [<- | []]]]; cbn; lia.
Defined.

(** X7. Where a trace stops at once.  A start label that is not in the
    index gives the empty chain and total 0.  For a task under a
    non-zero label, the chain is the task alone, with its slack as the
    total, when the task is critical or when none of the ids its
    successors cell refers to exists in the table. *)
Theorem X7_trace_dead_ends :
  (forall df tarefa_idx,
     in_index df tarefa_idx = false ->
     Tracer.rastrear_cadeia tarefa_idx df = Some ([], 0)) /\
  (forall df tarefa_idx t,
     tarefa_idx <> 0 -> primeira df tarefa_idx = Some t ->
     is_critical t = true \/
     (forall s, In s (extrair_ids_sucessoras_tracer (sucessoras t)) ->
                primeira df (py_int s) = None) ->
     Tracer.rastrear_cadeia tarefa_idx df = Some ([nome t], folga t)).
Proof.
  split.
  - intros df idx Hn. unfold Tracer.rastrear_cadeia, Tracer.combustivel.
    cbn [Tracer.rastrear_laco].
    destruct (negb (Tracer.truthy (IInt idx))); [done|]. cbn [orb].
    destruct (bool_decide_reflect (IInt idx ∈ (∅ : gset Indice))); [done|].
    cbn [Tracer.int_de].
    destruct (primeira df idx) as [t|] eqn:Ht; [|done].
    assert (in_index df idx = true) by (apply FrameProps.in_index_primeira; eauto).
    congruence.
  - intros df idx t Hz Ht Hfim.
    unfold Tracer.rastrear_cadeia, Tracer.combustivel.
    rewrite (CadeiaProps.rastrear_laco_passo _ _ _ _ _ _ t);
      [|by apply CadeiaProps.truthy_int|apply not_elem_of_empty|done].
    unfold is_critical in Hfim.
    destruct (String.eqb (critica t) "Sim"); [done|].
    destruct Hfim as [? | Hn]; [done|].
    by rewrite (CadeiaProps.escolher_proxima_nenhuma _ _ Hn).
Qed.

(** X7 at an absent label and at a task whose only successor is absent. *)
Lemma X7_witness :
  Tracer.rastrear_cadeia 8 df_solo = Some ([], 0) /\
  Tracer.rastrear_cadeia 1 df_AB = Some ([nome tarefa_A], folga tarefa_A) /\
  Tracer.rastrear_cadeia 7
    (mkDataFrame colunas_desejadas
       [(7, mkTarefa "T" (Some 0) (Some 2) 2 4 (Some "9FS+1") "Não")])
  = Some (["T"], 4).
Proof.
  split; [|split].
  - apply (proj1 X7_trace_dead_ends). reflexivity.
  - apply (proj2 X7_trace_dead_ends df_AB 1 tarefa_A).
    + discriminate.
    + reflexivity.
    + left. reflexivity.
  - apply (proj2 X7_trace_dead_ends _ 7
             (mkTarefa "T" (Some 0) (Some 2) 2 4 (Some "9FS+1") "Não")).
    + discriminate.
    + reflexivity.
    + right. intros s [<- | []]. reflexivity.
Defined.

(** X8. For a task of the table under a non-zero label, the chain starts
    with the task's own name, and when no slack of the table is negative
    the total slack of the chain is at least the task's own slack. *)
Theorem X8_chain_starts_at_task :
  forall df tarefa_idx t,
    tarefa_idx <> 0 -> primeira df tarefa_idx = Some t ->
    exists resto total,
      Tracer.rastrear_cadeia tarefa_idx df = Some (nome t :: resto, total) /\
      ((forall r, In r (linhas df) -> 0 <= folga (snd r)) -> folga t <= total).
Proof.
  intros df idx t Hz Ht. by apply CadeiaProps.rastrear_cadeia_comeca.
Qed.

(** X8 at task B of the cycle example. *)
Lemma X8_witness :
  exists resto total,
    Tracer.rastrear_cadeia 1 df_ciclo = Some ("B" :: resto, total) /\
    ((forall r, In r (linhas df_ciclo) -> 0 <= folga (snd r)) -> 2 <= total).
Proof.
  apply (X8_chain_starts_at_task df_ciclo 1
           (mkTarefa "B" (Some 0) (Some 5) 5 2 (Some "2") "Não")).
  - discriminate.
  - reflexivity.
Defined.

(** X9. One hop to the critical path: for a non-critical task under a
    non-zero label whose next hop is a critical task, the chain is the
    two names and the total is the sum of the two slacks. *)
Theorem X9_one_hop_to_critical :
  forall df tarefa_idx t s t2,
    tarefa_idx <> 0 -> primeira df tarefa_idx = Some t ->
    is_critical t = false ->
    Tracer.escolher_proxima df (extrair_ids_sucessoras_tracer (sucessoras t)) None None
      = Some (IStr s) ->
    primeira df (py_int s) = Some t2 -> is_critical t2 = true ->
    Tracer.rastrear_cadeia tarefa_idx df = Some ([nome t; nome t2], folga t + folga t2).
Proof.
  intros df idx t s t2 Hz Ht Hnc Hprox Ht2 Hc2.
  unfold Tracer.rastrear_cadeia, Tracer.combustivel.
  rewrite (CadeiaProps.rastrear_laco_passo _ _ _ _ _ _ t);
    [|by apply CadeiaProps.truthy_int|apply not_elem_of_empty|done].
  unfold is_critical in Hnc, Hc2. rewrite Hnc, Hprox.
  assert (isdigit s = true) as Hd.
  { apply TracerProps.escolher_proxima_origem in Hprox as [? | (s' & [= ->] & Hin)]; [done|].
    by apply ExtratoresProps.extrair_tracer_isdigit in Hin. }
  rewrite (CadeiaProps.rastrear_laco_passo _ _ _ _ _ _ t2); [by rewrite Hc2| | |done].
  - cbn. by destruct s.
  - rewrite elem_of_union, elem_of_singleton. intros [? | []%elem_of_empty]. done.
Qed.

(** X9 at a task of slack 2 followed by a critical task. *)
Lemma X9_witness :
  Tracer.rastrear_cadeia 1
    (mkDataFrame colunas_desejadas
       [(1, mkTarefa "A" (Some 0) (Some 5) 5 2 (Some "2FS") "Não"); (2, tarefa_B)])
  = Some (["A"; "B"], 2 + 0).
Proof.
  apply (X9_one_hop_to_critical _ 1
           (mkTarefa "A" (Some 0) (Some 5) 5 2 (Some "2FS") "Não") "2" tarefa_B);
    try reflexivity.
  discriminate.
Defined.

(** ** The record of a propagation *)

Module RegistroProps.
Import Registro SimuladorProps FrameProps.

Section NoAmbiente.
Variable amb : Ambiente.

(** The state at the end of the call, when the table has the required
    columns and the seed is in the index. *)
Lemma simular_estado_final (h : gmap loc DataFrame) df d idx dias res :
  h !! df = Some d ->
  snd (simular_atraso_caminho_critico amb h df idx dias) = Some res ->
  res = resultado_vazio \/
  exists st,
    propagar_atraso amb (limite_recursao amb) (fresh (dom h)) idx dias dias
      (mkEstado (<[fresh (dom h) := d]> h) ∅ []) = Concluido st /\
    fst (simular_atraso_caminho_critico amb h df idx dias) = heap st /\
    res = mkResultado (tarefas_impactadas st)
            (novo_critico (quadro (heap st) (fresh (dom h))))
            (max_termino (quadro (heap st) (fresh (dom h)))).
Proof.
  intros Hd.
  destruct (simular_casos amb h df idx dias) as
    [[Hr _] | [(d' & _ & _ & _ & Hr) | (d' & st & Hd' & _ & _ & _ & [[He Hr] | [He Hr]])]];
    rewrite Hr; cbn [fst snd]; intros [= <-]; try by left.
  assert (d' = d) as -> by congruence. right. exists st. done.
Qed.

Section Coerente.
Variable df_sim : loc.
Variable h0 : gmap loc DataFrame.
Variable d0 : DataFrame.

Lemma registro_marcar st idx :
  registro_coerente df_sim d0 st -> registro_coerente df_sim d0 (marcar idx st).
Proof.
  intros [Hnd Hl]. split; [done|]. intros l Hin.
  destruct (Hl l Hin) as (Hv & Hr & Hm). split; [|done].
  cbn [marcar visited]. by apply elem_of_union_r.
Qed.

Lemma propagar_atraso_registro fuel idx ai af st :
  registro_coerente df_sim d0 st /\ estrutura df_sim h0 d0 ∅ st ->
  em_desfecho (fun st' => registro_coerente df_sim d0 st' /\ estrutura df_sim h0 d0 ∅ st')
    (propagar_atraso amb fuel df_sim idx ai af st).
Proof.
  intros H.
  apply (propagar_atraso_inv amb df_sim
           (fun st' => registro_coerente df_sim d0 st' /\ estrutura df_sim h0 d0 ∅ st')
           (fun _ _ _ => True)); try done.
  - intros st' idx' [Hreg He] _. split; [by apply registro_marcar|].
    eapply estrutura_mono; [|by apply estrutura_marcar]. apply union_subseteq_r.
  - intros st' idx' tarefa i t ai' af' [[Hnd Hl] He] _ Hnv Ht _ _. split.
    + split.
      * unfold registrar. cbn [tarefas_impactadas marcar].
        rewrite fmap_app. apply NoDup_app. split; [done|]. split.
        -- intros k Hk Hk'. cbn in Hk'. apply list_elem_of_singleton in Hk' as ->.
           apply list_elem_of_fmap in Hk as (l & Hl' & Hin%list_elem_of_In).
           destruct (Hl l Hin) as (Hv & _). by rewrite <- Hl' in Hv.
        -- cbn. apply NoDup_singleton.
      * intros l. unfold registrar at 1. cbn [tarefas_impactadas marcar].
        rewrite in_app_iff. intros [Hin | [<- | []]].
        -- destruct (Hl l Hin) as (Hv & Hr & T' & HT' & Hm).
           split; [cbn; by apply elem_of_union_r|]. split; [done|].
           exists T'. split; [|done]. rewrite quadro_registrar. cbn [marcar heap].
           rewrite primeira_atualizar_ne; [done|]. intros ->. done.
        -- cbn [li_indice]. split; [cbn; by apply elem_of_union_l, elem_of_singleton|].
           split.
           ++ apply (estrutura_in_index df_sim h0 d0 ∅ st' idx' He).
              apply in_index_primeira. eauto.
           ++ eexists. split.
              ** rewrite quadro_registrar. cbn [marcar heap].
                 rewrite primeira_atualizar_eq, Ht. reflexivity.
              ** done.
    + apply estrutura_registrar.
      eapply estrutura_mono; [|by apply estrutura_marcar]. apply union_subseteq_r.
Qed.
End Coerente.

Lemma registro_final (h : gmap loc DataFrame) d idx dias st :
  propagar_atraso amb (limite_recursao amb) (fresh (dom h)) idx dias dias
    (mkEstado (<[fresh (dom h) := d]> h) ∅ []) = Concluido st ->
  registro_coerente (fresh (dom h)) d st.
Proof.
  intros He.
  pose proof (propagar_atraso_registro (fresh (dom h)) h d (limite_recursao amb) idx dias dias
                (mkEstado (<[fresh (dom h) := d]> h) ∅ [])) as Hp.
  rewrite He in Hp. apply Hp. split; [|apply estrutura_inicial].
  split; [constructor|]. intros l [].
Qed.

End NoAmbiente.

End RegistroProps.

(** X10. No task is processed twice in one simulation, cycles or
    converging paths notwithstanding: the index labels of the impact
    table are pairwise distinct, each is a label of the dataset, and the
    table has at most as many rows as the dataset. *)
Theorem X10_each_task_processed_once :
  forall amb (h : gmap loc DataFrame) df d idx dias res,
    h !! df = Some d ->
    snd (simular_atraso_caminho_critico amb h df idx dias) = Some res ->
    NoDup (li_indice <$> tabela_impacto res) /\
    (forall l, In l (tabela_impacto res) -> in_index d (li_indice l) = true) /\
    (length (tabela_impacto res) <= length (linhas d))%nat.
Proof.
  intros amb h df d idx dias res Hd Hres.
  destruct (RegistroProps.simular_estado_final amb h df d idx dias res Hd Hres)
    as [-> | (st & He & _ & ->)].
  { split; [constructor|]. split; [intros l []|cbn; lia]. }
  destruct (RegistroProps.registro_final amb h d idx dias st He) as [Hnd Hl].
  cbn [tabela_impacto]. split; [done|].
  assert (forall l, In l (tarefas_impactadas st) -> li_indice l ∈ rotulos d) as Hrot.
  { intros l Hin. by destruct (Hl l Hin) as (_ & ? & _). }
  split.
  - intros l Hin. apply FrameProps.in_index_elem.
    specialize (Hrot l Hin). unfold rotulos in Hrot. by apply elem_of_list_to_set in Hrot.
  - rewrite <- (length_fmap li_indice), <- (size_list_to_set (C := gset Z)) by done.
    transitivity (size (rotulos d)).
    + apply subseteq_size. intros k Hk. apply elem_of_list_to_set in Hk.
      apply list_elem_of_fmap in Hk as (l & -> & Hin%list_elem_of_In). by apply Hrot.
    + unfold rotulos. rewrite <- (length_fmap fst (linhas d)). apply size_list_to_set_le.
Qed.

(** X10 at the dataset of tasks A and B. *)
Lemma X10_witness :
  NoDup (li_indice <$> [mkLinhaImpacto "A" 1 0 5 4 9 0 0 4 4;
                        mkLinhaImpacto "B" 2 10 13 16 19 0 0 6 6]) /\
  (forall l, In l [mkLinhaImpacto "A" 1 0 5 4 9 0 0 4 4;
                   mkLinhaImpacto "B" 2 10 13 16 19 0 0 6 6] ->
             in_index df_AB (li_indice l) = true) /\
  (length [mkLinhaImpacto "A" 1 0 5 4 9 0 0 4 4;
           mkLinhaImpacto "B" 2 10 13 16 19 0 0 6 6] <= length (linhas df_AB))%nat.
Proof.
  apply (X10_each_task_processed_once pandas_ns store_AB 0%nat df_AB 1 4
           (mkResultado
              [mkLinhaImpacto "A" 1 0 5 4 9 0 0 4 4;
               mkLinhaImpacto "B" 2 10 13 16 19 0 0 6 6]
              [mkLinhaCritico "A" (Some 4) (Some 9) 5 0;
               mkLinhaCritico "B" (Some 16) (Some 19) 3 0]
              (Some 19))); reflexivity.
Defined.

(** X11. The impact table and the working copy tell the same story: for
    every row of the impact table, the task under that label in the
    working copy has the name, the new start, the new finish and the new
    slack of the row, and the critical flag that goes with that slack. *)
Theorem X11_impact_rows_mirror_copy :
  forall amb (h : gmap loc DataFrame) df d idx dias res l,
    h !! df = Some d ->
    snd (simular_atraso_caminho_critico amb h df idx dias) = Some res ->
    In l (tabela_impacto res) ->
    exists T',
      primeira (quadro (fst (simular_atraso_caminho_critico amb h df idx dias))
                  (fresh (dom h))) (li_indice l) = Some T' /\
      Registro.espelho l T'.
Proof.
  intros amb h df d idx dias res l Hd Hres.
  destruct (RegistroProps.simular_estado_final amb h df d idx dias res Hd Hres)
    as [-> | (st & He & -> & ->)]; [intros []|].
  destruct (RegistroProps.registro_final amb h d idx dias st He) as [_ Hl].
  intros Hin. by destruct (Hl l Hin) as (_ & _ & Hm).
Qed.

(** X11 at the row of task B for a delay of 4 days of task A. *)
Lemma X11_witness :
  exists T',
    primeira (quadro (fst (simular_atraso_caminho_critico pandas_ns store_AB 0%nat 1 4))
                (fresh (dom store_AB)))
      (li_indice (mkLinhaImpacto "B" 2 10 13 16 19 0 0 6 6)) = Some T' /\
    Registro.espelho (mkLinhaImpacto "B" 2 10 13 16 19 0 0 6 6) T'.
Proof.
  apply (X11_impact_rows_mirror_copy pandas_ns store_AB 0%nat df_AB 1 4
           (mkResultado
              [mkLinhaImpacto "A" 1 0 5 4 9 0 0 4 4;
               mkLinhaImpacto "B" 2 10 13 16 19 0 0 6 6]
              [mkLinhaCritico "A" (Some 4) (Some 9) 5 0;
               mkLinhaCritico "B" (Some 16) (Some 19) 3 0]
              (Some 19))).
  - reflexivity.
  - reflexivity.
  - right. left. reflexivity.
Defined.

(** X12. The new critical path lists the tasks the delay made critical:
    every impacted task whose new slack is 0 has a row in the new
    critical-path table, under its name and with its new dates; and every
    row of that table has slack 0. *)
Theorem X12_new_critical_path :
  forall amb (h : gmap loc DataFrame) df d idx dias res,
    h !! df = Some d ->
    snd (simular_atraso_caminho_critico amb h df idx dias) = Some res ->
    (forall l, In l (tabela_impacto res) -> li_nova_folga l = 0 ->
       exists c, In c (tabela_novo_critico res) /\
                 lc_nome c = li_tarefa l /\
                 lc_inicio c = Some (li_inicio_novo l) /\
                 lc_termino c = Some (li_termino_novo l)) /\
    (forall c, In c (tabela_novo_critico res) -> lc_folga c = 0).
Proof.
  intros amb h df d idx dias res Hd Hres.
  destruct (RegistroProps.simular_estado_final amb h df d idx dias res Hd Hres)
    as [-> | (st & He & _ & ->)]; [split; intros ? []|].
  destruct (RegistroProps.registro_final amb h d idx dias st He) as [_ Hl].
  cbn [tabela_impacto tabela_novo_critico]. split.
  - intros l Hin Hz. destruct (Hl l Hin) as (_ & _ & T' & HT' & Hn & Hi & Ht & Hf & _).
    apply FrameProps.primeira_em_linhas in HT' as (r & Hr & <- & _).
    exists (mkLinhaCritico (nome (snd r)) (inicio_bl (snd r)) (termino_bl (snd r))
              (duracao_bl (snd r)) (folga (snd r))).
    split; [|done]. unfold novo_critico. apply in_map_iff. exists r. split; [done|].
    apply filter_In. split; [done|]. apply Z.eqb_eq. congruence.
  - intros c. unfold novo_critico. rewrite in_map_iff.
    intros (r & <- & [_ Hz%Z.eqb_eq]%filter_In). done.
Qed.

(** X12 at the dataset of tasks A and B, both critical after the delay. *)
Lemma X12_witness :
  (forall l, In l [mkLinhaImpacto "A" 1 0 5 4 9 0 0 4 4;
                   mkLinhaImpacto "B" 2 10 13 16 19 0 0 6 6] ->
     li_nova_folga l = 0 ->
     exists c, In c [mkLinhaCritico "A" (Some 4) (Some 9) 5 0;
                     mkLinhaCritico "B" (Some 16) (Some 19) 3 0] /\
               lc_nome c = li_tarefa l /\
               lc_inicio c = Some (li_inicio_novo l) /\
               lc_termino c = Some (li_termino_novo l)) /\
  (forall c, In c [mkLinhaCritico "A" (Some 4) (Some 9) 5 0;
                   mkLinhaCritico "B" (Some 16) (Some 19) 3 0] -> lc_folga c = 0).
Proof.
  apply (X12_new_critical_path pandas_ns store_AB 0%nat df_AB 1 4
           (mkResultado
              [mkLinhaImpacto "A" 1 0 5 4 9 0 0 4 4;
               mkLinhaImpacto "B" 2 10 13 16 19 0 0 6 6]
              [mkLinhaCritico "A" (Some 4) (Some 9) 5 0;
               mkLinhaCritico "B" (Some 16) (Some 19) 3 0]
              (Some 19))); reflexivity.
Defined.

(** ** What a propagation leaves alone *)

Module IntocadasProps.
Import Registro SimuladorProps FrameProps.

Section NoAmbiente.
Variable amb : Ambiente.

Lemma propagar_atraso_intocadas df_sim d0 fuel idx ai af st :
  intocadas df_sim d0 st ->
  em_desfecho (intocadas df_sim d0) (propagar_atraso amb fuel df_sim idx ai af st).
Proof.
  intros H.
  apply (propagar_atraso_inv amb df_sim (intocadas df_sim d0) (fun _ _ _ => True)); try done.
  intros st' idx' tarefa i t ai' af' HP _ _ _ _ _ k Hk.
  unfold registrar in Hk. cbn [tarefas_impactadas marcar] in Hk.
  rewrite fmap_app, elem_of_app in Hk. cbn in Hk. rewrite list_elem_of_singleton in Hk.
  rewrite quadro_registrar. cbn [marcar heap].
  rewrite selecionar_atualizar_ne; [|intros ->; tauto].
  apply HP. tauto.
Qed.

Lemma propagar_atraso_duracao df_sim d0 fuel idx ai af st :
  duracao_mantida df_sim d0 st ->
  em_desfecho (duracao_mantida df_sim d0) (propagar_atraso amb fuel df_sim idx ai af st).
Proof.
  intros H.
  apply (propagar_atraso_inv amb df_sim (duracao_mantida df_sim d0) (fun _ _ _ => True));
    try done.
  intros st' idx' tarefa i t ai' af' HP _ _ Ht _ _ k T'.
  rewrite quadro_registrar. cbn [marcar heap].
  destruct (Z.eq_dec idx' k) as [<- | Hne].
  - rewrite primeira_atualizar_eq, Ht. intros [= <-]. right.
    exists (novo_inicio i ai'), (novo_termino i t (duracao_bl tarefa) ai' af').
    cbn. rewrite novo_termino_duracao. repeat split. lia.
  - rewrite primeira_atualizar_ne by done. apply HP.
Qed.

Lemma propagar_atraso_aritmetica df_sim fuel idx ai af st :
  Forall aritmetica_da_linha (tarefas_impactadas st) ->
  em_desfecho (fun st' => Forall aritmetica_da_linha (tarefas_impactadas st'))
    (propagar_atraso amb fuel df_sim idx ai af st).
Proof.
  intros H.
  apply (propagar_atraso_inv amb df_sim
           (fun st' => Forall aritmetica_da_linha (tarefas_impactadas st'))
           (fun _ _ _ => True)); try done.
  intros st' idx' tarefa i t ai' af' HP _ _ _ _ _.
  unfold registrar. cbn [tarefas_impactadas marcar].
  apply Forall_app. split; [done|]. constructor; [|constructor].
  split; cbn; [done|]. unfold nova_folga, atraso_absorvido. lia.
Qed.

End NoAmbiente.

End IntocadasProps.

(** X13. A simulation that returns an impact table leaves every task
    outside that table as it was: under every label that has no impact
    row, the rows of the working copy are the rows of the dataset. *)
Theorem X13_tasks_outside_table_untouched :
  forall amb (h : gmap loc DataFrame) df d idx dias res k,
    h !! df = Some d ->
    snd (simular_atraso_caminho_critico amb h df idx dias) = Some res ->
    tabela_impacto res <> [] ->
    k ∉ (li_indice <$> tabela_impacto res) ->
    selecionar (quadro (fst (simular_atraso_caminho_critico amb h df idx dias))
                  (fresh (dom h))) k = selecionar d k.
Proof.
  intros amb h df d idx dias res k Hd Hres Hne Hk.
  destruct (RegistroProps.simular_estado_final amb h df d idx dias res Hd Hres)
    as [-> | (st & He & -> & ->)]; [done|].
  pose proof (IntocadasProps.propagar_atraso_intocadas amb (fresh (dom h)) d (limite_recursao amb)
                idx dias dias (mkEstado (<[fresh (dom h) := d]> h) ∅ [])) as Hp.
  rewrite He in Hp. apply Hp; [|done].
  intros k' _. cbn [heap]. by rewrite SimuladorProps.quadro_insert_eq.
Qed.

(** X13 at task A, outside the table when task B, without successors,
    is delayed. *)
Lemma X13_witness :
  selecionar (quadro (fst (simular_atraso_caminho_critico pandas_ns store_AB 0%nat 2 3))
                (fresh (dom store_AB))) 1 = selecionar df_AB 1.
Proof.
  apply (X13_tasks_outside_table_untouched pandas_ns store_AB 0%nat df_AB 2 3
           (mkResultado [mkLinhaImpacto "B" 2 10 13 13 16 0 0 3 3]
              [mkLinhaCritico "A" (Some 0) (Some 5) 5 0;
               mkLinhaCritico "B" (Some 13) (Some 16) 3 0]
              (Some 16))).
  - reflexivity.
  - reflexivity.
  - discriminate.
  - cbn. rewrite list_elem_of_singleton. discriminate.
Defined.

(** X14. Durations are kept: after any call, the task under each label
    of the working copy is the task of the dataset, never written, or
    has valid dates with finish - start equal to its duration, whatever
    offsets it received. *)
Theorem X14_written_tasks_span_duration :
  forall amb (h : gmap loc DataFrame) df d idx dias k T',
    h !! df = Some d ->
    primeira (quadro (fst (simular_atraso_caminho_critico amb h df idx dias))
                (fresh (dom h))) k = Some T' ->
    primeira d k = Some T' \/ Registro.abrange_duracao T'.
Proof.
  intros amb h df d idx dias k T' Hd.
  pose proof (IntocadasProps.propagar_atraso_duracao amb (fresh (dom h)) d (limite_recursao amb)
                idx dias dias (mkEstado (<[fresh (dom h) := d]> h) ∅ [])) as Hp.
  destruct (SimuladorProps.simular_casos amb h df idx dias) as
    [[Hr _] | [(d' & Hd' & _ & _ & Hr) | (d' & st & Hd' & _ & _ & _ & [[He Hr] | [He Hr]])]];
    rewrite Hr; cbn [fst].
  - unfold quadro. rewrite (not_elem_of_dom_1 h (fresh (dom h))); [done|]. apply is_fresh.
  - rewrite SimuladorProps.quadro_insert_eq. left. congruence.
  - assert (d' = d) as -> by congruence. rewrite He in Hp. apply Hp.
    intros k' T''. cbn [heap]. rewrite SimuladorProps.quadro_insert_eq. by left.
  - assert (d' = d) as -> by congruence. rewrite He in Hp. apply Hp.
    intros k' T''. cbn [heap]. rewrite SimuladorProps.quadro_insert_eq. by left.
Qed.

(** X14 at a task whose dates do not span its duration before the call. *)
Lemma X14_witness :
  primeira (mkDataFrame colunas_desejadas
              [(3, mkTarefa "T" (Some 0) (Some 10) 4 0 None "Sim")]) 3
    = Some (mkTarefa "T" (Some 2) (Some 6) 4 0 None "Sim") \/
  Registro.abrange_duracao (mkTarefa "T" (Some 2) (Some 6) 4 0 None "Sim").
Proof.
  apply (X14_written_tasks_span_duration pandas_ns
           {[ 0%nat := mkDataFrame colunas_desejadas
                         [(3, mkTarefa "T" (Some 0) (Some 10) 4 0 None "Sim")] ]}
           0%nat _ 3 2 3); reflexivity.
Defined.

(** X15. Slack absorbs what it can: in every row of the impact table the
    new start is the original start plus the start offset, and the new
    slack is the original slack less the larger of the two offsets, or 0
    when that is negative.  For every row but the seed's, whose offsets
    are floored at 0, a slack that was not negative does not grow. *)
Theorem X15_slack_absorbs_offset :
  forall amb (h : gmap loc DataFrame) df d idx dias res l,
    h !! df = Some d ->
    snd (simular_atraso_caminho_critico amb h df idx dias) = Some res ->
    In l (tabela_impacto res) ->
    Registro.aritmetica_da_linha l /\
    (li_indice l <> idx -> 0 <= li_folga_original l ->
     li_nova_folga l <= li_folga_original l).
Proof.
  intros amb h df d idx dias res l Hd Hres Hin.
  assert (Registro.aritmetica_da_linha l) as Har.
  { destruct (RegistroProps.simular_estado_final amb h df d idx dias res Hd Hres)
      as [-> | (st & He & _ & ->)]; [done|].
    assert (Forall Registro.aritmetica_da_linha (tarefas_impactadas st)) as Hp.
    { pose proof (IntocadasProps.propagar_atraso_aritmetica amb (fresh (dom h)) (limite_recursao amb)
                    idx dias dias (mkEstado (<[fresh (dom h) := d]> h) ∅ [])) as Hp.
      rewrite He in Hp. apply Hp. constructor. }
    rewrite Forall_forall in Hp. apply Hp. by apply list_elem_of_In. }
  split; [done|]. intros Hseed Hf.
  destruct (SimuladorProps.simular_piso amb h df d idx dias res l Hd Hres Hin Hseed)
    as (Hai & Haf & _).
  destruct Har as [_ ->]. lia.
Qed.

(** X15 at the row of task B, of slack 0, for a delay of 4 days of A. *)
Lemma X15_witness :
  Registro.aritmetica_da_linha (mkLinhaImpacto "B" 2 10 13 16 19 0 0 6 6) /\
  (li_indice (mkLinhaImpacto "B" 2 10 13 16 19 0 0 6 6) <> 1 ->
   0 <= li_folga_original (mkLinhaImpacto "B" 2 10 13 16 19 0 0 6 6) ->
   li_nova_folga (mkLinhaImpacto "B" 2 10 13 16 19 0 0 6 6)
   <= li_folga_original (mkLinhaImpacto "B" 2 10 13 16 19 0 0 6 6)).
Proof.
  apply (X15_slack_absorbs_offset pandas_ns store_AB 0%nat df_AB 1 4
           (mkResultado
              [mkLinhaImpacto "A" 1 0 5 4 9 0 0 4 4;
               mkLinhaImpacto "B" 2 10 13 16 19 0 0 6 6]
              [mkLinhaCritico "A" (Some 4) (Some 9) 5 0;
               mkLinhaCritico "B" (Some 16) (Some 19) 3 0]
              (Some 19))).
  - reflexivity.
  - reflexivity.
  - right. left. reflexivity.
Defined.

(** X16. The simulation writes four cells and nothing else: the working
    copy has the columns of the dataset and, row by row, the same index
    label, name, duration and successors; no row is added or removed. *)
Theorem X16_copy_keeps_shape :
  forall amb (h : gmap loc DataFrame) df d idx dias,
    h !! df = Some d -> tem_colunas d colunas_desejadas = true ->
    mesma_forma d
      (quadro (fst (simular_atraso_caminho_critico amb h df idx dias)) (fresh (dom h))) /\
    length (linhas (quadro (fst (simular_atraso_caminho_critico amb h df idx dias))
                      (fresh (dom h)))) = length (linhas d).
Proof.
  intros amb h df d idx dias Hd Hc.
  assert (mesma_forma d
    (quadro (fst (simular_atraso_caminho_critico amb h df idx dias)) (fresh (dom h)))) as Hf.
  { destruct (SimuladorProps.simular_casos amb h df idx dias) as
      [[_ [Hn | (d' & Hd' & Hc')]] |
       [(d' & Hd' & _ & _ & Hr) |
        (d' & st & Hd' & _ & _ & Hst & [[_ Hr] | [_ Hr]])]];
      try congruence; assert (d' = d) as -> by congruence; rewrite Hr; cbn [fst].
    - rewrite SimuladorProps.quadro_insert_eq. apply FrameProps.mesma_forma_refl.
    - by destruct Hst as (_ & ? & _).
    - by destruct Hst as (_ & ? & _). }
  split; [done|]. by apply FrameProps.mesma_forma_length.
Qed.

(** X16 at the dataset of tasks A and B. *)
Lemma X16_witness :
  mesma_forma df_AB
    (quadro (fst (simular_atraso_caminho_critico pandas_ns store_AB 0%nat 1 4))
       (fresh (dom store_AB))) /\
  length (linhas (quadro (fst (simular_atraso_caminho_critico pandas_ns store_AB 0%nat 1 4))
                    (fresh (dom store_AB)))) = length (linhas df_AB).
Proof. apply (X16_copy_keeps_shape pandas_ns store_AB 0%nat df_AB 1 4); reflexivity. Defined.

(** ** The seed and its relationships *)

Module SementeProps.
Import Registro SimuladorProps FrameProps.

Section NoAmbiente.
Variable amb : Ambiente.

Lemma selecionar_fora d k : in_index d k = false -> selecionar d k = [].
Proof.
  intros Hn. destruct (selecionar d k) as [|t l] eqn:Hs; [done|].
  assert (in_index d k = true); [|congruence].
  apply in_index_primeira. unfold primeira. rewrite Hs. eauto.
Qed.

Lemma loc_escalar_primeira d k T : loc_escalar d k = Some T -> primeira d k = Some T.
Proof.
  unfold loc_escalar, primeira. destruct (selecionar d k) as [|t [|t' l]]; congruence.
Qed.

Lemma loc_escalar_atualizar_ne d a k f :
  a <> k -> loc_escalar (atualizar d a f) k = loc_escalar d k.
Proof. intros H. unfold loc_escalar. by rewrite selecionar_atualizar_ne. Qed.

(** A task with a NaT date raises as soon as it is reached. *)
Lemma propagar_atraso_nat n df_sim idx ai af st T :
  idx ∉ visited st ->
  primeira (quadro (heap st) df_sim) idx = Some T ->
  inicio_bl T = None \/ termino_bl T = None ->
  propagar_atraso amb (S n) df_sim idx ai af st = Levantou (marcar idx st).
Proof.
  intros Hv HT Hnat. cbn [propagar_atraso].
  destruct (bool_decide_reflect (idx ∈ visited st)); [done|].
  assert (in_index (quadro (heap st) df_sim) idx = true) as ->
    by (apply in_index_primeira; eauto).
  cbn [negb orb marcar heap]. rewrite HT.
  destruct Hnat as [-> | ->]; [done|]. by destruct (inicio_bl T).
Qed.

(** So does a task whose shifted dates the environment cannot compute. *)
Lemma propagar_atraso_fora n df_sim idx ai af st T i t :
  idx ∉ visited st ->
  primeira (quadro (heap st) df_sim) idx = Some T ->
  inicio_bl T = Some i -> termino_bl T = Some t ->
  datas_calculaveis amb i t (duracao_bl T) ai af = false ->
  propagar_atraso amb (S n) df_sim idx ai af st = Levantou (marcar idx st).
Proof.
  intros Hv HT Hi Hf Hdc. cbn [propagar_atraso].
  destruct (bool_decide_reflect (idx ∈ visited st)); [done|].
  assert (in_index (quadro (heap st) df_sim) idx = true) as ->
    by (apply in_index_primeira; eauto).
  cbn [negb orb marcar heap]. by rewrite HT, Hi, Hf, Hdc.
Qed.

Lemma em_ao_concluir (P : Estado -> Prop) r : em_desfecho P r -> ao_concluir P r.
Proof. by destruct r. Qed.

(** A label that is not in the index is passed over. *)
Lemma propagar_atraso_ausente fuel df_sim idx ai af st :
  in_index (quadro (heap st) df_sim) idx = false ->
  propagar_atraso amb (S fuel) df_sim idx ai af st = Concluido st.
Proof. intros Hn. cbn [propagar_atraso]. rewrite Hn. by rewrite orb_true_r. Qed.

Lemma propagar_atraso_comeca df_sim l0 fuel idx ai af st :
  comeca_por l0 st ->
  em_desfecho (comeca_por l0) (propagar_atraso amb fuel df_sim idx ai af st).
Proof.
  intros H.
  apply (propagar_atraso_inv amb df_sim (comeca_por l0) (fun _ _ _ => True)); try done.
  intros st' idx' tarefa i t ai' af' [resto Hr] _ _ _ _ _.
  unfold registrar, comeca_por. cbn [tarefas_impactadas marcar]. rewrite Hr.
  eexists. reflexivity.
Qed.

(** The row the seed records. *)
Lemma nova_folga_semente f dias : nova_folga f dias dias = Z.max 0 (f - dias).
Proof. unfold nova_folga, atraso_absorvido. lia. Qed.

Lemma propagar_semente (h : gmap loc DataFrame) d idx dias T i t :
  primeira d idx = Some T -> inicio_bl T = Some i -> termino_bl T = Some t ->
  ao_concluir
    (comeca_por (mkLinhaImpacto (nome T) idx i t (i + dias) (i + dias + duracao_bl T)
                   (folga T) (Z.max 0 (folga T - dias)) dias dias))
    (propagar_atraso amb (limite_recursao amb) (fresh (dom h)) idx dias dias
       (mkEstado (<[fresh (dom h) := d]> h) ∅ [])).
Proof.
  intros HT Hi Hf. destruct (limite_recursao amb) as [|n]; [done|].
  assert (primeira (quadro (heap (mkEstado (<[fresh (dom h) := d]> h) ∅ []))
                      (fresh (dom h))) idx = Some T) as HT'.
  { cbn [heap]. by rewrite quadro_insert_eq. }
  destruct (datas_calculaveis amb i t (duracao_bl T) dias dias) eqn:Hdc.
  - rewrite (propagar_atraso_passo amb _ _ _ _ _ _ T i t); try done.
    apply em_ao_concluir.
    apply (laco_sucessoras_inv (fresh (dom h)) (comeca_por _) (fun _ _ _ => True)); try done.
    + intros idx' ai' af' st' HP _. by apply propagar_atraso_comeca.
    + exists []. unfold registrar. cbn [tarefas_impactadas marcar app].
      rewrite novo_termino_duracao, nova_folga_semente. reflexivity.
  - by rewrite (propagar_atraso_fora _ _ _ _ _ _ T i t).
Qed.

(** The call, once the seed alone was processed. *)
Lemma simular_um_passo (h : gmap loc DataFrame) df d idx dias T i t n :
  h !! df = Some d -> tem_colunas d colunas_desejadas = true ->
  primeira d idx = Some T -> inicio_bl T = Some i -> termino_bl T = Some t ->
  limite_recursao amb = S n ->
  datas_calculaveis amb i t (duracao_bl T) dias dias = true ->
  simular_atraso_caminho_critico amb h df idx dias =
  match laco_sucessoras (propagar_atraso amb n (fresh (dom h))) (fresh (dom h)) dias dias
          (atraso_propagado (folga T) dias dias)
          (extrair_ids_sucessoras (sucessoras T))
          (registrar (fresh (dom h)) idx T i t dias dias
             (marcar idx (mkEstado (<[fresh (dom h) := d]> h) ∅ []))) with
  | Levantou st => (heap st, Some resultado_vazio)
  | Concluido st =>
      (heap st,
       Some (mkResultado (tarefas_impactadas st)
               (novo_critico (quadro (heap st) (fresh (dom h))))
               (max_termino (quadro (heap st) (fresh (dom h))))))
  end.
Proof.
  intros Hd Hc HT Hi Hf Hlim Hdc.
  assert (in_index d idx = true) as Hin by (apply in_index_primeira; eauto).
  unfold simular_atraso_caminho_critico. rewrite Hd, Hc. cbn [negb].
  rewrite quadro_insert_eq, Hin. cbn [negb]. rewrite Hlim.
  rewrite (propagar_atraso_passo amb _ _ _ _ _ _ T i t); try done.
  cbn [heap]. by rewrite quadro_insert_eq.
Qed.

(** The call returns the empty result when the seed raises. *)
Lemma simular_semente_levanta (h : gmap loc DataFrame) df d idx dias T :
  h !! df = Some d -> primeira d idx = Some T ->
  (forall n, exists st,
     propagar_atraso amb n (fresh (dom h)) idx dias dias
       (mkEstado (<[fresh (dom h) := d]> h) ∅ []) = Levantou st) ->
  snd (simular_atraso_caminho_critico amb h df idx dias) = Some resultado_vazio.
Proof.
  intros Hd HT Hlev. unfold simular_atraso_caminho_critico. rewrite Hd.
  destruct (tem_colunas d colunas_desejadas); cbn [negb]; [|done].
  rewrite quadro_insert_eq.
  assert (in_index d idx = true) as -> by (apply in_index_primeira; eauto).
  cbn [negb]. by destruct (Hlev (limite_recursao amb)) as [st ->].
Qed.

End NoAmbiente.

End SementeProps.

(** X17. The seed heads the impact table: whenever the call does not
    return the empty result, the first row of the impact table is the
    seed task, with the injected delay as both offsets, its start moved
    by the delay, its finish at the new start plus its duration, and the
    slack the delay leaves. *)
Theorem X17_seed_heads_impact_table :
  forall amb (h : gmap loc DataFrame) df d idx dias T i t res,
    h !! df = Some d ->
    primeira d idx = Some T -> inicio_bl T = Some i -> termino_bl T = Some t ->
    snd (simular_atraso_caminho_critico amb h df idx dias) = Some res ->
    res = resultado_vazio \/
    exists resto,
      tabela_impacto res =
      mkLinhaImpacto (nome T) idx i t (i + dias) (i + dias + duracao_bl T)
        (folga T) (Z.max 0 (folga T - dias)) dias dias :: resto.
Proof.
  intros amb h df d idx dias T i t res Hd HT Hi Hf Hres.
  destruct (RegistroProps.simular_estado_final amb h df d idx dias res Hd Hres)
    as [-> | (st & He & _ & ->)]; [by left|]. right.
  pose proof (SementeProps.propagar_semente amb h d idx dias T i t HT Hi Hf) as Hp.
  rewrite He in Hp. exact Hp.
Qed.

(** X17 at task A delayed by 4 days. *)
Lemma X17_witness :
  mkResultado
    [mkLinhaImpacto "A" 1 0 5 4 9 0 0 4 4; mkLinhaImpacto "B" 2 10 13 16 19 0 0 6 6]
    [mkLinhaCritico "A" (Some 4) (Some 9) 5 0; mkLinhaCritico "B" (Some 16) (Some 19) 3 0]
    (Some 19) = resultado_vazio \/
  exists resto,
    [mkLinhaImpacto "A" 1 0 5 4 9 0 0 4 4; mkLinhaImpacto "B" 2 10 13 16 19 0 0 6 6] =
    mkLinhaImpacto (nome tarefa_A) 1 0 5 (0 + 4) (0 + 4 + duracao_bl tarefa_A)
      (folga tarefa_A) (Z.max 0 (folga tarefa_A - 4)) 4 4 :: resto.
Proof.
  apply (X17_seed_heads_impact_table pandas_ns store_AB 0%nat df_AB 1 4 tarefa_A 0 5
           (mkResultado
              [mkLinhaImpacto "A" 1 0 5 4 9 0 0 4 4;
               mkLinhaImpacto "B" 2 10 13 16 19 0 0 6 6]
              [mkLinhaCritico "A" (Some 4) (Some 9) 5 0;
               mkLinhaCritico "B" (Some 16) (Some 19) 3 0]
              (Some 19))); reflexivity.
Defined.

(** X18. What makes a simulation come back empty, and what does not.  A
    seed task with an invalid (NaT) start or finish gives the empty
    result.  So does a seed whose successor by an FF or SF relationship
    is not in the dataset: reading that successor's duration raises.  A
    successor by FS or SS that is not in the dataset is passed over, and
    the impact table is the seed's row alone, when the environment can
    compute the seed's shifted dates and allows two nested calls. *)
Theorem X18_missing_dates_and_successors :
  (forall amb (h : gmap loc DataFrame) df d idx dias T,
     h !! df = Some d -> primeira d idx = Some T ->
     inicio_bl T = None \/ termino_bl T = None ->
     snd (simular_atraso_caminho_critico amb h df idx dias) = Some resultado_vazio) /\
  (forall amb (h : gmap loc DataFrame) df d idx dias T i t idB rel lag,
     h !! df = Some d -> tem_colunas d colunas_desejadas = true ->
     primeira d idx = Some T -> inicio_bl T = Some i -> termino_bl T = Some t ->
     extrair_ids_sucessoras (sucessoras T) = [mkSucessora idB rel lag] ->
     in_index d (py_int idB) = false ->
     match rel with
     | FF | SF =>
         snd (simular_atraso_caminho_critico amb h df idx dias) = Some resultado_vazio
     | FS | SS =>
         (2 <= limite_recursao amb)%nat ->
         datas_calculaveis amb i t (duracao_bl T) dias dias = true ->
         tabela_impacto <$> snd (simular_atraso_caminho_critico amb h df idx dias) =
         Some [mkLinhaImpacto (nome T) idx i t (i + dias) (i + dias + duracao_bl T)
                 (folga T) (Z.max 0 (folga T - dias)) dias dias]
     end).
Proof.
  split.
  - intros amb h df d idx dias T Hd HT Hnat.
    apply (SementeProps.simular_semente_levanta amb h df d idx dias T Hd HT).
    intros [|n]; [by eexists|]. eexists.
    apply (SementeProps.propagar_atraso_nat amb _ _ _ _ _ _ T); try done.
    cbn [heap]. by rewrite SimuladorProps.quadro_insert_eq.
  - intros amb h df d idx dias T i t idB rel lag Hd Hc HT Hi Hf Hsuc Hfora.
    assert (primeira (quadro (heap (mkEstado (<[fresh (dom h) := d]> h) ∅ []))
                        (fresh (dom h))) idx = Some T) as HT'.
    { cbn [heap]. by rewrite SimuladorProps.quadro_insert_eq. }
    assert (in_index
              (quadro (heap (registrar (fresh (dom h)) idx T i t dias dias
                 (marcar idx (mkEstado (<[fresh (dom h) := d]> h) ∅ [])))) (fresh (dom h)))
              (py_int idB) = false) as Hfora'.
    { rewrite SimuladorProps.quadro_registrar. cbn [marcar heap].
      by rewrite SimuladorProps.quadro_insert_eq, FrameProps.in_index_atualizar. }
    assert (rel = FF \/ rel = SF ->
            snd (simular_atraso_caminho_critico amb h df idx dias) = Some resultado_vazio)
      as Hlev.
    { intros Hrel.
      apply (SementeProps.simular_semente_levanta amb h df d idx dias T Hd HT).
      intros [|n]; [by eexists|].
      destruct (datas_calculaveis amb i t (duracao_bl T) dias dias) eqn:Hdc.
      - rewrite (SimuladorProps.propagar_atraso_passo amb _ _ _ _ _ _ T i t); try done.
        rewrite Hsuc. cbn [laco_sucessoras].
        unfold atraso_sucessora. cbn [suc_rel_type suc_id suc_lag].
        unfold loc_escalar. rewrite (SementeProps.selecionar_fora _ _ Hfora').
        destruct Hrel as [-> | ->]; by eexists.
      - eexists. by apply (SementeProps.propagar_atraso_fora amb _ _ _ _ _ _ T i t). }
    destruct rel; [| |apply Hlev; by left|apply Hlev; by right].
    + intros Hlim Hdc.
      destruct (limite_recursao amb) as [|[|n]] eqn:Hl; [lia|lia|].
      rewrite (SementeProps.simular_um_passo amb h df d idx dias T i t (S n)
                 Hd Hc HT Hi Hf Hl Hdc).
      rewrite Hsuc. cbn [laco_sucessoras atraso_sucessora suc_rel_type suc_id suc_lag].
      rewrite (SementeProps.propagar_atraso_ausente amb _ _ _ _ _ _ Hfora').
      cbn [laco_sucessoras snd fmap option_fmap option_map tabela_impacto].
      unfold registrar. cbn [tarefas_impactadas marcar app].
      by rewrite SimuladorProps.novo_termino_duracao, SementeProps.nova_folga_semente.
    + intros Hlim Hdc.
      destruct (limite_recursao amb) as [|[|n]] eqn:Hl; [lia|lia|].
      rewrite (SementeProps.simular_um_passo amb h df d idx dias T i t (S n)
                 Hd Hc HT Hi Hf Hl Hdc).
      rewrite Hsuc. cbn [laco_sucessoras atraso_sucessora suc_rel_type suc_id suc_lag].
      rewrite (SementeProps.propagar_atraso_ausente amb _ _ _ _ _ _ Hfora').
      cbn [laco_sucessoras snd fmap option_fmap option_map tabela_impacto].
      unfold registrar. cbn [tarefas_impactadas marcar app].
      by rewrite SimuladorProps.novo_termino_duracao, SementeProps.nova_folga_semente.
Qed.

(** X18 at a task without finish date, and at a task whose successor 9
    does not exist, reached by FF and by FS. *)
Lemma X18_witness :
  snd (simular_atraso_caminho_critico pandas_ns store_nat 0%nat 3 2) = Some resultado_vazio /\
  snd (simular_atraso_caminho_critico pandas_ns store_ff 0%nat 3 2) = Some resultado_vazio /\
  tabela_impacto <$> snd (simular_atraso_caminho_critico pandas_ns store_fs 0%nat 3 2)
    = Some [mkLinhaImpacto "T" 3 0 4 (0 + 2) (0 + 2 + 4) 0 (Z.max 0 (0 - 2)) 2 2].
Proof.
  split; [|split].
  - apply (proj1 X18_missing_dates_and_successors pandas_ns store_nat 0%nat df_nat 3 2 tarefa_nat);
      try reflexivity.
    right. reflexivity.
  - apply (proj2 X18_missing_dates_and_successors pandas_ns store_ff 0%nat df_ff 3 2
             tarefa_ff 0 4 "9" FF 1); reflexivity.
  - apply (proj2 X18_missing_dates_and_successors pandas_ns store_fs 0%nat df_fs 3 2
             tarefa_fs 0 4 "9" FS 1); try reflexivity.
    apply Nat.leb_le. reflexivity.
Defined.



(** ** One relationship *)

Module ArestaProps.
Import Registro Tabela SimuladorProps FrameProps SementeProps.

Section NoAmbiente.
Variable amb : Ambiente.

Lemma atraso_sucessora_atualizar d a f ai af prop suc :
  a <> py_int (suc_id suc) ->
  atraso_sucessora (atualizar d a f) ai af prop suc = atraso_sucessora d ai af prop suc.
Proof.
  intros Hne. unfold atraso_sucessora. by rewrite !loc_escalar_atualizar_ne.
Qed.

Lemma atraso_sucessora_tabela d idB rel lag dias folga_pred B :
  loc_escalar d (py_int idB) = Some B ->
  atraso_sucessora d dias dias (atraso_propagado folga_pred dias dias)
    (mkSucessora idB rel lag) =
  Some (tabela_de_atrasos rel lag dias (dias - Z.min folga_pred dias) (duracao_bl B)).
Proof.
  intros HB. unfold atraso_sucessora, tabela_de_atrasos, atraso_propagado, atraso_absorvido.
  cbn [suc_rel_type suc_id suc_lag]. rewrite HB, Z.max_id. by destruct rel.
Qed.

(** The successor of the seed by its only relationship is processed with
    the floored offsets of the relationship. *)
Lemma propagar_aresta (h : gmap loc DataFrame) d a b A B iA tA idB rel lag resto
    s f dias ni nt :
  primeira d a = Some A -> inicio_bl A = Some iA -> termino_bl A = Some tA ->
  extrair_ids_sucessoras (sucessoras A) = mkSucessora idB rel lag :: resto ->
  py_int idB = b -> a <> b ->
  primeira d b = Some B -> inicio_bl B = Some s -> termino_bl B = Some f ->
  atraso_sucessora d dias dias (atraso_propagado (folga A) dias dias)
    (mkSucessora idB rel lag) = Some (ni, nt) ->
  ao_concluir
    (processada (fresh (dom h)) b
       (reescrever (s + Z.max 0 ni) (s + Z.max 0 ni + duracao_bl B)
          (nova_folga (folga B) (Z.max 0 ni) (Z.max 0 nt)) B)
       (mkLinhaImpacto (nome B) b s f (s + Z.max 0 ni) (s + Z.max 0 ni + duracao_bl B)
          (folga B) (nova_folga (folga B) (Z.max 0 ni) (Z.max 0 nt))
          (Z.max 0 ni) (Z.max 0 nt)))
    (propagar_atraso amb (limite_recursao amb) (fresh (dom h)) a dias dias
       (mkEstado (<[fresh (dom h) := d]> h) ∅ [])).
Proof.
  intros HA HiA HtA Hsuc Hid Hab HB HiB HtB Hat.
  destruct (limite_recursao amb) as [|n]; [done|].
  assert (primeira (quadro (heap (mkEstado (<[fresh (dom h) := d]> h) ∅ []))
                      (fresh (dom h))) a = Some A) as HA'.
  { cbn [heap]. by rewrite quadro_insert_eq. }
  destruct (datas_calculaveis amb iA tA (duracao_bl A) dias dias) eqn:HcA;
    [|by rewrite (propagar_atraso_fora amb _ _ _ _ _ _ A iA tA)].
  rewrite (propagar_atraso_passo amb _ _ _ _ _ _ A iA tA); try done.
  rewrite Hsuc. cbn [laco_sucessoras].
  rewrite quadro_registrar. cbn [marcar heap]. rewrite quadro_insert_eq.
  rewrite atraso_sucessora_atualizar by (cbn [suc_id]; congruence).
  rewrite Hat. cbn [suc_id]. rewrite Hid.
  destruct n as [|n]; [done|].
  assert (b ∉ visited (registrar (fresh (dom h)) a A iA tA dias dias
                         (marcar a (mkEstado (<[fresh (dom h) := d]> h) ∅ [])))) as Hvb.
  { unfold registrar, marcar. cbn [visited].
    rewrite elem_of_union, elem_of_singleton. intros [? | []%elem_of_empty]. congruence. }
  assert (primeira (quadro (heap (registrar (fresh (dom h)) a A iA tA dias dias
                      (marcar a (mkEstado (<[fresh (dom h) := d]> h) ∅ []))))
                      (fresh (dom h))) b = Some B) as HB'.
  { rewrite quadro_registrar. cbn [marcar heap]. rewrite quadro_insert_eq.
    by rewrite primeira_atualizar_ne. }
  destruct (datas_calculaveis amb s f (duracao_bl B) (Z.max 0 ni) (Z.max 0 nt)) eqn:HcB;
    [|by rewrite (propagar_atraso_fora amb _ _ _ _ _ _ B s f)].
  rewrite (propagar_atraso_passo amb _ _ _ _ _ _ B s f); try done.
  - match goal with
    | |- ao_concluir ?P (match laco_sucessoras ?r ?l ?x ?y ?p ?ss ?st0 with _ => _ end) =>
        pose proof (laco_sucessoras_processada amb (fresh (dom h)) b _ _ n x y p ss st0
                    : processada (fresh (dom h)) b
                        (reescrever (s + Z.max 0 ni) (s + Z.max 0 ni + duracao_bl B)
                           (nova_folga (folga B) (Z.max 0 ni) (Z.max 0 nt)) B)
                        (mkLinhaImpacto (nome B) b s f (s + Z.max 0 ni)
                           (s + Z.max 0 ni + duracao_bl B)
                           (folga B) (nova_folga (folga B) (Z.max 0 ni) (Z.max 0 nt))
                           (Z.max 0 ni) (Z.max 0 nt)) st0 -> _) as Hl
    end.
    match type of Hl with ?X -> _ => assert X as HX end.
    { split; [|split].
      - unfold registrar, marcar. cbn [visited]. apply elem_of_union_l, elem_of_singleton. done.
      - rewrite quadro_registrar. cbn [marcar heap]. rewrite quadro_registrar.
        cbn [marcar heap]. rewrite quadro_insert_eq.
        rewrite primeira_atualizar_eq, primeira_atualizar_ne by done.
        rewrite HB. cbn [fmap option_fmap option_map].
        by rewrite novo_termino_duracao.
      - unfold registrar at 1. cbn [tarefas_impactadas]. apply in_app_iff. right.
        left. by rewrite novo_termino_duracao. }
    specialize (Hl HX).
    destruct (laco_sucessoras _ _ _ _ _ _ _) as [st'|st']; [|done].
    apply em_ao_concluir. by apply laco_sucessoras_processada.
Qed.

End NoAmbiente.

End ArestaProps.

(** X19. The offsets of each relationship type.  When the first
    reference in the successors cell of the seed A is to a task B that
    is in the dataset under a label of its own, B is processed with the
    offsets of the specification's table for that relationship, floored
    at 0, whatever else the cell refers to: for FS what A's slack did
    not absorb plus the lag, for both ends; for SS the delay plus the
    lag, for both ends; for FF the delay plus the lag at the finish and
    that less B's duration at the start; for SF the delay plus the lag
    at the start and that plus B's duration at the finish.  B's start
    moves by the floored start offset, its finish is the new start plus
    its duration, and its slack absorbs the larger offset. *)
Theorem X19_relationship_offsets :
  forall amb (h : gmap loc DataFrame) df d a b A B iA tA idB rel lag resto s f dias,
    h !! df = Some d ->
    primeira d a = Some A -> inicio_bl A = Some iA -> termino_bl A = Some tA ->
    extrair_ids_sucessoras (sucessoras A) = mkSucessora idB rel lag :: resto ->
    py_int idB = b -> a <> b ->
    loc_escalar d b = Some B -> inicio_bl B = Some s -> termino_bl B = Some f ->
    let propagado := dias - Z.min (folga A) dias in
    let o_ini := Z.max 0 (fst (Tabela.tabela_de_atrasos rel lag dias propagado (duracao_bl B))) in
    let o_fim := Z.max 0 (snd (Tabela.tabela_de_atrasos rel lag dias propagado (duracao_bl B))) in
    forall res,
      snd (simular_atraso_caminho_critico amb h df a dias) = Some res ->
      res = resultado_vazio \/
      In (mkLinhaImpacto (nome B) b s f (s + o_ini) (s + o_ini + duracao_bl B)
            (folga B) (Z.max 0 (folga B - Z.max o_ini o_fim)) o_ini o_fim)
         (tabela_impacto res).
Proof.
  intros amb h df d a b A B iA tA idB rel lag resto s f dias Hd HA HiA HtA Hsuc Hid Hab HB
    HiB HtB propagado o_ini o_fim res Hres.
  destruct (RegistroProps.simular_estado_final amb h df d a dias res Hd Hres)
    as [-> | (st & He & _ & ->)]; [by left|]. right.
  pose proof (ArestaProps.atraso_sucessora_tabela d idB rel lag dias (folga A) B) as Hat.
  rewrite Hid in Hat. specialize (Hat HB).
  destruct (Tabela.tabela_de_atrasos rel lag dias (dias - Z.min (folga A) dias)
              (duracao_bl B)) as [ni nt] eqn:Htab.
  pose proof (ArestaProps.propagar_aresta amb h d a b A B iA tA idB rel lag resto s f dias ni nt
                HA HiA HtA Hsuc Hid Hab (SementeProps.loc_escalar_primeira _ _ _ HB)
                HiB HtB Hat) as Hp.
  rewrite He in Hp. destruct Hp as (_ & _ & Hl). cbn [tabela_impacto].
  subst o_ini o_fim propagado. rewrite Htab. cbn [fst snd].
  replace (Z.max 0 (folga B - Z.max (Z.max 0 ni) (Z.max 0 nt)))
    with (nova_folga (folga B) (Z.max 0 ni) (Z.max 0 nt)); [done|].
  unfold nova_folga, atraso_absorvido. lia.
Qed.

(** X19 at tasks A and B linked by FS with lag +2, A delayed by 4 days. *)
Lemma X19_witness :
  resultado_AB = resultado_vazio \/
  In (mkLinhaImpacto "B" 2 10 13 (10 + 6) (10 + 6 + 3) 0 0 6 6)
     (tabela_impacto resultado_AB).
Proof.
  apply (X19_relationship_offsets pandas_ns store_AB 0%nat df_AB 1 2 tarefa_A tarefa_B 0 5 "2" FS 2
           [] 10 13 4); try reflexivity.
  discriminate.
Defined.

(** X20. A task without successors, delayed by any number of days for
    which the environment can compute its shifted dates, with one nested
    call available: the impact table is the task's row alone; its dates move by the whole
    delay, absorbed by its slack or not (start plus delay, finish at the
    new start plus the duration); its slack becomes what the delay
    leaves of it, 0 at least; and it is flagged critical exactly when
    the delay is at least its slack.  When it is the only task of the
    dataset, the finish date returned is its new finish. *)
Theorem X20_task_without_successors :
  forall amb (h : gmap loc DataFrame) df d idx dias T i t,
    h !! df = Some d -> tem_colunas d colunas_desejadas = true ->
    primeira d idx = Some T -> inicio_bl T = Some i -> termino_bl T = Some t ->
    extrair_ids_sucessoras (sucessoras T) = [] ->
    (1 <= limite_recursao amb)%nat ->
    datas_calculaveis amb i t (duracao_bl T) dias dias = true ->
    exists res T',
      snd (simular_atraso_caminho_critico amb h df idx dias) = Some res /\
      tabela_impacto res =
        [mkLinhaImpacto (nome T) idx i t (i + dias) (i + dias + duracao_bl T)
           (folga T) (Z.max 0 (folga T - dias)) dias dias] /\
      primeira (quadro (fst (simular_atraso_caminho_critico amb h df idx dias))
                  (fresh (dom h))) idx = Some T' /\
      inicio_bl T' = Some (i + dias) /\
      termino_bl T' = Some (i + dias + duracao_bl T) /\
      folga T' = Z.max 0 (folga T - dias) /\
      (is_critical T' = true <-> folga T <= dias) /\
      (linhas d = [(idx, T)] -> nova_data_termino res = Some (i + dias + duracao_bl T)).
Proof.
  intros amb h df d idx dias T i t Hd Hc HT Hi Hf Hsuc Hlim Hdc.
  rewrite (SimuladorProps.simular_sem_sucessoras amb h df d idx dias T i t
             Hd Hc HT Hi Hf Hsuc Hlim Hdc).
  cbn [fst snd].
  rewrite SimuladorProps.novo_termino_duracao, SementeProps.nova_folga_semente.
  unfold novo_inicio.
  eexists _, _. split; [reflexivity|]. cbn [tabela_impacto nova_data_termino].
  split; [reflexivity|].
  rewrite SimuladorProps.quadro_insert_eq, FrameProps.primeira_atualizar_eq, HT.
  split; [reflexivity|]. cbn.
  repeat split; try done.
  - unfold is_critical. cbn. intros Hs%SimuladorProps.sim_nao_critica. lia.
  - intros Hle. unfold is_critical. cbn. apply SimuladorProps.sim_nao_critica. lia.
  - intros Hl. unfold max_termino, atualizar. cbn [linhas]. rewrite Hl. cbn.
    by rewrite Z.eqb_refl.
Qed.

(** X20 at the single task of slack 2, delayed by 2 days. *)
Lemma X20_witness :
  exists res T',
    snd (simular_atraso_caminho_critico pandas_ns store_solo 0%nat 7 2) = Some res /\
    tabela_impacto res =
      [mkLinhaImpacto (nome tarefa_solo) 7 10 15 (10 + 2) (10 + 2 + duracao_bl tarefa_solo)
         (folga tarefa_solo) (Z.max 0 (folga tarefa_solo - 2)) 2 2] /\
    primeira (quadro (fst (simular_atraso_caminho_critico pandas_ns store_solo 0%nat 7 2))
                (fresh (dom store_solo))) 7 = Some T' /\
    inicio_bl T' = Some (10 + 2) /\
    termino_bl T' = Some (10 + 2 + duracao_bl tarefa_solo) /\
    folga T' = Z.max 0 (folga tarefa_solo - 2) /\
    (is_critical T' = true <-> folga tarefa_solo <= 2) /\
    (linhas df_solo = [(7, tarefa_solo)] ->
     nova_data_termino res = Some (10 + 2 + duracao_bl tarefa_solo)).
Proof.
  apply (X20_task_without_successors pandas_ns store_solo 0%nat df_solo 7 2 tarefa_solo 10 15);
    try reflexivity.
  apply Nat.leb_le. reflexivity.
Defined.

(** ** The project finish date *)

Module TerminoProps.
Import Registro Tabela SimuladorProps FrameProps.

Section NoAmbiente.
Variable amb : Ambiente.

Lemma Forall2_atualizar (R R' : Z * Tarefa -> Z * Tarefa -> Prop) l0 l idx g :
  Forall2 R l0 l ->
  (forall r0 r, In r l -> R r0 r ->
     R' r0 (if Z.eqb (fst r) idx then (fst r, g (snd r)) else r)) ->
  Forall2 R' l0
    (List.map (fun r => if Z.eqb (fst r) idx then (fst r, g (snd r)) else r) l).
Proof.
  induction 1 as [|r0 r l0 l Hr Hl IH]; intros Hg; cbn; constructor.
  - apply Hg; [by left|done].
  - apply IH. intros r0' r' Hin. apply Hg. by right.
Qed.

Lemma Forall2_diagonal (X : Z * Tarefa -> Prop) (R : Z * Tarefa -> Z * Tarefa -> Prop) l :
  (forall r, In r l -> X r) -> (forall r, X r -> R r r) -> Forall2 R l l.
Proof.
  intros HX HR. induction l as [|r l IH]; constructor.
  - apply HR, HX. by left.
  - apply IH. intros r' Hin. apply HX. by right.
Qed.

Lemma terminos_rotulos df_sim d0 st :
  terminos_nao_antes df_sim d0 st ->
  fst <$> linhas (quadro (heap st) df_sim) = fst <$> linhas d0.
Proof.
  unfold terminos_nao_antes. generalize (linhas d0) at 1.
  intros l0. induction 1 as [|r0 r l0' l (_ & He & _) _ IH]; [done|].
  cbn. by rewrite IH, He.
Qed.

Lemma max_termino_nao_antes (l0 l : list (Z * Tarefa)) :
  Forall2 termino_nao_antes l0 l ->
  forall m0,
    fold_right (fun r acc => max_data (termino_bl (snd r)) acc) None l0 = Some m0 ->
    exists m,
      fold_right (fun r acc => max_data (termino_bl (snd r)) acc) None l = Some m /\
      m0 <= m.
Proof.
  induction 1 as [|r0 r l0 l Hr _ IH]; intros m0; cbn; [done|].
  destruct (termino_bl (snd r0)) as [f0|] eqn:Hf0.
  - destruct (Hr f0 Hf0) as (f' & -> & Hle).
    destruct (fold_right _ None l0) as [a0|]; cbn.
    + intros [= <-]. destruct (IH a0 eq_refl) as (a & -> & Ha). cbn.
      eexists. split; [done|]. lia.
    + intros [= <-]. destruct (fold_right _ None l) as [a|]; cbn;
        eexists; (split; [done|]); lia.
  - cbn. intros Hm0. destruct (IH m0 Hm0) as (a & -> & Ha).
    destruct (termino_bl (snd r)); cbn; eexists; (split; [done|]); lia.
Qed.

Section NaoAntes.
Variable df_sim : loc.
Variable d0 : DataFrame.
Hypothesis regular : cronograma_regular d0.

Lemma propagar_atraso_terminos fuel idx ai af st :
  terminos_nao_antes df_sim d0 st -> 0 <= ai /\ 0 <= af ->
  em_desfecho (terminos_nao_antes df_sim d0) (propagar_atraso amb fuel df_sim idx ai af st).
Proof.
  apply (propagar_atraso_inv amb df_sim (terminos_nao_antes df_sim d0)
           (fun _ ai' af' => 0 <= ai' /\ 0 <= af')).
  - intros st' idx' HP _. unfold terminos_nao_antes in *. cbn [marcar heap visited].
    eapply Forall2_impl; [exact HP|]. cbn.
    intros r0 r (Hin & He & Hna & Hv). repeat split; try done.
    intros Hnv. apply Hv. intros Hc. apply Hnv. by apply elem_of_union_r.
  - intros st' idx' tarefa i t ai' af' HP [Hai Haf] Hnv Ht Hi Hf.
    pose proof (terminos_rotulos _ _ _ HP) as Hrot.
    unfold terminos_nao_antes in *. rewrite quadro_registrar.
    cbn [marcar heap]. unfold atualizar. cbn [linhas].
    eapply Forall2_atualizar; [exact HP|]. cbn beta.
    intros r0 r Hinr (Hin0 & He & Hna & Hv).
    destruct (Z.eqb_spec (fst r) idx') as [Hidx | Hidx].
    + specialize (Hv ltac:(by rewrite Hidx)). subst r0.
      assert (primeira (quadro (heap st') df_sim) (fst r) = Some (snd r)) as Hp.
      { apply primeira_unica; [|done]. rewrite Hrot. by destruct regular. }
      rewrite Hidx, Ht in Hp. injection Hp as ->.
      split; [done|]. split; [done|]. split.
      * intros f0 Hf0. cbn. rewrite Hf in Hf0. injection Hf0 as <-.
        eexists. split; [done|]. apply novo_termino_nao_antecipa; try done.
        destruct regular as [_ Hreg]. by apply (Hreg r).
      * unfold registrar. cbn [visited marcar fst]. intros Hc. exfalso. apply Hc.
        rewrite Hidx. by apply elem_of_union_l, elem_of_singleton.
    + split; [done|]. split; [done|]. split; [done|].
      unfold registrar. cbn [visited marcar]. intros Hc. apply Hv.
      intros Hv'. apply Hc. by apply elem_of_union_r.
  - intros st0 st' idx' tarefa ai' af' suc ni nt _ _ _ _ _ _. lia.
Qed.
End NaoAntes.

End NoAmbiente.

End TerminoProps.

(** X21. A delay never brings the project finish forward.  In a dataset
    with unique labels whose tasks with valid dates span their
    durations, a simulation with a delay that is not negative returns,
    with its impact table, a finish date that is not before the maximum
    finish date of the dataset. *)
Theorem X21_finish_never_earlier :
  forall amb (h : gmap loc DataFrame) df d idx dias res m0,
    h !! df = Some d -> Tabela.cronograma_regular d -> 0 <= dias ->
    snd (simular_atraso_caminho_critico amb h df idx dias) = Some res ->
    tabela_impacto res <> [] ->
    max_termino d = Some m0 ->
    exists m, nova_data_termino res = Some m /\ m0 <= m.
Proof.
  intros amb h df d idx dias res m0 Hd Hreg Hdias Hres Hne Hm0.
  destruct (RegistroProps.simular_estado_final amb h df d idx dias res Hd Hres)
    as [-> | (st & He & _ & ->)]; [done|].
  pose proof (TerminoProps.propagar_atraso_terminos amb (fresh (dom h)) d Hreg (limite_recursao amb)
                idx dias dias (mkEstado (<[fresh (dom h) := d]> h) ∅ [])) as Hp.
  rewrite He in Hp. cbn [em_desfecho nova_data_termino] in *.
  unfold max_termino in *.
  apply (TerminoProps.max_termino_nao_antes (linhas d)); [|done].
  eapply Forall2_impl; [apply Hp|].
  - unfold Tabela.terminos_nao_antes. cbn [heap]. rewrite SimuladorProps.quadro_insert_eq.
    apply (TerminoProps.Forall2_diagonal (fun r => In r (linhas d))); [done|].
    intros r Hin. repeat split; try done. intros f Hf. eexists. split; [done|]. lia.
  - done.
  - cbn. intros r0 r (_ & _ & Hna & _). exact Hna.
Qed.

(** X21 at task A delayed by 4 days: day 13 before, day 19 after. *)
Lemma X21_witness :
  exists m, nova_data_termino resultado_AB = Some m /\ 13 <= m.
Proof.
  apply (X21_finish_never_earlier pandas_ns store_AB 0%nat df_AB 1 4 resultado_AB 13);
    try reflexivity.
  - split.
    + cbn. repeat constructor; rewrite ?list_elem_of_singleton; cbn;
        try discriminate. intros []%elem_of_nil.
    + intros r i f [<- | [<- | []]]; cbn; intros [= <-] [= <-]; reflexivity.
  - cbn. lia.
  - discriminate.
Defined.

(** ** The short-slack chain analysis *)

Module CadeiasProps.
Import Cadeias.

Lemma laco_resultados_linhas df limite rows :
  (forall r, In r rows -> In r (linhas df) /\ folga_curta limite r = true) ->
  exists tabela,
    laco_resultados df rows = Some tabela /\
    Forall2 (linha_da_tarefa df limite) rows tabela.
Proof.
  induction rows as [|[idx row] rows IH]; intros Hrows.
  - exists []. split; [done|constructor].
  - destruct IH as (tabela & Ht & Hf); [intros r Hr; apply Hrows; by right|].
    destruct (Hrows (idx, row)) as [Hin [Hpos Hlim]%andb_prop]; [by left|].
    apply Z.ltb_lt in Hpos. apply Z.leb_le in Hlim. cbn [snd] in Hpos, Hlim.
    cbn [laco_resultados]. rewrite Ht.
    destruct (Z.eq_dec idx 0) as [-> | Hz].
    + rewrite TracerProps.rastrear_cadeia_zero. eexists. split; [done|].
      constructor; [|done]. repeat split; try done.
    + assert (is_Some (primeira df idx)) as [t Hprim].
      { apply FrameProps.in_index_primeira. unfold in_index.
        apply existsb_exists. exists (idx, row). split; [done|]. apply Z.eqb_refl. }
      destruct (CadeiaProps.rastrear_cadeia_comeca df idx t Hz Hprim)
        as (resto & total & -> & Htot).
      eexists. split; [done|].
      constructor; [|done]. repeat split; try done.
      intros _. exists t, resto. done.
Qed.

End CadeiasProps.

(** X22. The rows of the short-slack chain table.  Without one of the
    four columns the table is empty.  Otherwise there is one row for each
    task with 0 < slack <= limit, in the order of the dataset, and no
    other: it gives the task's name and slack; for a task under a
    non-zero label the chain text starts with the name of the first task
    under that label and, when no slack of the dataset is negative, the
    total is at least that task's slack; for the task under label 0 the
    chain text is empty and the total is 0. *)
Theorem X22_short_slack_rows :
  forall df limite_folga,
    (tem_colunas df Cadeias.colunas_desejadas = false ->
     Cadeias.resultados df limite_folga = Some []) /\
    (tem_colunas df Cadeias.colunas_desejadas = true ->
     exists tabela,
       Cadeias.resultados df limite_folga = Some tabela /\
       Forall2 (Cadeias.linha_da_tarefa df limite_folga)
         (List.filter (Cadeias.folga_curta limite_folga) (linhas df)) tabela).
Proof.
  intros df lim. unfold Cadeias.resultados. split; intros ->; [done|].
  cbn [negb].
  destruct (CadeiasProps.laco_resultados_linhas df lim
              (Cadeias.tarefas_folga_curta df lim)) as (tabela & Ht & Hf).
  { intros r Hr. by apply filter_In in Hr. }
  exists tabela. split; [|done].
  unfold Cadeias.tarefas_folga_curta in *.
  destruct (List.filter _ _); [|done]. by inversion Hf.
Qed.

(** X22 at the cycle example with limit 2: tasks A and B have short
    slack, C has not. *)
Lemma X22_witness :
  exists tabela,
    Cadeias.resultados df_ciclo 2 = Some tabela /\
    Forall2 (Cadeias.linha_da_tarefa df_ciclo 2)
      (List.filter (Cadeias.folga_curta 2) (linhas df_ciclo)) tabela.
Proof. apply (proj2 (X22_short_slack_rows df_ciclo 2)). reflexivity. Defined.

(** ** What the pattern leaves unread *)

Module PadraoProps.
Import ParserProps.

Lemma grupo_rel_outro c resto :
  c <> "F"%char -> c <> "S"%char -> grupo_rel (String c resto) = (None, String c resto).
Proof.
  intros HF HS. unfold grupo_rel.
  destruct (ascii_dec c "F") as [-> | _]; [done|].
  destruct (ascii_dec c "S") as [-> | _]; [done|].
  destruct c as [[] [] [] [] [] [] [] []]; try reflexivity; done.
Qed.

Lemma grupo_lag_outro c resto :
  c <> "+"%char -> c <> "-"%char -> grupo_lag (String c resto) = None.
Proof.
  intros Hm Hn. unfold grupo_lag.
  destruct (Ascii.eqb_spec c "+"); [done|].
  destruct (Ascii.eqb_spec c "-"); [done|]. done.
Qed.

Lemma grupo_lag_resto sinal l lixo :
  e_sinal sinal -> isdigit l = true ->
  match lixo with EmptyString => True | String c _ => is_digit c = false end ->
  grupo_lag (String sinal (l ++ lixo)) = Some (String sinal l).
Proof.
  intros Hs [Hl Hne]%isdigit_todos Hlixo. unfold grupo_lag.
  assert ((Ascii.eqb sinal "+" || Ascii.eqb sinal "-")%bool = true) as ->
    by (destruct Hs as [-> | ->]; reflexivity).
  rewrite (span_digitos_app l lixo Hl Hlixo). cbn [fst]. by destruct l.
Qed.

End PadraoProps.

(** X23. What the pattern of the simulator's parser leaves unread.  After
    a lag, whatever follows that does not start with a digit (the unit
    [dias], a comment) is ignored.  After the id, a character that opens
    neither a code nor a lag (a space, a lower-case letter) ends the
    match: the reference is read as FS with lag 0, whatever code or lag
    is written after it. *)
Theorem X23_unread_text_is_dropped :
  (forall d rel sinal l lixo,
     isdigit d = true -> e_sinal sinal -> isdigit l = true ->
     match lixo with EmptyString => True | String c _ => is_digit c = false end ->
     casar_item (d ++ texto_rel rel ++ String sinal l ++ lixo) =
     Some (mkSucessora d (match rel with Some r => r | None => FS end)
             (py_int (String sinal l)))) /\
  (forall d c resto,
     isdigit d = true -> is_digit c = false ->
     c <> "F"%char -> c <> "S"%char -> c <> "+"%char -> c <> "-"%char ->
     casar_item (d ++ String c resto) = Some (mkSucessora d FS 0)).
Proof.
  split.
  - intros d rel sinal l lixo [Hd Hne]%ParserProps.isdigit_todos Hs Hl Hlixo.
    unfold casar_item. rewrite ParserProps.app_cons.
    rewrite (ParserProps.span_digitos_app _ _ Hd
               (ParserProps.primeiro_nao_digito rel (String sinal (l ++ lixo)) Hs)).
    rewrite (ParserProps.grupo_rel_texto rel (String sinal (l ++ lixo)) Hs).
    rewrite (PadraoProps.grupo_lag_resto _ _ _ Hs Hl Hlixo). by destruct d.
  - intros d c resto [Hd Hne]%ParserProps.isdigit_todos Hc HF HS Hm Hn.
    unfold casar_item.
    rewrite (ParserProps.span_digitos_app d (String c resto) Hd Hc).
    rewrite (PadraoProps.grupo_rel_outro _ _ HF HS).
    rewrite (PadraoProps.grupo_lag_outro _ _ Hm Hn). by destruct d.
Qed.

(** X23 at [12FS+3 dias], read with its lag, and at [12 SS+3], read as
    FS with lag 0. *)
Lemma X23_witness :
  casar_item "12FS+3 dias" = Some (mkSucessora "12" FS 3) /\
  casar_item "12 SS+3" = Some (mkSucessora "12" FS 0).
Proof.
  split.
  - apply (proj1 X23_unread_text_is_dropped "12" (Some FS) "+"%char "3" " dias");
      try reflexivity. by left.
  - apply (proj2 X23_unread_text_is_dropped "12" " "%char "SS+3");
      try reflexivity; discriminate.
Defined.
